(** * csurv-export-metadata: sliced scroll export of message metadata

    A shallow embedding of [csurv-export-metadata.py] and the properties of
    its query compilation, pagination loop, row projection and per-worker
    plan copies.

    - JSON documents ([json.load], [json.loads], [response.json()]) are
      trees of type [json]; a Python [dict] is an association list in
      insertion order, updated the way [d[k] = v] does.
    - JSON numbers are integers ([Z]); fractional numbers are not modelled.
    - Python exceptions are values of type [exn]; fallible code returns a
      [result].
    - The search engine is a script of HTTP responses, consumed one per
      request; logging and wall-clock progress reports have no effect on
      what is returned or written and are left out.
    - For the per-worker copies the objects live in a store of mutable
      dicts and lists addressed by location (section The object store). *)

From Stdlib Require Import ZArith String Ascii List Bool Lia.
From stdpp Require Import base option list strings gmap fin_maps.

Set Warnings "-register-all,-clear-no-such-hyp".

Local Open Scope string_scope.
Local Open Scope list_scope.
Local Open Scope Z_scope.

(* ===================================================================== *)
(** ** JSON values and Python exceptions *)
(* ===================================================================== *)

Inductive json : Type :=
| JNull
| JBool (b : bool)
| JNum (n : Z)
| JStr (s : string)
| JArr (items : list json)
| JObj (fields : list (string * json)).

Inductive exn : Type :=
| Exception (msg : string)
| KeyError (key : string)
| TypeError
| AttributeError
| JSONDecodeError
| HTTPError (status : Z)
| OverflowError
| ZeroDivisionError.

Inductive result (A : Type) : Type :=
| Ok (a : A)
| Raise (e : exn).

Arguments Ok {A} a.
Arguments Raise {A} e.

(** Sequencing: the first exception raised ends the computation. *)
#[global] Instance result_bind : MBind result := λ A B k r,
  match r with
  | Ok a => k a
  | Raise e => Raise e
  end.

#[global] Instance result_ret : MRet result := λ A a, Ok a.

(* ===================================================================== *)
(** ** Python dict and container operations on JSON values *)
(* ===================================================================== *)

(** [d.get(k)] / [d[k]] on the items of a dict. *)
Fixpoint dict_get {V : Type} (k : string) (d : list (string * V)) : option V :=
  match d with
  | [] => None
  | (k', v) :: d' => if String.eqb k k' then Some v else dict_get k d'
  end.

(** [d[k] = v]: an existing key keeps its position, a new key goes last. *)
Fixpoint dict_set {V : Type} (k : string) (v : V) (d : list (string * V))
  : list (string * V) :=
  match d with
  | [] => [(k, v)]
  | (k', v') :: d' =>
      if String.eqb k k' then (k, v) :: d' else (k', v') :: dict_set k v d'
  end.

(** [d.update(other)]: every item of [other] is assigned in turn. *)
Definition dict_update (d other : list (string * json)) : list (string * json) :=
  fold_left (λ acc kv, dict_set kv.1 kv.2 acc) other d.

(** [needle in haystack] on strings. *)
Fixpoint str_contains (needle haystack : string) : bool :=
  String.prefix needle haystack ||
  match haystack with
  | EmptyString => false
  | String _ rest => str_contains needle rest
  end.

(** [k in x]: key membership on a dict, element membership on a list,
    substring test on a str, [TypeError] on anything else. *)
Definition py_contains (k : string) (x : json) : result bool :=
  match x with
  | JObj d => Ok (match dict_get k d with Some _ => true | None => false end)
  | JArr l => Ok (existsb (λ y, match y with JStr s => String.eqb k s | _ => false end) l)
  | JStr s => Ok (str_contains k s)
  | JNull | JBool _ | JNum _ => Raise TypeError
  end.

(** [x[k]] with a str subscript: only a dict accepts it. *)
Definition py_getitem (x : json) (k : string) : result json :=
  match x with
  | JObj d => match dict_get k d with Some v => Ok v | None => Raise (KeyError k) end
  | _ => Raise TypeError
  end.

(** [x[k] = v] with a str subscript. *)
Definition py_setitem (x : json) (k : string) (v : json) : result json :=
  match x with
  | JObj d => Ok (JObj (dict_set k v d))
  | _ => Raise TypeError
  end.

(** [x.append(v)]: only a list has the method. *)
Definition py_append (x : json) (v : json) : result json :=
  match x with
  | JArr l => Ok (JArr (l ++ [v]))
  | _ => Raise AttributeError
  end.

(** [x.update(other)]: only a dict has the method. *)
Definition py_update (x other : json) : result json :=
  match x, other with
  | JObj d, JObj o => Ok (JObj (dict_update d o))
  | JObj _, _ => Raise TypeError
  | _, _ => Raise AttributeError
  end.

(** [x.get(k, '')]: only a dict has the method. *)
Definition py_get_default (x : json) (k : string) : result json :=
  match x with
  | JObj d => Ok (match dict_get k d with Some v => v | None => JStr "" end)
  | _ => Raise AttributeError
  end.

(** [x is None]. *)
Definition py_is_none (x : json) : bool :=
  match x with JNull => true | _ => false end.

(* ===================================================================== *)
(** ** Constants (lines 44-63) *)
(* ===================================================================== *)

Definition es_server : string := "http://localhost:9200".

Definition NUM_SLICES : nat := 10.
Definition BATCH_SIZE : Z := 10000.
Definition SYSTEM_FIELDS : list string := ["_id"].
Definition DOC_TYPE : string := "message".
Definition ES_KEEP_ALIVE : string := "1m".

(** The [JSON_*] constants are JSON texts in the source; each use goes
    through [json.loads], so the embedding holds the parsed documents. *)
Definition JSON_DOC_TYPE_FILTER : json :=
  JObj [("term", JObj [("doc_type", JStr DOC_TYPE)])].
Definition JSON_TRACK_TOTAL_HITS : json :=
  JObj [("track_total_hits", JBool true)].
Definition JSON_SLICE : json :=
  JObj [("slice", JObj [("id", JNum (-1)); ("max", JNum (Z.of_nat NUM_SLICES))])].
Definition JSON_SIZE : json :=
  JObj [("size", JNum BATCH_SIZE)].
Definition JSON_SORT : json :=
  JObj [("sort", JArr [JStr "_doc"])].
Definition JSON_SCROLL_BODY : json :=
  JObj [("scroll", JStr ES_KEEP_ALIVE); ("scroll_id", JStr "")].

Definition VERSION_ES5 : string := "5".
Definition VERSION_ES7 : string := "7".

(** A double quote character, for the messages that contain one. *)
Definition dquote : string := String (ascii_of_nat 34) EmptyString.

Definition missing_field_message (field : string) : string :=
  "JSON query is missing the " +:+ dquote +:+ field +:+ dquote +:+ " field.".

(* ===================================================================== *)
(** ** init_query (lines 237-265) *)
(* ===================================================================== *)

(** The global [es_version] is a parameter. The source mutates
    [query_body] in place and returns it; the nested assignments of lines
    260 and 263 are written back level by level. *)
Definition init_query (es_version : string) (query_body : json) : result json :=
  query_body ← py_update query_body JSON_SLICE ;
  query_body ← py_update query_body JSON_SIZE ;
  query_body ← py_update query_body JSON_SORT ;
  if String.eqb es_version VERSION_ES5 then Ok query_body else
  query_body ← py_update query_body JSON_TRACK_TOTAL_HITS ;
  has_query ← py_contains "query" query_body ;
  if negb has_query then Raise (Exception (missing_field_message "query")) else
  query ← py_getitem query_body "query" ;
  has_bool ← py_contains "bool" query ;
  if negb has_bool then Raise (Exception (missing_field_message "bool")) else
  bool_clause ← py_getitem query "bool" ;
  has_filter ← py_contains "filter" bool_clause ;
  bool_clause ← (if negb has_filter
                 then py_setitem bool_clause "filter" (JArr [])
                 else Ok bool_clause) ;
  filter ← py_getitem bool_clause "filter" ;
  filter ← py_append filter JSON_DOC_TYPE_FILTER ;
  bool_clause ← py_setitem bool_clause "filter" filter ;
  query ← py_setitem query "bool" bool_clause ;
  py_setitem query_body "query" query.

(** get_source_fields (lines 268-272). *)
Definition get_source_fields (query_body : json) : result json :=
  has_source ← py_contains "_source" query_body ;
  if negb has_source then Ok (JArr []) else
  source ← py_getitem query_body "_source" ;
  has_includes ← py_contains "includes" source ;
  if negb has_includes then Ok (JArr []) else
  py_getitem source "includes".

(** The value under a path of keys, as [plan[k1][k2]...] reads it. *)
Fixpoint json_path (path : list string) (x : json) : option json :=
  match path with
  | [] => Some x
  | k :: path' =>
      match x with
      | JObj d => match dict_get k d with Some v => json_path path' v | None => None end
      | _ => None
      end
  end.

(** [x] is a JSON object that has the key [k]. *)
Definition has_key (k : string) (x : json) : bool :=
  match x with
  | JObj d => match dict_get k d with Some _ => true | None => false end
  | _ => false
  end.

(** The three merges of lines 239-241 on the items of a dict. *)
Definition merged (d : list (string * json)) : list (string * json) :=
  dict_set "sort" (JArr [JStr "_doc"])
    (dict_set "size" (JNum BATCH_SIZE)
      (dict_set "slice" (JObj [("id", JNum (-1)); ("max", JNum (Z.of_nat NUM_SLICES))]) d)).

(** [init_query] on an object, past the version test: what is left is the
    validation and the filter injection on the merged items. *)
Definition init_query_es7_tail (d : list (string * json)) : result json :=
  let query_body := JObj (dict_set "track_total_hits" (JBool true) (merged d)) in
  has_query ← py_contains "query" query_body ;
  if negb has_query then Raise (Exception (missing_field_message "query")) else
  query ← py_getitem query_body "query" ;
  has_bool ← py_contains "bool" query ;
  if negb has_bool then Raise (Exception (missing_field_message "bool")) else
  bool_clause ← py_getitem query "bool" ;
  has_filter ← py_contains "filter" bool_clause ;
  bool_clause ← (if negb has_filter
                 then py_setitem bool_clause "filter" (JArr [])
                 else Ok bool_clause) ;
  filter ← py_getitem bool_clause "filter" ;
  filter ← py_append filter JSON_DOC_TYPE_FILTER ;
  bool_clause ← py_setitem bool_clause "filter" filter ;
  query ← py_setitem query "bool" bool_clause ;
  py_setitem query_body "query" query.


(* ===================================================================== *)
(** ** HTTP responses and check_search_response (lines 66-73) *)
(* ===================================================================== *)

(** A [requests.Response]: the status code and the JSON document of the
    body, [None] when the body is not JSON ([response.json()] raises). *)
Record response : Type := Response {
  status_code : Z;
  body : option json
}.

Record request : Type := Request {
  url : string;
  data : option json
}.

Definition codes_ok : Z := 200.
Definition codes_not_found : Z := 404.

Definition response_json (r : response) : result json :=
  match body r with
  | Some doc => Ok doc
  | None => Raise JSONDecodeError
  end.

(** [response.raise_for_status()] raises for the 4xx and 5xx codes only. *)
Definition raise_for_status (r : response) : result unit :=
  if ((400 <=? status_code r) && (status_code r <? 600))%Z
  then Raise (HTTPError (status_code r))
  else Ok tt.

(** Returns [True], [False] or, past the last branch, [None]. The f-string
    handed to [logger.error] evaluates [response.json()]. *)
Definition check_search_response (r : response) : result json :=
  if (status_code r =? codes_ok)%Z then Ok (JBool true)
  else if (status_code r =? codes_not_found)%Z then Ok (JBool false)
  else
    _ ← response_json r ;
    _ ← raise_for_status r ;
    Ok JNull.

(* ===================================================================== *)
(** ** check_es_version (lines 125-145) *)
(* ===================================================================== *)

(** [s.split('.')[0]]. *)
Fixpoint before_dot (s : string) : string :=
  match s with
  | EmptyString => EmptyString
  | String c rest =>
      if Ascii.eqb c "."%char then EmptyString else String c (before_dot rest)
  end.

(** [x.split('.')[0]]: only a str has the method. *)
Definition py_major (x : json) : result json :=
  match x with
  | JStr s => Ok (JStr (before_dot s))
  | _ => Raise AttributeError
  end.

(** [a == b] against a str constant. *)
Definition py_eq_str (x : json) (s : string) : bool :=
  match x with
  | JStr s' => String.eqb s' s
  | _ => false
  end.

Definition unsupported_message (version_number : json) : string :=
  "Unsupported ES version: " +:+
  match version_number with JStr s => s | _ => "" end +:+ ".".

(** Takes the response of the probe [GET /] and returns the value the
    source stores in the global [es_version]. *)
Definition check_es_version (r : response) : result json :=
  _ ← check_search_response r ;
  result ← response_json r ;
  version ← py_getitem result "version" ;
  version_number ← py_getitem version "number" ;
  es_version ← py_major version_number ;
  if py_is_none es_version &&
     negb (py_eq_str es_version VERSION_ES5 || py_eq_str es_version VERSION_ES7)
  then Raise (Exception (unsupported_message version_number))
  else Ok es_version.

(* ===================================================================== *)
(** ** Requests (lines 76-122) *)
(* ===================================================================== *)

Definition search_url (es_version index_pattern : string) : string :=
  if String.eqb es_version VERSION_ES5
  then es_server +:+ "/" +:+ index_pattern +:+ "/" +:+ DOC_TYPE +:+ "/" +:+ "_search"
         +:+ "?scroll=" +:+ ES_KEEP_ALIVE
  else es_server +:+ "/" +:+ index_pattern +:+ "/" +:+ "_search"
         +:+ "?scroll=" +:+ ES_KEEP_ALIVE.

(** [query_body['slice']['id'] = slice_id] (line 84). *)
Definition set_slice_id (query_body : json) (slice_id : Z) : result json :=
  slice ← py_getitem query_body "slice" ;
  slice ← py_setitem slice "id" (JNum slice_id) ;
  py_setitem query_body "slice" slice.

(** What both request functions do with the response they get (lines
    97-99 and 120-122): the value of [check_search_response] is dropped and
    the document of the body is returned. *)
Definition read_response (r : response) : result json :=
  _ ← check_search_response r ;
  response_json r.

(** A request function runs up to its [requests.get] and then on the
    response: it gives the request it sends and what it does with the
    answer. *)
Definition get_message_metadata_search (es_version : string) (slice_id : Z)
    (index_pattern : string) (query_body : json)
  : result (request * (response → result json)) :=
  let url := search_url es_version index_pattern in
  query_body ← set_slice_id query_body slice_id ;
  Ok ({| url := url; data := Some query_body |}, read_response).

(** The scroll body is returned too, as line 107 leaves it. *)
Definition get_message_metadata_scroll (scroll_id : json) (scroll_body : json)
  : result (request * json * (response → result json)) :=
  let url := es_server +:+ "/" +:+ "_search/scroll" in
  scroll_body ← py_setitem scroll_body "scroll_id" scroll_id ;
  Ok ({| url := url; data := Some scroll_body |}, scroll_body, read_response).

(* ===================================================================== *)
(** ** process_slice (lines 148-202) *)
(* ===================================================================== *)

(** [x > 0]; a JSON [true]/[false] is a Python [bool], an [int]. *)
Definition py_gt0 (x : json) : result bool :=
  match x with
  | JNum n => Ok (0 <? n)%Z
  | JBool b => Ok b
  | _ => Raise TypeError
  end.

(** [len(x)]. *)
Definition py_len (x : json) : result nat :=
  match x with
  | JArr l => Ok (length l)
  | JObj d => Ok (length d)
  | JStr s => Ok (String.length s)
  | _ => Raise TypeError
  end.

(** The characters of a str, each a str of length one. *)
Fixpoint str_chars (s : string) : list json :=
  match s with
  | EmptyString => []
  | String c rest => JStr (String c EmptyString) :: str_chars rest
  end.

(** [for y in x]: the items of a list, the keys of a dict, the characters
    of a str. *)
Definition py_iter (x : json) : result (list json) :=
  match x with
  | JArr l => Ok l
  | JObj d => Ok (map (λ kv, JStr kv.1) d)
  | JStr s => Ok (str_chars s)
  | _ => Raise TypeError
  end.

(** The loop condition [total_hits > 0 and len(hits) > 0]. *)
Definition loop_test (total_hits hits : json) : result bool :=
  some_hits ← py_gt0 total_hits ;
  if (some_hits : bool) then (n ← py_len hits ; Ok (0 <? n)%nat) else Ok false.

(** The values of one row (lines 169-178). *)
Definition hit_values (source_fields : list string) (hit : json) : result (list json) :=
  system_values ←
    (if (0 <? length SYSTEM_FIELDS)%nat
     then mapM (py_get_default hit) SYSTEM_FIELDS
     else Ok []) ;
  source_values ←
    (if (0 <? length source_fields)%nat
     then source ← py_getitem hit "_source" ;
          mapM (py_get_default source) source_fields
     else Ok []) ;
  Ok (system_values ++ source_values).

(** [for hit in hits: ... csv_writer.writerow(values)]: a hit that raises
    leaves the rows of the hits before it written. *)
Fixpoint write_rows (source_fields : list string) (hits : list json)
    (rows : list (list json)) : result unit * list (list json) :=
  match hits with
  | [] => (Ok tt, rows)
  | hit :: rest =>
      match hit_values source_fields hit with
      | Ok values => write_rows source_fields rest (rows ++ [values])
      | Raise e => (Raise e, rows)
      end
  end.

(** How a run of one slice ends: it returns, it raises, or the script of
    responses ends while a request is waiting for its answer. *)
Inductive outcome : Type :=
| Returned (v : json)
| Raised (e : exn)
| Starved.

(** What a slice has done: the requests sent, the rows written and the
    responses not consumed. *)
Record trace : Type := Trace {
  sent : list request;
  rows : list (list json);
  pending : list response
}.

(** The [while] loop of lines 166-198, by recursion on the responses still
    to come: every iteration consumes one. *)
Fixpoint paging (source_fields : list string) (total_hits results hits scroll_body : json)
    (inbox : list response) (sent : list request) (rows : list (list json))
    {struct inbox} : outcome * trace :=
  match loop_test total_hits hits with
  | Raise e => (Raised e, Trace sent rows inbox)
  | Ok false => (Returned total_hits, Trace sent rows inbox)
  | Ok true =>
      match py_iter hits with
      | Raise e => (Raised e, Trace sent rows inbox)
      | Ok batch =>
          match write_rows source_fields batch rows with
          | (Raise e, rows) => (Raised e, Trace sent rows inbox)
          | (Ok _, rows) =>
              match (scroll_id ← py_getitem results "_scroll_id" ;
                     get_message_metadata_scroll scroll_id scroll_body) with
              | Raise e => (Raised e, Trace sent rows inbox)
              | Ok (req, scroll_body, receive) =>
                  match inbox with
                  | [] => (Starved, Trace (sent ++ [req]) rows [])
                  | r :: inbox =>
                      match (results ← receive r ;
                             page ← py_getitem results "hits" ;
                             hits ← py_getitem page "hits" ;
                             Ok (results, hits)) with
                      | Raise e => (Raised e, Trace (sent ++ [req]) rows inbox)
                      | Ok (results, hits) =>
                          paging source_fields total_hits results hits scroll_body
                                 inbox (sent ++ [req]) rows
                      end
                  end
              end
          end
      end
  end.

(** [results['hits']['total']] or [results['hits']['total']['value']]
    (lines 157-160). *)
Definition read_total_hits (es_version : string) (results : json) : result json :=
  if String.eqb es_version VERSION_ES5
  then page ← py_getitem results "hits" ; py_getitem page "total"
  else page ← py_getitem results "hits" ;
       total ← py_getitem page "total" ;
       py_getitem total "value".

Definition process_slice (es_version : string) (slice_id : Z) (index_pattern : string)
    (query_body scroll_body : json) (source_fields : list string)
    (inbox : list response) : outcome * trace :=
  match get_message_metadata_search es_version slice_id index_pattern query_body with
  | Raise e => (Raised e, Trace [] [] inbox)
  | Ok (req, receive) =>
      match inbox with
      | [] => (Starved, Trace [req] [] [])
      | r :: inbox =>
          match (results ← receive r ;
                 total_hits ← read_total_hits es_version results ;
                 page ← py_getitem results "hits" ;
                 hits ← py_getitem page "hits" ;
                 Ok (results, total_hits, hits)) with
          | Raise e => (Raised e, Trace [req] [] inbox)
          | Ok (results, total_hits, hits) =>
              paging source_fields total_hits results hits scroll_body inbox [req] []
          end
      end
  end.

(* ===================================================================== *)
(** ** save_message_metadata_to_csv: the workers (lines 205-225) *)
(* ===================================================================== *)

(** The header row (lines 214-216). *)
Definition header_fields (source_fields : list string) : list string :=
  SYSTEM_FIELDS ++ source_fields.

(** [total_msgs += future.result()] on an [int] total. *)
Definition py_add_int (total : Z) (x : json) : result Z :=
  match x with
  | JNum n => Ok (total + n)%Z
  | JBool b => Ok (total + (if b then 1 else 0))%Z
  | _ => Raise TypeError
  end.

(** The loop over [as_completed(futures)] (lines 224-225): [future.result()]
    returns what the worker returned or raises what it raised. *)
Fixpoint gather (total_msgs : Z) (futures : list outcome) : outcome :=
  match futures with
  | [] => Returned (JNum total_msgs)
  | future :: rest =>
      match future with
      | Returned v =>
          match py_add_int total_msgs v with
          | Ok total_msgs => gather total_msgs rest
          | Raise e => Raised e
          end
      | Raised e => Raised e
      | Starved => Starved
      end
  end.

Definition is_starved (o : outcome) : bool :=
  match o with Starved => true | _ => false end.

(** One worker per slice id in [range(NUM_SLICES)], each with the responses
    the engine gives to that slice; [yielded] is the order in which
    [as_completed] hands out the futures: those already finished first, in
    no particular order, then the others as they finish, so it need not be
    the order in which the workers end. Every worker gets a copy of the plan
    and of the scroll body, here the same documents (the copies as objects
    are modelled with the object store below).
    The executor is left only when every worker has ended, so a worker that
    never ends keeps the export from returning.
    This is the function up to line 225: its outcome is the exception that
    leaves the loop over the futures, or the value of [total_msgs] after it.
    What lines 227-234 do with that value is
    [save_message_metadata_to_csv_timed], below. *)
Definition save_message_metadata_to_csv (es_version index_pattern : string)
    (query_body scroll_body : json) (source_fields : list string)
    (engine : nat → list response) (yielded : list nat)
  : outcome * list string * list trace :=
  let header := header_fields source_fields in
  let worker id :=
    process_slice es_version (Z.of_nat id) index_pattern query_body scroll_body
                  source_fields (engine id) in
  let traces := map (λ id, (worker id).2) (seq 0 NUM_SLICES) in
  let futures := map (λ id, (worker id).1) yielded in
  let outcome :=
    if existsb (λ id, is_starved (worker id).1) (seq 0 NUM_SLICES)
    then Starved
    else gather 0 futures in
  (outcome, header, traces).

(* ===================================================================== *)
(** ** Sample documents *)
(* ===================================================================== *)

(** The query document of the scenario in the specification. *)
Definition sample_query : json :=
  JObj [("query", JObj [("bool", JObj [])]);
        ("_source", JObj [("includes", JArr [JStr "subject"])])].

(** Its plan for the newer dialect, as [init_query] returns it. *)
Definition sample_plan : json :=
  JObj [("query", JObj [("bool", JObj [("filter", JArr [JSON_DOC_TYPE_FILTER])])]);
        ("_source", JObj [("includes", JArr [JStr "subject"])]);
        ("slice", JObj [("id", JNum (-1)); ("max", JNum 10)]);
        ("size", JNum 10000);
        ("sort", JArr [JStr "_doc"]);
        ("track_total_hits", JBool true)].

Definition sample_hit (id subject : string) : json :=
  JObj [("_id", JStr id); ("_source", JObj [("subject", JStr subject)])].

(** A page of results in the shape of the newer dialect. *)
Definition sample_results (scroll_id : string) (total : Z) (hits : list json) : json :=
  JObj [("_scroll_id", JStr scroll_id);
        ("hits", JObj [("total", JObj [("value", JNum total); ("relation", JStr "eq")]);
                       ("hits", JArr hits)])].

Definition sample_page (status : Z) (scroll_id : string) (total : Z) (hits : list json)
  : response :=
  {| status_code := status; body := Some (sample_results scroll_id total hits) |}.

(** The body the engine sends with a 404 for an index that does not exist. *)
Definition index_not_found : response :=
  {| status_code := 404;
     body := Some (JObj [("error", JObj [("type", JStr "index_not_found_exception")]);
                         ("status", JNum 404)]) |}.

Definition sample_search_request (slice_id : Z) : request :=
  {| url := "http://localhost:9200/idx/_search?scroll=1m";
     data := Some (JObj
       [("query", JObj [("bool", JObj [("filter", JArr [JSON_DOC_TYPE_FILTER])])]);
        ("_source", JObj [("includes", JArr [JStr "subject"])]);
        ("slice", JObj [("id", JNum slice_id); ("max", JNum 10)]);
        ("size", JNum 10000);
        ("sort", JArr [JStr "_doc"]);
        ("track_total_hits", JBool true)]) |}.

Definition sample_scroll_request (scroll_id : string) : request :=
  {| url := "http://localhost:9200/_search/scroll";
     data := Some (JObj [("scroll", JStr "1m"); ("scroll_id", JStr scroll_id)]) |}.

(** The answer of the engine's root endpoint for a version number. *)
Definition sample_probe (number : string) : response :=
  {| status_code := 200;
     body := Some (JObj [("name", JStr "node-1");
                         ("version", JObj [("number", JStr number)])]) |}.

(* ===================================================================== *)
(** ** The object store *)
(* ===================================================================== *)

(** Python dicts and lists are mutable objects with an identity. A value is
    an atom or a reference to an object of the store; two references to the
    same location are the same object. *)
Definition loc : Type := positive.

Inductive value : Type :=
| VNone
| VBool (b : bool)
| VInt (n : Z)
| VStr (s : string)
| VRef (l : loc).

Inductive object : Type :=
| ODict (items : list (string * value))
| OList (items : list value).

(** [json.load] / [json.loads]: the document as a tree of new objects. *)
Fixpoint load (t : json) (s : gmap loc object) : value * gmap loc object :=
  match t with
  | JNull => (VNone, s)
  | JBool b => (VBool b, s)
  | JNum n => (VInt n, s)
  | JStr x => (VStr x, s)
  | JArr ts =>
      let '(vs, s) :=
        (fix load_list ts s :=
           match ts with
           | [] => ([], s)
           | t :: ts =>
               let '(v, s) := load t s in
               let '(vs, s) := load_list ts s in
               (v :: vs, s)
           end) ts s in
      let l := fresh (dom s) in
      (VRef l, <[l := OList vs]> s)
  | JObj kts =>
      let '(kvs, s) :=
        (fix load_items kts s :=
           match kts with
           | [] => ([], s)
           | (k, t) :: kts =>
               let '(v, s) := load t s in
               let '(kvs, s) := load_items kts s in
               ((k, v) :: kvs, s)
           end) kts s in
      let l := fresh (dom s) in
      (VRef l, <[l := ODict kvs]> s)
  end.

(** [json.dumps]: the document an object graph reads as. The fuel bounds
    the nesting depth. *)
Fixpoint dump_fuel (fuel : nat) (s : gmap loc object) (v : value) : option json :=
  match v with
  | VNone => Some JNull
  | VBool b => Some (JBool b)
  | VInt n => Some (JNum n)
  | VStr x => Some (JStr x)
  | VRef l =>
      match fuel with
      | O => None
      | S fuel =>
          match s !! l with
          | Some (OList vs) => JArr <$> mapM (dump_fuel fuel s) vs
          | Some (ODict kvs) =>
              JObj <$> mapM (λ kv, pair kv.1 <$> dump_fuel fuel s kv.2) kvs
          | None => None
          end
      end
  end.

(** No chain of distinct objects is longer than the store. *)
Definition dump (s : gmap loc object) (v : value) : option json :=
  dump_fuel (S (size s)) s v.

(** The loops of [_deepcopy_list] and [_deepcopy_dict] over the items,
    given the copy function for one value. *)
Fixpoint copy_list
    (copy : value → gmap loc loc → gmap loc object →
            option (value * gmap loc loc * gmap loc object))
    (items : list value) (memo : gmap loc loc) (s : gmap loc object)
  : option (list value * gmap loc loc * gmap loc object) :=
  match items with
  | [] => Some ([], memo, s)
  | a :: items =>
      '(a', memo, s) ← copy a memo s ;
      '(items', memo, s) ← copy_list copy items memo s ;
      Some (a' :: items', memo, s)
  end.

Fixpoint copy_dict
    (copy : value → gmap loc loc → gmap loc object →
            option (value * gmap loc loc * gmap loc object))
    (items : list (string * value)) (memo : gmap loc loc) (s : gmap loc object)
  : option (list (string * value) * gmap loc loc * gmap loc object) :=
  match items with
  | [] => Some ([], memo, s)
  | (k, a) :: items =>
      '(a', memo, s) ← copy a memo s ;
      '(items', memo, s) ← copy_dict copy items memo s ;
      Some ((k, a') :: items', memo, s)
  end.

(** [copy.deepcopy(x, memo)]: an atom is returned as it is; an object
    already in the memo gives the copy recorded for it; otherwise the new
    container is created empty and recorded before its items are copied
    into it. The keys of a dict are strs, which are atoms, and distinct, so
    the items of the copy are the copied values under the same keys. *)
Fixpoint deepcopy_fuel (fuel : nat) (x : value) (memo : gmap loc loc)
    (s : gmap loc object) : option (value * gmap loc loc * gmap loc object) :=
  match x with
  | VRef l =>
      match memo !! l with
      | Some l' => Some (VRef l', memo, s)
      | None =>
          match fuel with
          | O => None
          | S fuel =>
              match s !! l with
              | Some (OList items) =>
                  let l' := fresh (dom s) in
                  '(items', memo, s) ←
                    copy_list (deepcopy_fuel fuel) items
                              (<[l := l']> memo) (<[l' := OList []]> s) ;
                  Some (VRef l', memo, <[l' := OList items']> s)
              | Some (ODict items) =>
                  let l' := fresh (dom s) in
                  '(items', memo, s) ←
                    copy_dict (deepcopy_fuel fuel) items
                              (<[l := l']> memo) (<[l' := ODict []]> s) ;
                  Some (VRef l', memo, <[l' := ODict items']> s)
              | None => None
              end
          end
      end
  | _ => Some (x, memo, s)
  end.

(** [copy.deepcopy(x)], with a new memo; the fuel exceeds the depth of
    every tree of the store. *)
Definition deepcopy (x : value) (s : gmap loc object)
  : option (value * gmap loc object) :=
  '(y, _, s) ← deepcopy_fuel (S (size s)) x ∅ s ;
  Some (y, s).

(** [x[k]] and [x[k] = v] on an object of the store. *)
Definition store_getitem (s : gmap loc object) (x : value) (k : string) : result value :=
  match x with
  | VRef l =>
      match s !! l with
      | Some (ODict items) =>
          match dict_get k items with
          | Some v => Ok v
          | None => Raise (KeyError k)
          end
      | _ => Raise TypeError
      end
  | _ => Raise TypeError
  end.

Definition store_setitem (s : gmap loc object) (x : value) (k : string) (v : value)
  : result (gmap loc object) :=
  match x with
  | VRef l =>
      match s !! l with
      | Some (ODict items) => Ok (<[l := ODict (dict_set k v items)]> s)
      | _ => Raise TypeError
      end
  | _ => Raise TypeError
  end.

(** Line 84, [query_body['slice']['id'] = slice_id], on the worker's object. *)
Definition assign_slice_id (s : gmap loc object) (query_body : value) (slice_id : Z)
  : result (gmap loc object) :=
  slice ← store_getitem s query_body "slice" ;
  store_setitem s slice "id" (VInt slice_id).

(** Line 107, [query_body['scroll_id'] = scroll_id]. *)
Definition assign_scroll_id (s : gmap loc object) (scroll_body : value) (scroll_id : string)
  : result (gmap loc object) :=
  store_setitem s scroll_body "scroll_id" (VStr scroll_id).

(** A submitted worker holds its slice id and its two copies. *)
Record worker : Type := Worker {
  slice_id : nat;
  query_copy : value;
  scroll_copy : value
}.

Record pool : Type := Pool {
  heap : gmap loc object;
  workers : list worker
}.

(** What the threads do to the store, in the order the scheduler picks:
    the main thread submits the next worker with its two deep copies (line
    222), a worker assigns its slice id before its search request, a worker
    assigns a scroll id before a scroll request. *)
Inductive event : Type :=
| Submit
| AssignSlice (id : nat)
| AssignScroll (id : nat) (scroll_id : string).

(** An event that is not enabled (no slice left to submit, no such worker)
    changes nothing; so does an assignment that raises. *)
Definition step (query_body scroll_body : value) (σ : pool) (ev : event) : pool :=
  match ev with
  | Submit =>
      let id := length (workers σ) in
      if (id <? NUM_SLICES)%nat then
        match deepcopy query_body (heap σ) with
        | Some (query_copy, s) =>
            match deepcopy scroll_body s with
            | Some (scroll_copy, s) =>
                Pool s (workers σ ++ [Worker id query_copy scroll_copy])
            | None => σ
            end
        | None => σ
        end
      else σ
  | AssignSlice id =>
      match workers σ !! id with
      | Some w =>
          match assign_slice_id (heap σ) (query_copy w) (Z.of_nat (slice_id w)) with
          | Ok s => Pool s (workers σ)
          | Raise _ => σ
          end
      | None => σ
      end
  | AssignScroll id scroll_id =>
      match workers σ !! id with
      | Some w =>
          match assign_scroll_id (heap σ) (scroll_copy w) scroll_id with
          | Ok s => Pool s (workers σ)
          | Raise _ => σ
          end
      | None => σ
      end
  end.

Definition run (query_body scroll_body : value) (events : list event) (σ : pool) : pool :=
  fold_left (step query_body scroll_body) events σ.

(** *** Trees in the store *)

(** The values [vs] hold the documents [ts] by a relation [R] that also
    gives the locations each one occupies; no two of them share a location. *)
Inductive trees_at (R : value → json → gset loc → Prop)
  : list value → list json → gset loc → Prop :=
| trees_nil : trees_at R [] [] ∅
| trees_cons v t vs ts fp1 fp2 :
    R v t fp1 → trees_at R vs ts fp2 → fp1 ## fp2 →
    trees_at R (v :: vs) (t :: ts) (fp1 ∪ fp2).

(** [tree_at n s v t fp]: in the store [s] the value [v] is the root of a
    tree of objects of depth at most [n] that reads as the document [t] and
    occupies exactly the locations [fp], each of them once (no object is
    reached twice). This is the shape of what [json.load] builds and of
    what [init_query] leaves. *)
Fixpoint tree_at (n : nat) (s : gmap loc object) (v : value) (t : json)
    (fp : gset loc) : Prop :=
  match v with
  | VNone => t = JNull ∧ fp = ∅
  | VBool b => t = JBool b ∧ fp = ∅
  | VInt z => t = JNum z ∧ fp = ∅
  | VStr x => t = JStr x ∧ fp = ∅
  | VRef l =>
      match n with
      | O => False
      | S n =>
          ∃ fp', (l ∉ fp') ∧ fp = {[l]} ∪ fp' ∧
          match s !! l with
          | Some (OList vs) =>
              ∃ ts, t = JArr ts ∧ trees_at (tree_at n s) vs ts fp'
          | Some (ODict kvs) =>
              ∃ kts, t = JObj kts ∧ kvs.*1 = kts.*1 ∧
                     trees_at (tree_at n s) kvs.*2 kts.*2 fp'
          | None => False
          end
      end
  end.

(** The documents without parts, and the values that hold them. *)
Definition is_atom (t : json) : bool :=
  match t with
  | JArr _ | JObj _ => false
  | _ => true
  end.

(** What copying a tree has to achieve, for a copy function and a depth:
    the call returns; nothing that was in the store has changed; the result
    is a tree for the same document on locations that were free; and the
    memo has grown by locations of the original only. *)
Definition copies_trees (n : nat)
    (copy : value → gmap loc loc → gmap loc object →
            option (value * gmap loc loc * gmap loc object)) : Prop :=
  ∀ s x t fp memo,
    tree_at n s x t fp → dom memo ## fp →
    ∃ x' memo' s' fp',
      copy x memo s = Some (x', memo', s') ∧
      s ⊆ s' ∧
      tree_at n s' x' t fp' ∧
      fp' ## dom s ∧
      dom memo' ⊆ dom memo ∪ fp.

(** The value that holds an atom. *)
Definition atom_value (t : json) : value :=
  match t with
  | JBool b => VBool b
  | JNum n => VInt n
  | JStr x => VStr x
  | _ => VNone
  end.

(** The plan with items [fields] and slice specification [slice], once the
    slice id [x] is assigned, and the scroll body with the scroll id [x]. *)
Definition plan_for (fields slice : list (string * json)) (x : Z) : json :=
  JObj (dict_set "slice" (JObj (dict_set "id" (JNum x) slice)) fields).

Definition scroll_for (x : string) : json :=
  JObj [("scroll", JStr ES_KEEP_ALIVE); ("scroll_id", JStr x)].

(** *** The invariant of the pool *)

(** The worker [w] submitted for slice [id] owns the locations [fp]: they
    are those of its plan, a tree that reads as the template's plan with
    the slice id of the template ([id0]) or with its own, and those of its
    scroll body, a tree of its own. *)
Definition worker_owns (fields slice : list (string * json)) (id0 : Z)
    (s : gmap loc object) (id : nat) (w : worker) (fp : gset loc) : Prop :=
  slice_id w = id ∧
  ∃ nq ns fq fs x tok,
    fq ## fs ∧ fp = fq ∪ fs ∧
    (x = id0 ∨ x = Z.of_nat id) ∧
    tree_at nq s (query_copy w) (plan_for fields slice x) fq ∧
    tree_at ns s (scroll_copy w) (scroll_for tok) fs.

(** Every object that was in the store [s0] when the first worker was
    submitted is as it was; the workers own pairwise disjoint sets of
    locations, none of them in [s0]. *)
Definition pool_inv (fields slice : list (string * json)) (id0 : Z)
    (s0 : gmap loc object) (σ : pool) : Prop :=
  s0 ⊆ heap σ ∧
  (length (workers σ) ≤ NUM_SLICES)%nat ∧
  ∃ fps : list (gset loc),
    length fps = length (workers σ) ∧
    (∀ i w fp, workers σ !! i = Some w → fps !! i = Some fp →
       worker_owns fields slice id0 (heap σ) i w fp ∧ fp ## dom s0) ∧
    (∀ i j fpi fpj, i ≠ j → fps !! i = Some fpi → fps !! j = Some fpj → fpi ## fpj).

(** *** Independence of the workers' copies *)

(** The statement about the copies, for a compiled [plan] that [json.load]
    and [init_query] left as a tree in a store [s_init] extends, the scroll
    body of line 302, and the store reached after the [events]:
    - the templates are untouched: every object the store held before the
      first submission is as it was, and both templates dump as before;
    - a submission gives the next worker copies that dump as the templates
      and changes no object that existed;
    - for every worker, assigning its slice id (line 84) succeeds and makes
      its own plan dump with its slice id, while the templates and the plan
      and scroll body of every other worker dump as before. *)
Definition copies_independent (plan : json) (s_init : gmap loc object)
    (events : list event) : Prop :=
  let '(query_body, s1) := load plan s_init in
  let '(scroll_body, s2) := load JSON_SCROLL_BODY s1 in
  let σ := run query_body scroll_body events (Pool s2 []) in
  (s2 ⊆ heap σ ∧
   dump (heap σ) query_body = Some plan ∧
   dump (heap σ) scroll_body = Some JSON_SCROLL_BODY ∧
   (length (workers σ) ≤ NUM_SLICES)%nat) ∧
  ((length (workers σ) < NUM_SLICES)%nat →
   let σ' := step query_body scroll_body σ Submit in
   ∃ w, workers σ' = workers σ ++ [w] ∧
        slice_id w = length (workers σ) ∧
        heap σ ⊆ heap σ' ∧
        dump (heap σ') (query_copy w) = Some plan ∧
        dump (heap σ') (scroll_copy w) = Some JSON_SCROLL_BODY) ∧
  (∀ id w, workers σ !! id = Some w →
     slice_id w = id ∧
     ∃ plan_id,
       set_slice_id plan (Z.of_nat id) = Ok plan_id ∧
       (dump (heap σ) (query_copy w) = Some plan ∨
        dump (heap σ) (query_copy w) = Some plan_id) ∧
       let σ' := step query_body scroll_body σ (AssignSlice id) in
       workers σ' = workers σ ∧
       dump (heap σ') (query_copy w) = Some plan_id ∧
       s2 ⊆ heap σ' ∧
       dump (heap σ') query_body = Some plan ∧
       dump (heap σ') scroll_body = Some JSON_SCROLL_BODY ∧
       ∀ j w', j ≠ id → workers σ !! j = Some w' →
         dump (heap σ') (query_copy w') = dump (heap σ) (query_copy w') ∧
         dump (heap σ') (scroll_copy w') = dump (heap σ) (scroll_copy w')).

(* ===================================================================== *)
(** ** Pages of results *)
(* ===================================================================== *)

(** One page as the loop of [process_slice] takes it in: the document of
    the response, the scroll id and the hits it holds, and the rows of these
    hits. *)
Record page : Type := Page {
  page_results : json;
  page_scroll_id : json;
  page_hits : list json;
  page_rows : list (list json)
}.

(** The page has a scroll id and a batch of at least one hit, and every hit
    of the batch gives its row. *)
Definition page_ok (source_fields : list string) (p : page) : Prop :=
  py_getitem (page_results p) "_scroll_id" = Ok (page_scroll_id p) ∧
  json_path ["hits"; "hits"] (page_results p) = Some (JArr (page_hits p)) ∧
  page_hits p ≠ [] ∧
  mapM (hit_values source_fields) (page_hits p) = Ok (page_rows p).

(** The scroll request for a scroll id, from a scroll body with the items
    [scroll_fields]. *)
Definition scroll_request_for (scroll_fields : list (string * json)) (scroll_id : json)
  : request :=
  {| url := es_server +:+ "/" +:+ "_search/scroll";
     data := Some (JObj (dict_set "scroll_id" scroll_id scroll_fields)) |}.

(** The text has no dot. *)
Fixpoint no_dot (s : string) : bool :=
  match s with
  | EmptyString => true
  | String c rest => negb (Ascii.eqb c "."%char) && no_dot rest
  end.

(* ===================================================================== *)
(** ** The batches a slice reads *)
(* ===================================================================== *)

(** The hits of a batch as the [for] loop of line 168 goes through them;
    none when the batch cannot be iterated. *)
Definition batch_hits (hits : json) : list json :=
  match py_iter hits with
  | Ok batch => batch
  | Raise _ => []
  end.

(** The batch [results['hits']['hits']] of the body of a response; none
    when the body is not JSON or has no batch. *)
Definition response_hits (r : response) : list json :=
  match (results ← response_json r ;
         page ← py_getitem results "hits" ;
         py_getitem page "hits") with
  | Ok hits => batch_hits hits
  | Raise _ => []
  end.

(** [row] is the row of [hit] (lines 169-178). *)
Definition row_of (source_fields : list string) (hit : json) (row : list json) : Prop :=
  hit_values source_fields hit = Ok row.

(** A hit of the engine that carries no document, as an index whose mapping
    switches [_source] off returns them. *)
Definition sample_bare_hit (id : string) : json :=
  JObj [("_id", JStr id); ("_score", JNum 1)].

(* ===================================================================== *)
(** ** save_message_metadata_to_csv: the report (lines 227-234) *)
(* ===================================================================== *)

(** A reading of [time.time()], a finite [float]. The export looks at two
    readings only through their difference being zero, and the difference
    of two finite floats is zero exactly when they are equal: a reading is
    given by the integer that numbers it among the floats. *)
Definition clock : Type := Z.

(** The least [int] that has no [float]: the integers from here on round
    to [2 ** 1024]. *)
Definition FLOAT_OVERFLOW : Z := 2 ^ 1024 - 2 ^ 970.

(** [total_msgs / exec_time if total_msgs > 0 else 0] (line 230), with
    [exec_time = end_exec - start_exec]: the [int] is converted to a
    [float] first, which raises [OverflowError] when it has none, and the
    division then raises [ZeroDivisionError] for a zero divisor. The
    quotient goes to the log only. *)
Definition docs_per_sec (total_msgs : Z) (start_exec end_exec : clock) : result unit :=
  if (0 <? total_msgs)%Z
  then if (FLOAT_OVERFLOW <=? total_msgs)%Z then Raise OverflowError
       else if (end_exec =? start_exec)%Z then Raise ZeroDivisionError
       else Ok tt
  else Ok tt.

(** The sum of the totals of the slices 0 to [NUM_SLICES - 1]. *)
Definition sum_totals (totals : nat → Z) : Z :=
  foldr Z.add 0 (map totals (seq 0 NUM_SLICES)).

(** The whole function: the workers, then the report of lines 227-232 with
    the readings of the clock of lines 211 and 227, then [return
    total_msgs]. An exception of the loop over the futures leaves before
    the report. *)
Definition save_message_metadata_to_csv_timed (es_version index_pattern : string)
    (query_body scroll_body : json) (source_fields : list string)
    (engine : nat → list response) (yielded : list nat) (start_exec end_exec : clock)
  : outcome * list string * list trace :=
  let '(outcome, header, traces) :=
    save_message_metadata_to_csv es_version index_pattern query_body scroll_body
                                 source_fields engine yielded in
  match outcome with
  | Returned (JNum total_msgs) =>
      match docs_per_sec total_msgs start_exec end_exec with
      | Ok _ => (Returned (JNum total_msgs), header, traces)
      | Raise e => (Raised e, header, traces)
      end
  | _ => (outcome, header, traces)
  end.
(* ===================================================================== *)
(** * Properties *)
(* ===================================================================== *)

Example init_query_es5_empty :
  init_query "5" (JObj []) =
  Ok (JObj [("slice", JObj [("id", JNum (-1)); ("max", JNum 10)]);
            ("size", JNum 10000); ("sort", JArr [JStr "_doc"])]).
Proof. reflexivity. Qed.

Example init_query_es7_bool :
  init_query "7" (JObj [("query", JObj [("bool", JObj [])])]) =
  Ok (JObj [("query", JObj [("bool", JObj [("filter",
              JArr [JObj [("term", JObj [("doc_type", JStr "message")])]])])]);
            ("slice", JObj [("id", JNum (-1)); ("max", JNum 10)]);
            ("size", JNum 10000); ("sort", JArr [JStr "_doc"]);
            ("track_total_hits", JBool true)]).
Proof. reflexivity. Qed.

(* ===================================================================== *)
(** ** Dict lemmas *)
(* ===================================================================== *)

Lemma dict_get_set_eq {V} k (v : V) d : dict_get k (dict_set k v d) = Some v.
Proof.
  induction d as [|[k' v'] d IH]; simpl.
  - by rewrite String.eqb_refl.
  - destruct (String.eqb k k') eqn:E; simpl; rewrite ?String.eqb_refl, ?E; done.
Qed.

Lemma dict_get_set_ne {V} k k' (v : V) d :
  k ≠ k' → dict_get k (dict_set k' v d) = dict_get k d.
Proof.
  intros Hne. induction d as [|[k0 v0] d IH]; simpl.
  - destruct (String.eqb_spec k k'); done.
  - destruct (String.eqb_spec k' k0) as [->|Hk0]; simpl.
    + destruct (String.eqb_spec k k0); done.
    + destruct (String.eqb_spec k k0); done.
Qed.

Lemma dict_get_set {V} k k' (v : V) d :
  dict_get k (dict_set k' v d) = if String.eqb k k' then Some v else dict_get k d.
Proof.
  destruct (String.eqb_spec k k') as [->|Hne].
  - apply dict_get_set_eq.
  - by apply dict_get_set_ne.
Qed.


Lemma merged_slice d :
  dict_get "slice" (merged d) =
  Some (JObj [("id", JNum (-1)); ("max", JNum (Z.of_nat NUM_SLICES))]).
Proof. unfold merged. by rewrite !dict_get_set. Qed.

Lemma merged_size d : dict_get "size" (merged d) = Some (JNum BATCH_SIZE).
Proof. unfold merged. by rewrite !dict_get_set. Qed.

Lemma merged_sort d : dict_get "sort" (merged d) = Some (JArr [JStr "_doc"]).
Proof. unfold merged. by rewrite !dict_get_set. Qed.

Lemma merged_other k d :
  k ≠ "slice" → k ≠ "size" → k ≠ "sort" → dict_get k (merged d) = dict_get k d.
Proof. intros. unfold merged. by rewrite !dict_get_set_ne. Qed.

Lemma init_query_not_object es q :
  (∀ d, q ≠ JObj d) → init_query es q = Raise AttributeError.
Proof. intros H. destruct q; try done. by destruct (H fields). Qed.

(** [init_query] on an object, for the older dialect. *)
Lemma init_query_es5 d : init_query VERSION_ES5 (JObj d) = Ok (JObj (merged d)).
Proof. reflexivity. Qed.


Lemma init_query_es7 es d :
  String.eqb es VERSION_ES5 = false →
  init_query es (JObj d) = init_query_es7_tail d.
Proof.
  intros Hes. unfold init_query, init_query_es7_tail.
  cbn [py_update JSON_SLICE JSON_SIZE JSON_SORT JSON_TRACK_TOTAL_HITS
       mbind result_bind dict_update fold_left fst snd].
  by rewrite Hes.
Qed.

Lemma merged_query d :
  dict_get "query" (dict_set "track_total_hits" (JBool true) (merged d)) =
  dict_get "query" d.
Proof. rewrite dict_get_set_ne by done. by apply merged_other. Qed.

(* ===================================================================== *)
(** ** init_query: the merged pagination keys *)
(* ===================================================================== *)

Ltac result_cases :=
  repeat match goal with
  | H : Raise _ = Ok _ |- _ => discriminate H
  | H : Ok _ = Ok _ |- _ => injection H as H
  | H : context [mbind _ ?r] |- _ =>
      let E := fresh "E" in destruct r eqn:E; cbn [mbind result_bind] in H
  | H : context [if ?b then _ else _] |- _ =>
      let E := fresh "E" in destruct b eqn:E
  end.

Lemma init_query_es7_tail_ok d plan :
  init_query_es7_tail d = Ok plan →
  ∃ query, plan = JObj (dict_set "query" query
                          (dict_set "track_total_hits" (JBool true) (merged d))).
Proof.
  unfold init_query_es7_tail. cbv zeta. intros H.
  result_cases; cbn [py_setitem] in H; injection H as <-; eauto.
Qed.

(** C4. Whatever the query document held under [slice], [size] and [sort],
    the plan that [init_query] returns has the slice specification
    [{id: -1, max: NUM_SLICES}], the page size [BATCH_SIZE] and the sort
    [["_doc"]]. *)
Theorem init_query_overwrites_pagination_keys es_version query_body plan :
  init_query es_version query_body = Ok plan →
  json_path ["slice"] plan =
    Some (JObj [("id", JNum (-1)); ("max", JNum (Z.of_nat NUM_SLICES))]) ∧
  json_path ["size"] plan = Some (JNum BATCH_SIZE) ∧
  json_path ["sort"] plan = Some (JArr [JStr "_doc"]).
Proof.
  intros H. destruct query_body as [| | | | |d]; try discriminate H.
  destruct (String.eqb es_version VERSION_ES5) eqn:Hes.
  - apply String.eqb_eq in Hes as ->. rewrite init_query_es5 in H.
    injection H as <-. cbn [json_path].
    by rewrite merged_slice, merged_size, merged_sort.
  - rewrite (init_query_es7 _ _ Hes) in H.
    apply init_query_es7_tail_ok in H as [query ->]. cbn [json_path].
    rewrite !(dict_get_set_ne _ "query"), !(dict_get_set_ne _ "track_total_hits") by done.
    by rewrite merged_slice, merged_size, merged_sort.
Qed.

Lemma init_query_overwrites_pagination_keys_witness :
  let doc := JObj [("slice", JObj [("id", JNum 3); ("max", JNum 2)]);
                   ("size", JNum 1); ("sort", JArr [JStr "date"]);
                   ("query", JObj [("bool", JObj [])])] in
  ∃ plan, init_query VERSION_ES7 doc = Ok plan ∧
    json_path ["slice"] plan = Some (JObj [("id", JNum (-1)); ("max", JNum 10)]) ∧
    json_path ["size"] plan = Some (JNum 10000) ∧
    json_path ["sort"] plan = Some (JArr [JStr "_doc"]).
Proof.
  intros doc. eexists. split; [vm_compute; reflexivity|].
  apply (init_query_overwrites_pagination_keys VERSION_ES7 doc).
  vm_compute. reflexivity.
Defined.

(* ===================================================================== *)
(** ** init_query: the older dialect *)
(* ===================================================================== *)

(** C10. For the V5 dialect [init_query] accepts every JSON object: it
    returns the document with [slice], [size] and [sort] merged and nothing
    else done. No [query] or [bool] key is required, [track_total_hits] is
    not set and the [query] value, hence any filter list in it, is the
    caller's. *)
Theorem init_query_es5_only_merges (fields : list (string * json)) :
  ∃ plan,
    init_query VERSION_ES5 (JObj fields) = Ok plan ∧
    plan = JObj (dict_set "sort" (JArr [JStr "_doc"])
                  (dict_set "size" (JNum BATCH_SIZE)
                    (dict_set "slice"
                       (JObj [("id", JNum (-1)); ("max", JNum (Z.of_nat NUM_SLICES))])
                       fields))) ∧
    json_path ["track_total_hits"] plan = dict_get "track_total_hits" fields ∧
    json_path ["query"] plan = dict_get "query" fields ∧
    json_path ["query"; "bool"; "filter"] plan =
      json_path ["query"; "bool"; "filter"] (JObj fields).
Proof.
  exists (JObj (merged fields)). split; [apply init_query_es5|].
  split; [reflexivity|]. cbn [json_path].
  rewrite !merged_other by done.
  by destruct (dict_get "track_total_hits" fields), (dict_get "query" fields).
Qed.

(* ===================================================================== *)
(** ** init_query: the newer dialect *)
(* ===================================================================== *)

Lemma eqb_version_ne es : es ≠ VERSION_ES5 → String.eqb es VERSION_ES5 = false.
Proof. intros H. by apply String.eqb_neq. Qed.

(** A document without a [query] key is refused with the message of line 251. *)
Lemma init_query_es7_missing_query es d :
  es ≠ VERSION_ES5 → dict_get "query" d = None →
  init_query es (JObj d) = Raise (Exception (missing_field_message "query")).
Proof.
  intros Hes Hq. rewrite (init_query_es7 _ _ (eqb_version_ne _ Hes)).
  unfold init_query_es7_tail. cbv zeta. cbn [py_contains mbind result_bind].
  by rewrite merged_query, Hq.
Qed.

(** A [query] object without a [bool] key is refused with the message of
    line 255. *)
Lemma init_query_es7_missing_bool es d qd :
  es ≠ VERSION_ES5 → dict_get "query" d = Some (JObj qd) → dict_get "bool" qd = None →
  init_query es (JObj d) = Raise (Exception (missing_field_message "bool")).
Proof.
  intros Hes Hq Hb. rewrite (init_query_es7 _ _ (eqb_version_ne _ Hes)).
  unfold init_query_es7_tail. cbv zeta.
  cbn [py_contains py_getitem mbind result_bind].
  rewrite merged_query, Hq. cbn [negb py_contains mbind result_bind].
  by rewrite Hb.
Qed.

(** C5. For the newer dialect [init_query] raises on every query document
    that has no [query] key and on every one whose [query] value has no
    [bool] key. [init_query] takes and returns documents only, so no search
    request can precede the error. *)
Theorem init_query_es7_requires_bool_wrapper es_version query_body :
  es_version ≠ VERSION_ES5 →
  has_key "query" query_body = false ∨
  (∃ query, json_path ["query"] query_body = Some query ∧
            has_key "bool" query = false) →
  ∃ e, init_query es_version query_body = Raise e.
Proof.
  intros Hes Hdoc.
  destruct query_body as [| | | | |d]; try (by eexists).
  destruct (dict_get "query" d) as [query|] eqn:Hq.
  - destruct Hdoc as [Hno|(query' & Hpath & Hbool)].
    { cbn [has_key] in Hno. by rewrite Hq in Hno. }
    cbn [json_path] in Hpath. rewrite Hq in Hpath. injection Hpath as <-.
    destruct query as [| | |s|l|qd].
    6: { destruct (dict_get "bool" qd) eqn:Hb.
         - cbn [has_key] in Hbool. by rewrite Hb in Hbool.
         - eexists. by eapply init_query_es7_missing_bool. }
    all: rewrite (init_query_es7 _ _ (eqb_version_ne _ Hes));
      unfold init_query_es7_tail; cbv zeta;
      cbn [py_contains py_getitem mbind result_bind];
      rewrite merged_query, Hq; cbn [negb py_contains py_getitem mbind result_bind];
      try (by eexists).
    + destruct (str_contains "bool" s); by eexists.
    + destruct (existsb _ l); by eexists.
  - eexists. by apply init_query_es7_missing_query.
Qed.

Lemma init_query_es7_requires_bool_wrapper_witness :
  (∃ e, init_query VERSION_ES7 (JObj [("_source", JObj [("includes", JArr [JStr "subject"])])])
        = Raise e) ∧
  (∃ e, init_query VERSION_ES7 (JObj [("query", JObj [("match_all", JObj [])])])
        = Raise e).
Proof.
  split.
  - apply (init_query_es7_requires_bool_wrapper VERSION_ES7); [done|].
    left. reflexivity.
  - apply (init_query_es7_requires_bool_wrapper VERSION_ES7); [done|].
    right. eexists. split; reflexivity.
Defined.

(** C6. For the newer dialect, a document whose [query] holds a [bool]
    object compiles: without a [filter] key the plan's filter list is
    exactly the injected [doc_type] term filter, and a filter list that was
    there gets exactly that one clause appended. *)
Theorem init_query_es7_injects_type_filter es_version fields query_fields bool_fields :
  es_version ≠ VERSION_ES5 →
  dict_get "query" fields = Some (JObj query_fields) →
  dict_get "bool" query_fields = Some (JObj bool_fields) →
  (dict_get "filter" bool_fields = None →
   ∃ plan, init_query es_version (JObj fields) = Ok plan ∧
           json_path ["query"; "bool"; "filter"] plan =
             Some (JArr [JSON_DOC_TYPE_FILTER])) ∧
  (∀ clauses, dict_get "filter" bool_fields = Some (JArr clauses) →
   ∃ plan, init_query es_version (JObj fields) = Ok plan ∧
           json_path ["query"; "bool"; "filter"] plan =
             Some (JArr (clauses ++ [JSON_DOC_TYPE_FILTER]))).
Proof.
  intros Hes Hq Hb.
  rewrite (init_query_es7 _ _ (eqb_version_ne _ Hes)).
  unfold init_query_es7_tail. cbv zeta.
  cbn [py_contains py_getitem mbind result_bind].
  rewrite merged_query, Hq. cbn [negb py_contains py_getitem mbind result_bind].
  rewrite Hb. cbn [negb py_contains py_getitem mbind result_bind].
  split.
  - intros Hf. rewrite Hf.
    cbn [negb py_setitem py_getitem py_append mbind result_bind].
    rewrite dict_get_set_eq. cbn [py_append py_setitem mbind result_bind].
    eexists. split; [reflexivity|]. cbn [json_path].
    by rewrite !dict_get_set_eq.
  - intros clauses Hf. rewrite Hf.
    cbn [negb py_setitem py_getitem py_append mbind result_bind].
    rewrite Hf. cbn [py_append py_setitem mbind result_bind].
    eexists. split; [reflexivity|]. cbn [json_path].
    by rewrite !dict_get_set_eq.
Qed.

Lemma init_query_es7_injects_type_filter_witness :
  (∃ plan, init_query VERSION_ES7
             (JObj [("query", JObj [("bool", JObj [])]);
                    ("_source", JObj [("includes", JArr [JStr "subject"])])]) = Ok plan ∧
           json_path ["query"; "bool"; "filter"] plan =
             Some (JArr [JSON_DOC_TYPE_FILTER])) ∧
  (∃ plan, init_query VERSION_ES7
             (JObj [("query", JObj [("bool", JObj [("filter",
                      JArr [JObj [("exists", JObj [("field", JStr "subject")])]])])])]) = Ok plan ∧
           json_path ["query"; "bool"; "filter"] plan =
             Some (JArr [JObj [("exists", JObj [("field", JStr "subject")])];
                         JSON_DOC_TYPE_FILTER])).
Proof.
  split.
  - destruct (init_query_es7_injects_type_filter VERSION_ES7
      [("query", JObj [("bool", JObj [])]);
       ("_source", JObj [("includes", JArr [JStr "subject"])])]
      [("bool", JObj [])] []) as [Hnone _]; [done | reflexivity | reflexivity |].
    apply Hnone. reflexivity.
  - destruct (init_query_es7_injects_type_filter VERSION_ES7
      [("query", JObj [("bool", JObj [("filter",
          JArr [JObj [("exists", JObj [("field", JStr "subject")])]])])])]
      [("bool", JObj [("filter", JArr [JObj [("exists", JObj [("field", JStr "subject")])]])])]
      [("filter", JArr [JObj [("exists", JObj [("field", JStr "subject")])]])])
      as [_ Hsome]; [done | reflexivity | reflexivity |].
    apply (Hsome [JObj [("exists", JObj [("field", JStr "subject")])]]). reflexivity.
Defined.

(* ===================================================================== *)
(** ** Rows *)
(* ===================================================================== *)

Lemma mapM_result_length {A B} (f : A → result B) l l' :
  mapM f l = Ok l' → length l' = length l.
Proof.
  revert l'. induction l as [|x l IH]; intros l' H; cbn in H.
  - by injection H as <-.
  - destruct (f x); cbn in H; [|done].
    destruct (mapM f l) eqn:E; cbn in H; [|done].
    injection H as <-. cbn. f_equal. by apply IH.
Qed.

Lemma mapM_get_default d fs :
  mapM (py_get_default (JObj d)) fs =
  Ok (map (λ f, match dict_get f d with Some v => v | None => JStr "" end) fs).
Proof.
  induction fs as [|f fs IH]; [done|].
  cbn [mapM]. cbn [py_get_default mbind result_bind]. by rewrite IH.
Qed.

Lemma header_fields_length source_fields :
  length (header_fields source_fields) = (length SYSTEM_FIELDS + length source_fields)%nat.
Proof. unfold header_fields. by rewrite length_app. Qed.

(** A row that is produced has the width of the header. *)
Lemma hit_values_width source_fields hit values :
  hit_values source_fields hit = Ok values →
  length values = length (header_fields source_fields).
Proof.
  unfold hit_values. intros H. rewrite header_fields_length.
  destruct (0 <? length SYSTEM_FIELDS)%nat eqn:Hsys.
  - destruct (mapM (py_get_default hit) SYSTEM_FIELDS) as [sys|] eqn:Esys;
      cbn [mbind result_bind] in H; [|done].
    apply mapM_result_length in Esys.
    destruct (0 <? length source_fields)%nat eqn:Hsrc.
    + destruct (py_getitem hit "_source") as [source|]; cbn [mbind result_bind] in H; [|done].
      destruct (mapM (py_get_default source) source_fields) as [src|] eqn:Esrc;
        cbn [mbind result_bind] in H; [|done].
      apply mapM_result_length in Esrc. injection H as <-.
      rewrite length_app. lia.
    + cbn [mbind result_bind] in H. injection H as <-.
      apply Nat.ltb_ge in Hsrc. rewrite length_app. cbn [length]. lia.
  - done.
Qed.

Lemma write_rows_width source_fields hits rows0 :
  Forall (λ row, length row = length (header_fields source_fields)) rows0 →
  Forall (λ row, length row = length (header_fields source_fields))
         (write_rows source_fields hits rows0).2.
Proof.
  revert rows0. induction hits as [|hit hits IH]; intros rows0 H; cbn [write_rows]; [done|].
  destruct (hit_values source_fields hit) as [values|] eqn:E; [|done].
  apply IH. apply Forall_app. split; [done|].
  constructor; [|done]. by eapply hit_values_width.
Qed.

Lemma paging_width source_fields total_hits results hits scroll_body inbox sent0 rows0 :
  Forall (λ row, length row = length (header_fields source_fields)) rows0 →
  Forall (λ row, length row = length (header_fields source_fields))
         (rows (paging source_fields total_hits results hits scroll_body inbox sent0 rows0).2).
Proof.
  revert results hits scroll_body sent0 rows0.
  induction inbox as [|r inbox IH]; intros results hits scroll_body sent0 rows0 H;
    cbn [paging].
  all: destruct (loop_test total_hits hits) as [[]|]; [|done|done].
  all: destruct (py_iter hits) as [batch|]; [|done].
  all: pose proof (write_rows_width source_fields batch rows0 H) as Hw.
  all: destruct (write_rows source_fields batch rows0) as [[[]|] rows1]; [|done].
  all: destruct (_ ≫= _) as [[[req scroll_body'] receive]|]; [|done].
  - done.
  - destruct (_ ≫= _) as [[results' hits']|]; [|done]. by apply IH.
Qed.

Lemma process_slice_width es_version slice_id index_pattern query_body scroll_body
    source_fields inbox :
  Forall (λ row, length row = length (header_fields source_fields))
         (rows (process_slice es_version slice_id index_pattern query_body scroll_body
                              source_fields inbox).2).
Proof.
  unfold process_slice.
  destruct (get_message_metadata_search _ _ _ _) as [[req receive]|]; [|by constructor].
  destruct inbox as [|r inbox]; [by constructor|].
  destruct (_ ≫= _) as [[[results total_hits] hits]|]; [|by constructor].
  apply paging_width. constructor.
Qed.

(** The row of a hit that carries its document. *)
Lemma hit_values_document source_fields hit_fields source :
  dict_get "_source" hit_fields = Some (JObj source) →
  hit_values source_fields (JObj hit_fields) =
  Ok (map (λ f, match dict_get f hit_fields with Some v => v | None => JStr "" end)
          SYSTEM_FIELDS ++
      map (λ f, match dict_get f source with Some v => v | None => JStr "" end)
          source_fields).
Proof.
  intros Hsrc. unfold hit_values.
  replace (0 <? length SYSTEM_FIELDS)%nat with true by done.
  rewrite mapM_get_default. cbn [mbind result_bind].
  destruct (0 <? length source_fields)%nat eqn:Hlen.
  - cbn [py_getitem]. rewrite Hsrc. cbn [mbind result_bind].
    by rewrite mapM_get_default.
  - apply Nat.ltb_ge in Hlen. destruct source_fields; [done|cbn in Hlen; lia].
Qed.

(** The row of a hit that carries its document, position by position: the
    system fields, then the selected fields, the empty string standing for
    a field the document does not have. *)
Lemma hit_values_positions source_fields hit_fields source :
  dict_get "_source" hit_fields = Some (JObj source) →
  ∃ values,
    hit_values source_fields (JObj hit_fields) = Ok values ∧
    length values = (length SYSTEM_FIELDS + length source_fields)%nat ∧
    (∀ i f, SYSTEM_FIELDS !! i = Some f →
            values !! i =
              Some (match dict_get f hit_fields with Some v => v | None => JStr "" end)) ∧
    (∀ i f, source_fields !! i = Some f →
            values !! (length SYSTEM_FIELDS + i)%nat =
              Some (match dict_get f source with Some v => v | None => JStr "" end)) ∧
    (∀ i f, source_fields !! i = Some f → dict_get f source = None →
            values !! (length SYSTEM_FIELDS + i)%nat = Some (JStr "")).
Proof.
  intros Hsrc. eexists. split; [by apply hit_values_document|].
  assert (Hsys : ∀ i f, SYSTEM_FIELDS !! i = Some f →
    (map (λ f, match dict_get f hit_fields with Some v => v | None => JStr "" end)
         SYSTEM_FIELDS ++
     map (λ f, match dict_get f source with Some v => v | None => JStr "" end)
         source_fields) !! i =
    Some (match dict_get f hit_fields with Some v => v | None => JStr "" end)).
  { intros i f Hi. rewrite lookup_app_l.
    - by rewrite list_lookup_fmap, Hi.
    - rewrite length_map. by eapply lookup_lt_Some. }
  assert (Hdoc : ∀ i f, source_fields !! i = Some f →
    (map (λ f, match dict_get f hit_fields with Some v => v | None => JStr "" end)
         SYSTEM_FIELDS ++
     map (λ f, match dict_get f source with Some v => v | None => JStr "" end)
         source_fields) !! (length SYSTEM_FIELDS + i)%nat =
    Some (match dict_get f source with Some v => v | None => JStr "" end)).
  { intros i f Hi. rewrite lookup_app_r by (rewrite length_map; lia).
    rewrite length_map. replace (length SYSTEM_FIELDS + i - length SYSTEM_FIELDS)%nat with i by lia.
    by rewrite list_lookup_fmap, Hi. }
  split; [by rewrite length_app, !length_map|].
  split; [done|]. split; [done|].
  intros i f Hi Hnone. rewrite (Hdoc i f Hi). by rewrite Hnone.
Qed.

(* ===================================================================== *)
(** ** The pagination loop *)
(* ===================================================================== *)

Lemma paging_stop source_fields total_hits results hits scroll_body inbox sent0 rows0 :
  loop_test total_hits hits = Ok false →
  paging source_fields total_hits results hits scroll_body inbox sent0 rows0 =
  (Returned total_hits, Trace sent0 rows0 inbox).
Proof. intros H. destruct inbox; cbn [paging]; by rewrite H. Qed.

(** One iteration of the loop that gets an answer to its scroll request. *)
Lemma paging_step source_fields total_hits results hits scroll_body r inbox sent0 rows0
    batch rows1 scroll_id req scroll_body' receive results' page hits' :
  loop_test total_hits hits = Ok true →
  py_iter hits = Ok batch →
  write_rows source_fields batch rows0 = (Ok (), rows1) →
  py_getitem results "_scroll_id" = Ok scroll_id →
  get_message_metadata_scroll scroll_id scroll_body = Ok (req, scroll_body', receive) →
  receive r = Ok results' →
  py_getitem results' "hits" = Ok page →
  py_getitem page "hits" = Ok hits' →
  paging source_fields total_hits results hits scroll_body (r :: inbox) sent0 rows0 =
  paging source_fields total_hits results' hits' scroll_body' inbox (sent0 ++ [req]) rows1.
Proof.
  intros Htest Hiter Hrows Hid Hreq Hread Hpage Hhits. cbn [paging].
  rewrite Htest, Hiter, Hrows, Hid. cbn [mbind result_bind].
  rewrite Hreq, Hread. cbn [mbind result_bind].
  rewrite Hpage. cbn [mbind result_bind]. by rewrite Hhits.
Qed.

Lemma loop_test_empty_batch total_hits hits :
  loop_test total_hits hits = Ok true → loop_test total_hits (JArr []) = Ok false.
Proof.
  unfold loop_test. destruct (py_gt0 total_hits) as [[]|]; cbn [mbind result_bind]; done.
Qed.

Lemma json_path_hits results hits :
  json_path ["hits"; "hits"] results = Some hits →
  ∃ page, py_getitem results "hits" = Ok page ∧ py_getitem page "hits" = Ok hits.
Proof.
  cbn [json_path]. destruct results as [| | | | |d]; try done.
  destruct (dict_get "hits" d) as [page|] eqn:E; [|done].
  destruct page as [| | | | |p]; try done.
  destruct (dict_get "hits" p) as [hits'|] eqn:E'; [|done].
  intros [= <-]. exists (JObj p). cbn [py_getitem]. by rewrite E, E'.
Qed.

Example sample_plan_compiled : init_query VERSION_ES7 sample_query = Ok sample_plan.
Proof. reflexivity. Qed.

(** A slice whose engine reports 100 hits, sends two and then an empty
    batch: two rows, the total returned is 100. *)
Example process_slice_short_of_total :
  process_slice VERSION_ES7 4 "idx" sample_plan JSON_SCROLL_BODY ["subject"]
    [sample_page 200 "s1" 100 [sample_hit "a" "hello"; sample_hit "b" "bye"];
     sample_page 200 "s2" 100 [];
     sample_page 200 "s3" 100 [sample_hit "c" "late"]] =
  (Returned (JNum 100),
   Trace [sample_search_request 4; sample_scroll_request "s1"]
         [[JStr "a"; JStr "hello"]; [JStr "b"; JStr "bye"]]
         [sample_page 200 "s3" 100 [sample_hit "c" "late"]]).
Proof. reflexivity. Qed.

(* ===================================================================== *)
(** ** Response checks *)
(* ===================================================================== *)

Lemma check_search_response_ok r :
  status_code r = codes_ok → check_search_response r = Ok (JBool true).
Proof. intros H. unfold check_search_response. by rewrite H. Qed.

Lemma check_search_response_not_found r :
  status_code r = codes_not_found → check_search_response r = Ok (JBool false).
Proof. intros H. unfold check_search_response. by rewrite H. Qed.

(** A 200 and a 404 are read alike: the body is what the caller gets. *)
Lemma read_response_not_found r :
  status_code r = codes_not_found → read_response r = response_json r.
Proof.
  intros H. unfold read_response. by rewrite check_search_response_not_found.
Qed.

(** The statuses [raise_for_status] knows as errors do raise, 404 apart. *)
Lemma check_search_response_error r :
  400 ≤ status_code r < 600 → status_code r ≠ codes_not_found →
  check_search_response r = Raise (HTTPError (status_code r)) ∨
  check_search_response r = Raise JSONDecodeError.
Proof.
  intros Hrange Hnf. unfold check_search_response, codes_ok, codes_not_found in *.
  destruct (Z.eqb_spec (status_code r) 200); [lia|].
  destruct (Z.eqb_spec (status_code r) 404); [lia|].
  unfold response_json. destruct (body r); cbn [mbind result_bind]; [|by right].
  unfold raise_for_status.
  destruct (Z.leb_spec 400 (status_code r)); [|lia].
  destruct (Z.ltb_spec (status_code r) 600); [|lia].
  by left.
Qed.

Lemma read_response_error r :
  400 ≤ status_code r < 600 → status_code r ≠ codes_not_found →
  ∃ e, read_response r = Raise e.
Proof.
  intros Hrange Hnf. unfold read_response.
  destruct (check_search_response_error r Hrange Hnf) as [-> | ->]; by eexists.
Qed.

Lemma get_message_metadata_search_receive es_version slice_id index_pattern query_body
    req receive :
  get_message_metadata_search es_version slice_id index_pattern query_body =
    Ok (req, receive) →
  receive = read_response.
Proof.
  unfold get_message_metadata_search. cbv zeta.
  destruct (set_slice_id _ _); cbn [mbind result_bind]; congruence.
Qed.

Lemma get_message_metadata_scroll_receive scroll_id scroll_body req scroll_body' receive :
  get_message_metadata_scroll scroll_id scroll_body = Ok (req, scroll_body', receive) →
  receive = read_response.
Proof.
  unfold get_message_metadata_scroll. cbv zeta.
  destruct (py_setitem _ _ _); cbn [mbind result_bind]; congruence.
Qed.

(** An error status on the first page ends the slice with the exception. *)
Lemma process_slice_first_page_error es_version slice_id index_pattern query_body
    scroll_body source_fields req receive r inbox :
  get_message_metadata_search es_version slice_id index_pattern query_body =
    Ok (req, receive) →
  400 ≤ status_code r < 600 → status_code r ≠ codes_not_found →
  ∃ e, process_slice es_version slice_id index_pattern query_body scroll_body
                     source_fields (r :: inbox) = (Raised e, Trace [req] [] inbox).
Proof.
  intros Hreq Hrange Hnf. unfold process_slice. rewrite Hreq.
  rewrite (get_message_metadata_search_receive _ _ _ _ _ _ Hreq).
  destruct (read_response_error r Hrange Hnf) as [e ->]. by exists e.
Qed.

(** An error status on a continuation ends the loop with the exception;
    the rows of the batch at hand are already written. *)
Lemma paging_continuation_error source_fields total_hits results hits scroll_body
    r inbox sent0 rows0 batch rows1 scroll_id req scroll_body' receive :
  loop_test total_hits hits = Ok true →
  py_iter hits = Ok batch →
  write_rows source_fields batch rows0 = (Ok (), rows1) →
  py_getitem results "_scroll_id" = Ok scroll_id →
  get_message_metadata_scroll scroll_id scroll_body = Ok (req, scroll_body', receive) →
  400 ≤ status_code r < 600 → status_code r ≠ codes_not_found →
  ∃ e, paging source_fields total_hits results hits scroll_body (r :: inbox) sent0 rows0 =
       (Raised e, Trace (sent0 ++ [req]) rows1 inbox).
Proof.
  intros Htest Hiter Hrows Hid Hreq Hrange Hnf. cbn [paging].
  rewrite Htest, Hiter, Hrows, Hid. cbn [mbind result_bind]. rewrite Hreq.
  rewrite (get_message_metadata_scroll_receive _ _ _ _ _ Hreq).
  destruct (read_response_error r Hrange Hnf) as [e ->]. by exists e.
Qed.

(** [future.result()] re-raises: when every worker has ended and one of
    them raised, the loop over the futures raises, whatever their order. *)
Lemma gather_raises total_msgs futures e :
  Raised e ∈ futures → Forall (λ o, is_starved o = false) futures →
  ∃ e', gather total_msgs futures = Raised e'.
Proof.
  revert total_msgs. induction futures as [|o futures IH]; intros total_msgs Hin Hall.
  - by apply elem_of_nil in Hin.
  - apply Forall_cons in Hall as [Ho Hall]. cbn [gather].
    destruct o as [v| |]; [|by eexists|done].
    destruct (py_add_int total_msgs v); [|by eexists].
    apply IH; [|done]. apply elem_of_cons in Hin as [|]; done.
Qed.

(** The export fails when one slice raises and all slices end. *)
Lemma export_fails_with_slice es_version index_pattern query_body scroll_body
    source_fields engine completed id e :
  (id < NUM_SLICES)%nat → id ∈ completed →
  (∀ i, (i < NUM_SLICES)%nat ∨ i ∈ completed →
    is_starved (process_slice es_version (Z.of_nat i) index_pattern query_body scroll_body
                              source_fields (engine i)).1 = false) →
  (process_slice es_version (Z.of_nat id) index_pattern query_body scroll_body
                 source_fields (engine id)).1 = Raised e →
  ∃ e', (save_message_metadata_to_csv es_version index_pattern query_body scroll_body
           source_fields engine completed).1.1 = Raised e'.
Proof.
  intros Hid Hin Hended Hraised. unfold save_message_metadata_to_csv. cbv zeta.
  cbn [fst].
  destruct (existsb _ (seq 0 NUM_SLICES)) eqn:Hex.
  - apply existsb_exists in Hex as (i & Hi & Hstarved).
    apply in_seq in Hi. rewrite Hended in Hstarved; [done|left; lia].
  - apply gather_raises with (e := e).
    + apply list_elem_of_fmap. exists id. by rewrite Hraised.
    + apply Forall_fmap, Forall_forall. intros i Hi. cbn. apply Hended. by right.
Qed.

Lemma py_getitem_raises x k e :
  py_getitem x k = Raise e → e = TypeError ∨ e = KeyError k.
Proof.
  destruct x as [| | | | |d]; cbn [py_getitem]; try (intros [= <-]; by left).
  destruct (dict_get k d); [done|]. intros [= <-]. by right.
Qed.

Lemma check_search_response_raises r e :
  check_search_response r = Raise e →
  e = JSONDecodeError ∨ e = HTTPError (status_code r).
Proof.
  unfold check_search_response.
  destruct (status_code r =? codes_ok); [done|].
  destruct (status_code r =? codes_not_found); [done|].
  unfold response_json, raise_for_status.
  destruct (body r); cbn [mbind result_bind]; [|intros [= <-]; by left].
  destruct (_ && _); cbn [mbind result_bind]; [|done].
  intros [= <-]. by right.
Qed.

(** A 404 is read exactly as a 200 with the same body would be. *)
Lemma process_slice_not_found_as_ok es_version slice_id index_pattern query_body
    scroll_body source_fields req receive r inbox :
  get_message_metadata_search es_version slice_id index_pattern query_body =
    Ok (req, receive) →
  status_code r = codes_not_found →
  process_slice es_version slice_id index_pattern query_body scroll_body source_fields
                (r :: inbox) =
  process_slice es_version slice_id index_pattern query_body scroll_body source_fields
                ({| status_code := codes_ok; body := body r |} :: inbox).
Proof.
  intros Hreq Hnf. unfold process_slice. rewrite Hreq.
  rewrite (get_message_metadata_search_receive _ _ _ _ _ _ Hreq).
  rewrite (read_response_not_found r Hnf).
  unfold read_response. by rewrite check_search_response_ok.
Qed.

(* ===================================================================== *)
(** ** Departures of the code *)
(* ===================================================================== *)

(** C1. A 404 to the initial search request is not turned into zero hits:
    [check_search_response] returns [False], the caller drops that value
    and reads the body as a page of results, so with the engine's error
    document [process_slice] raises [KeyError] on [hits] in either dialect
    and the export fails. *)
Theorem process_slice_404_raises :
  check_search_response index_not_found = Ok (JBool false) ∧
  process_slice VERSION_ES7 0 "idx" sample_plan JSON_SCROLL_BODY ["subject"]
    [index_not_found] =
  (Raised (KeyError "hits"), Trace [sample_search_request 0] [] []) ∧
  (process_slice VERSION_ES5 0 "idx" sample_plan JSON_SCROLL_BODY ["subject"]
    [index_not_found]).1 = Raised (KeyError "hits") ∧
  (save_message_metadata_to_csv VERSION_ES7 "idx" sample_plan JSON_SCROLL_BODY
     ["subject"] (λ _, [index_not_found]) (seq 0 NUM_SLICES)).1.1 =
  Raised (KeyError "hits").
Proof. repeat split; reflexivity. Qed.

(** C2. [check_es_version] accepts every major version: the test of line
    144 asks for [es_version is None], which a str never is, so the probe
    answers 6.8.0 and 8.1.0 give the versions 6 and 8 and no probe at all
    makes it raise the unsupported-version exception. *)
Theorem check_es_version_accepts_unsupported :
  check_es_version (sample_probe "6.8.0") = Ok (JStr "6") ∧
  check_es_version (sample_probe "8.1.0") = Ok (JStr "8") ∧
  ∀ r msg, check_es_version r ≠ Raise (Exception msg).
Proof.
  split; [reflexivity|]. split; [reflexivity|].
  intros r msg. unfold check_es_version.
  destruct (check_search_response r) as [c|e] eqn:Hcheck; cbn [mbind result_bind].
  - destruct (response_json r) as [doc|] eqn:Hdoc; cbn [mbind result_bind].
    + destruct (py_getitem doc "version") as [version|] eqn:Hv; cbn [mbind result_bind].
      * destruct (py_getitem version "number") as [number|] eqn:Hn;
          cbn [mbind result_bind].
        -- destruct number; cbn [py_major mbind result_bind py_is_none andb]; done.
        -- destruct (py_getitem_raises _ _ _ Hn) as [-> | ->]; done.
      * destruct (py_getitem_raises _ _ _ Hv) as [-> | ->]; done.
    + unfold response_json in Hdoc. destruct (body r); congruence.
  - destruct (check_search_response_raises _ _ Hcheck) as [-> | ->]; done.
Qed.

(** C7. A status outside 400-599 that is neither 200 nor 404 is logged as
    an error and then read as a page of results: [raise_for_status] raises
    for 4xx and 5xx only. With status 300 on the first page the slice
    returns normally, on a continuation its hits are written as rows and the
    loop goes on, and the export returns a total. *)
Theorem process_slice_accepts_status_300 :
  check_search_response (sample_page 300 "s1" 0 []) = Ok JNull ∧
  process_slice VERSION_ES7 0 "idx" sample_plan JSON_SCROLL_BODY ["subject"]
    [sample_page 300 "s1" 0 []] =
  (Returned (JNum 0), Trace [sample_search_request 0] [] []) ∧
  process_slice VERSION_ES7 0 "idx" sample_plan JSON_SCROLL_BODY ["subject"]
    [sample_page 200 "s1" 2 [sample_hit "a" "hello"];
     sample_page 300 "s2" 2 [sample_hit "b" "bye"];
     sample_page 200 "s3" 2 []] =
  (Returned (JNum 2),
   Trace [sample_search_request 0; sample_scroll_request "s1"; sample_scroll_request "s2"]
         [[JStr "a"; JStr "hello"]; [JStr "b"; JStr "bye"]] []) ∧
  (save_message_metadata_to_csv VERSION_ES7 "idx" sample_plan JSON_SCROLL_BODY
     ["subject"] (λ _, [sample_page 300 "s1" 0 []]) (seq 0 NUM_SLICES)).1.1 =
  Returned (JNum 0).
Proof. repeat split; reflexivity. Qed.

(* ===================================================================== *)
(** ** Trees in the store *)
(* ===================================================================== *)

Section trees.
Implicit Types (s : gmap loc object) (fp : gset loc) (v : value) (t : json).

Lemma trees_at_impl (R R' : value → json → gset loc → Prop) vs ts fp :
  trees_at R vs ts fp →
  (∀ v t fp0, fp0 ⊆ fp → R v t fp0 → R' v t fp0) →
  trees_at R' vs ts fp.
Proof.
  induction 1 as [|v t vs ts fp1 fp2 Hv Hvs IH Hdisj]; intros Himpl.
  - constructor.
  - constructor; [|  |done].
    + apply Himpl; [set_solver|done].
    + apply IH. intros v0 t0 fp0 Hsub. apply Himpl. set_solver.
Qed.

Lemma trees_at_subseteq (R : value → json → gset loc → Prop) vs ts fp (X : gset loc) :
  trees_at R vs ts fp →
  (∀ v t fp0, R v t fp0 → fp0 ⊆ X) →
  fp ⊆ X.
Proof.
  induction 1 as [|v t vs ts fp1 fp2 Hv Hvs IH Hdisj]; intros Hsub.
  - set_solver.
  - specialize (IH Hsub). specialize (Hsub _ _ _ Hv). set_solver.
Qed.

Lemma trees_at_length (R : value → json → gset loc → Prop) vs ts fp :
  trees_at R vs ts fp → length vs = length ts.
Proof. induction 1; cbn; congruence. Qed.

(** A tree depends on the objects at its own locations only. *)
Lemma tree_at_agree n s s' v t fp :
  tree_at n s v t fp →
  (∀ l, l ∈ fp → s' !! l = s !! l) →
  tree_at n s' v t fp.
Proof.
  revert v t fp. induction n as [|n IH]; intros v t fp; destruct v; cbn [tree_at]; try done.
  intros (fp' & Hl & -> & H) Hagree. exists fp'. split; [done|]. split; [done|].
  rewrite Hagree by set_solver.
  destruct (s !! l) as [[kvs|vs]|]; [| |done].
  - destruct H as (kts & -> & Hkeys & H). exists kts. split; [done|]. split; [done|].
    eapply trees_at_impl; [done|]. intros v0 t0 fp0 Hsub Hv0.
    apply IH; [done|]. intros l0 Hl0. apply Hagree. set_solver.
  - destruct H as (ts & -> & H). exists ts. split; [done|].
    eapply trees_at_impl; [done|]. intros v0 t0 fp0 Hsub Hv0.
    apply IH; [done|]. intros l0 Hl0. apply Hagree. set_solver.
Qed.

(** Its locations are allocated. *)
Lemma tree_at_dom n s v t fp : tree_at n s v t fp → fp ⊆ dom s.
Proof.
  revert v t fp. induction n as [|n IH]; intros v t fp; destruct v; cbn [tree_at];
    try done; try (intros [_ ->]; set_solver).
  intros (fp' & Hl & -> & H).
  destruct (s !! l) as [o|] eqn:Hsl; [|done].
  assert (l ∈ dom s) by (apply elem_of_dom; eauto).
  assert (fp' ⊆ dom s); [|set_solver].
  destruct o as [kvs|vs].
  - destruct H as (kts & -> & Hkeys & H). eapply trees_at_subseteq; [done|]. eauto.
  - destruct H as (ts & -> & H). eapply trees_at_subseteq; [done|]. eauto.
Qed.

(** Allocation and writes elsewhere keep a tree. *)
Lemma tree_at_weaken n s s' v t fp :
  tree_at n s v t fp → s ⊆ s' → tree_at n s' v t fp.
Proof.
  intros H Hsub. eapply tree_at_agree; [done|]. intros l Hl.
  apply (tree_at_dom _ _ _ _ _ H) in Hl. apply elem_of_dom in Hl as [o Ho].
  rewrite Ho. by eapply lookup_weaken.
Qed.

Lemma tree_at_fuel_mono n m s v t fp :
  (n ≤ m)%nat → tree_at n s v t fp → tree_at m s v t fp.
Proof.
  revert m v t fp. induction n as [|n IH]; intros m v t fp Hle;
    destruct v; try (by destruct m); cbn [tree_at]; try done.
  destruct m as [|m]; [lia|]. cbn [tree_at].
  intros (fp' & Hl & -> & H). exists fp'. split; [done|]. split; [done|].
  destruct (s !! l) as [[kvs|vs]|]; [| |done].
  - destruct H as (kts & -> & Hkeys & H). exists kts. split; [done|]. split; [done|].
    eapply trees_at_impl; [done|]. intros v0 t0 fp0 _. apply IH. lia.
  - destruct H as (ts & -> & H). exists ts. split; [done|].
    eapply trees_at_impl; [done|]. intros v0 t0 fp0 _. apply IH. lia.
Qed.

(** A tree is no deeper than the number of its locations. *)
Lemma tree_at_fuel_bound n s v t fp :
  tree_at n s v t fp → tree_at (size fp) s v t fp.
Proof.
  revert v t fp. induction n as [|n IH]; intros v t fp; destruct v;
    try (by destruct (size fp)); cbn [tree_at]; try done.
  intros (fp' & Hl & -> & H).
  rewrite size_union by set_solver. rewrite size_singleton. cbn [Nat.add tree_at].
  exists fp'. split; [done|]. split; [done|].
  destruct (s !! l) as [[kvs|vs]|]; [| |done].
  - destruct H as (kts & -> & Hkeys & H). exists kts. split; [done|]. split; [done|].
    eapply trees_at_impl; [done|]. intros v0 t0 fp0 Hsub Hv0.
    eapply tree_at_fuel_mono; [|by apply IH]. by apply subseteq_size.
  - destruct H as (ts & -> & H). exists ts. split; [done|].
    eapply trees_at_impl; [done|]. intros v0 t0 fp0 Hsub Hv0.
    eapply tree_at_fuel_mono; [|by apply IH]. by apply subseteq_size.
Qed.

Lemma tree_at_atom n s v t fp : is_atom t = true → tree_at n s v t fp → fp = ∅.
Proof.
  destruct n, v; cbn [tree_at]; try done; try (by intros _ [_ ->]).
  intros Hatom (fp' & _ & _ & H).
  destruct (s !! l) as [[kvs|vs]|]; [| |done].
  - by destruct H as (kts & -> & _).
  - by destruct H as (ts & -> & _).
Qed.

End trees.

(* ===================================================================== *)
(** ** Reading a tree back *)
(* ===================================================================== *)

Lemma trees_at_mapM (R : value → json → gset loc → Prop) (f : value → option json)
    vs ts fp :
  trees_at R vs ts fp →
  (∀ v t fp0, R v t fp0 → f v = Some t) →
  mapM f vs = Some ts.
Proof.
  intros H Hf. apply mapM_Some.
  induction H as [|v t vs ts fp1 fp2 Hv Hvs IH Hdisj]; constructor; eauto.
Qed.

Lemma trees_at_mapM_items (R : value → json → gset loc → Prop) (f : value → option json)
    (kvs : list (string * value)) (kts : list (string * json)) fp :
  kvs.*1 = kts.*1 →
  trees_at R kvs.*2 kts.*2 fp →
  (∀ v t fp0, R v t fp0 → f v = Some t) →
  mapM (λ kv, pair kv.1 <$> f kv.2) kvs = Some kts.
Proof.
  intros Hkeys H Hf. apply mapM_Some.
  revert kts fp Hkeys H. induction kvs as [|[k v] kvs IH]; intros [|[k' t] kts] fp Hkeys H;
    try done; cbn in *.
  injection Hkeys as -> Hkeys. inversion H; subst.
  constructor; [|by eapply IH].
  cbn. by erewrite Hf.
Qed.

Lemma tree_at_dump_fuel n s v t fp :
  tree_at n s v t fp → dump_fuel n s v = Some t.
Proof.
  revert v t fp. induction n as [|n IH]; intros v t fp; destruct v; cbn [tree_at dump_fuel];
    try done; try (by intros [-> _]).
  intros (fp' & Hl & -> & H).
  destruct (s !! l) as [[kvs|vs]|]; [| |done].
  - destruct H as (kts & -> & Hkeys & H).
    by erewrite trees_at_mapM_items.
  - destruct H as (ts & -> & H). by erewrite trees_at_mapM.
Qed.

(** A tree of the store dumps as its document. *)
Lemma tree_at_dump n s v t fp : tree_at n s v t fp → dump s v = Some t.
Proof.
  intros H. unfold dump. eapply tree_at_dump_fuel.
  eapply tree_at_fuel_mono; [|by eapply tree_at_fuel_bound].
  pose proof (tree_at_dom _ _ _ _ _ H) as Hdom.
  apply subseteq_size in Hdom. rewrite size_dom in Hdom. lia.
Qed.

(* ===================================================================== *)
(** ** Deep copies *)
(* ===================================================================== *)

Lemma copy_list_copies n copy s vs ts fp memo :
  copies_trees n copy →
  trees_at (tree_at n s) vs ts fp → dom memo ## fp →
  ∃ vs' memo' s' fp',
    copy_list copy vs memo s = Some (vs', memo', s') ∧
    s ⊆ s' ∧
    trees_at (tree_at n s') vs' ts fp' ∧
    fp' ## dom s ∧
    dom memo' ⊆ dom memo ∪ fp.
Proof.
  intros Hcopy. revert s ts fp memo.
  induction vs as [|v vs IH]; intros s ts fp memo H Hmemo; inversion H; subst; cbn [copy_list].
  - exists [], memo, s, ∅. repeat split; [done|constructor|set_solver|set_solver].
  - destruct (Hcopy s v t fp1 memo) as (v' & memo1 & s1 & fp1' & -> & Hs1 & Hv' & Hfresh1 & Hmemo1);
      [done|set_solver|]. cbn.
    destruct (IH s1 ts0 fp2 memo1) as (vs' & memo2 & s2 & fp2' & -> & Hs2 & Hvs' & Hfresh2 & Hmemo2).
    { eapply trees_at_impl; [done|]. intros. by eapply tree_at_weaken. }
    { set_solver. }
    cbn. exists (v' :: vs'), memo2, s2, (fp1' ∪ fp2').
    pose proof (tree_at_dom _ _ _ _ _ Hv') as Hdom1.
    pose proof (subseteq_dom _ _ Hs1) as Hd1.
    repeat split.
    + by etrans.
    + constructor; [by eapply tree_at_weaken|done|set_solver].
    + set_solver.
    + set_solver.
Qed.

Lemma copy_dict_list copy (kvs : list (string * value)) memo s :
  copy_dict copy kvs memo s =
  (λ r, (zip kvs.*1 r.1.1, r.1.2, r.2)) <$> copy_list copy kvs.*2 memo s.
Proof.
  revert memo s. induction kvs as [|[k v] kvs IH]; intros memo s; [done|].
  cbn [copy_dict copy_list fmap list_fmap fst snd].
  destruct (copy v memo s) as [[[v' memo1] s1]|]; [|done]. cbn.
  rewrite IH. by destruct (copy_list copy kvs.*2 memo1 s1) as [[[vs' memo2] s2]|].
Qed.

Lemma copy_dict_copies n copy s (kvs : list (string * value))
    (kts : list (string * json)) fp memo :
  copies_trees n copy →
  kvs.*1 = kts.*1 →
  trees_at (tree_at n s) kvs.*2 kts.*2 fp → dom memo ## fp →
  ∃ kvs' memo' s' fp',
    copy_dict copy kvs memo s = Some (kvs', memo', s') ∧
    s ⊆ s' ∧
    kvs'.*1 = kts.*1 ∧
    trees_at (tree_at n s') kvs'.*2 kts.*2 fp' ∧
    fp' ## dom s ∧
    dom memo' ⊆ dom memo ∪ fp.
Proof.
  intros Hcopy Hkeys H Hmemo.
  destruct (copy_list_copies n copy s _ _ fp memo Hcopy H Hmemo)
    as (vs' & memo' & s' & fp' & Hcopied & Hs' & Hvs' & Hfresh & Hmemo').
  rewrite copy_dict_list, Hcopied. cbn.
  assert (length kvs.*1 = length vs') as Hlen.
  { rewrite (trees_at_length _ _ _ _ Hvs'), Hkeys, !length_fmap. done. }
  exists (zip kvs.*1 vs'), memo', s', fp'.
  rewrite fst_zip, snd_zip by lia. done.
Qed.

(** [deepcopy] copies trees, at every depth. *)
Lemma deepcopy_fuel_copies n : copies_trees n (deepcopy_fuel n).
Proof.
  induction n as [|n IH]; intros s x t fp memo H Hmemo; destruct x;
    cbn [tree_at] in H; try done;
    try (destruct H as [-> ->]; eexists _, memo, s, ∅;
         split; [reflexivity|]; split; [done|]; split; [done|]; split; set_solver).
  destruct H as (fp0 & Hl & -> & H).
  cbn [deepcopy_fuel].
  assert (memo !! l = None) as -> by (apply not_elem_of_dom; set_solver).
  pose proof (is_fresh (dom s)) as Hfresh.
  assert (s !! fresh (dom s) = None) as Hnew by (by apply not_elem_of_dom).
  destruct (s !! l) as [[kvs|vs]|] eqn:Hsl; [| |done].
  - destruct H as (kts & -> & Hkeys & H).
    destruct (copy_dict_copies n (deepcopy_fuel n) (<[fresh (dom s) := ODict []]> s)
                kvs kts fp0 (<[l := fresh (dom s)]> memo) IH Hkeys)
      as (kvs' & memo' & s' & fp' & -> & Hs' & Hkeys' & Hkvs' & Hfp' & Hmemo').
    { eapply trees_at_impl; [done|]. intros. eapply tree_at_weaken; [done|].
      by apply insert_subseteq. }
    { rewrite dom_insert_L. set_solver. }
    cbn. rewrite dom_insert_L in Hfp'. rewrite dom_insert_L in Hmemo'.
    exists (VRef (fresh (dom s))), memo', (<[fresh (dom s) := ODict kvs']> s'),
      ({[fresh (dom s)]} ∪ fp').
    repeat split.
    + apply map_subseteq_spec. intros i o Hi.
      assert (i ≠ fresh (dom s)) by congruence.
      rewrite lookup_insert_ne by done.
      eapply lookup_weaken; [|done]. by rewrite lookup_insert_ne.
    + cbn [tree_at]. exists fp'. split; [set_solver|]. split; [done|].
      rewrite lookup_insert_eq. exists kts. split; [done|]. split; [done|].
      eapply trees_at_impl; [done|]. intros v0 t0 fp1 Hsub Hv0.
      eapply tree_at_agree; [done|]. intros l0 Hl0.
      apply lookup_insert_ne. set_solver.
    + set_solver.
    + set_solver.
  - destruct H as (ts & -> & H).
    destruct (copy_list_copies n (deepcopy_fuel n) (<[fresh (dom s) := OList []]> s)
                vs ts fp0 (<[l := fresh (dom s)]> memo) IH)
      as (vs' & memo' & s' & fp' & -> & Hs' & Hvs' & Hfp' & Hmemo').
    { eapply trees_at_impl; [done|]. intros. eapply tree_at_weaken; [done|].
      by apply insert_subseteq. }
    { rewrite dom_insert_L. set_solver. }
    cbn. rewrite dom_insert_L in Hfp'. rewrite dom_insert_L in Hmemo'.
    exists (VRef (fresh (dom s))), memo', (<[fresh (dom s) := OList vs']> s'),
      ({[fresh (dom s)]} ∪ fp').
    repeat split.
    + apply map_subseteq_spec. intros i o Hi.
      assert (i ≠ fresh (dom s)) by congruence.
      rewrite lookup_insert_ne by done.
      eapply lookup_weaken; [|done]. by rewrite lookup_insert_ne.
    + cbn [tree_at]. exists fp'. split; [set_solver|]. split; [done|].
      rewrite lookup_insert_eq. exists ts. split; [done|].
      eapply trees_at_impl; [done|]. intros v0 t0 fp1 Hsub Hv0.
      eapply tree_at_agree; [done|]. intros l0 Hl0.
      apply lookup_insert_ne. set_solver.
    + set_solver.
    + set_solver.
Qed.

(** [copy.deepcopy] of a tree returns a tree for the same document on
    locations that were free, and leaves every object of the store as it
    was. *)
Lemma deepcopy_tree n s x t fp :
  tree_at n s x t fp →
  ∃ x' s' fp' n',
    deepcopy x s = Some (x', s') ∧
    s ⊆ s' ∧
    tree_at n' s' x' t fp' ∧
    fp' ## dom s.
Proof.
  intros H. unfold deepcopy.
  assert (tree_at (S (size s)) s x t fp) as H'.
  { eapply tree_at_fuel_mono; [|by eapply tree_at_fuel_bound].
    pose proof (tree_at_dom _ _ _ _ _ H) as Hdom.
    apply subseteq_size in Hdom. rewrite size_dom in Hdom. lia. }
  destruct (deepcopy_fuel_copies (S (size s)) s x t fp ∅ H')
    as (x' & memo' & s' & fp' & -> & Hs' & Hx' & Hfp' & _); [set_solver|].
  cbn. by exists x', s', fp', (S (size s)).
Qed.

(* ===================================================================== *)
(** ** Loading a document *)
(* ===================================================================== *)

Lemma json_nested_ind (P : json → Prop) :
  P JNull → (∀ b, P (JBool b)) → (∀ n, P (JNum n)) → (∀ x, P (JStr x)) →
  (∀ ts, Forall P ts → P (JArr ts)) →
  (∀ kts, Forall (λ kt, P kt.2) kts → P (JObj kts)) →
  ∀ t, P t.
Proof.
  intros HNull HBool HNum HStr HArr HObj. fix IH 1.
  intros [|b|n|x|ts|kts]; [done..| |].
  - apply HArr. induction ts as [|t ts IHts]; constructor; [apply IH|exact IHts].
  - apply HObj. induction kts as [|[k t] kts IHkts]; constructor; [apply IH|exact IHkts].
Qed.

(** [json.load] builds a tree for the document on locations that were
    free and leaves the store as it was. *)
Lemma load_tree t :
  ∀ s v s', load t s = (v, s') →
    ∃ n fp, s ⊆ s' ∧ tree_at n s' v t fp ∧ fp ## dom s.
Proof.
  induction t as [|b|z|x|ts IH|kts IH] using json_nested_ind; intros s v s' Hload;
    cbn [load] in Hload.
  1-4: injection Hload as <- <-; exists 0%nat, ∅; cbn [tree_at];
       repeat split; [done|set_solver].
  - set (load_list := fix load_list (ts : list json) (s : gmap loc object) :=
           match ts with
           | [] => ([], s)
           | t :: ts =>
               let '(v, s) := load t s in
               let '(vs, s) := load_list ts s in (v :: vs, s)
           end) in *.
    assert (∀ s vs s1, load_list ts s = (vs, s1) →
              ∃ n fp, s ⊆ s1 ∧ trees_at (tree_at n s1) vs ts fp ∧ fp ## dom s) as Hlist.
    { clear Hload s v s'. induction IH as [|t ts Ht Hts IHts]; intros s vs s1 Hl; cbn in Hl.
      - injection Hl as <- <-. exists 0%nat, ∅. repeat split; [done|constructor|set_solver].
      - destruct (load t s) as [v0 s0] eqn:Hv0.
        destruct (load_list ts s0) as [vs0 s2] eqn:Hvs0.
        injection Hl as <- <-.
        destruct (Ht _ _ _ Hv0) as (n1 & fp1 & Hs0 & Htree1 & Hfp1).
        destruct (IHts _ _ _ Hvs0) as (n2 & fp2 & Hs2 & Htrees2 & Hfp2).
        pose proof (tree_at_dom _ _ _ _ _ Htree1) as Hdom1.
        pose proof (subseteq_dom _ _ Hs0) as Hd0.
        exists (n1 `max` n2)%nat, (fp1 ∪ fp2). repeat split.
        + by etrans.
        + constructor; [| |set_solver].
          * eapply tree_at_fuel_mono; [|by eapply tree_at_weaken]. lia.
          * eapply trees_at_impl; [done|]. intros v1 t1 fp0 _.
            apply tree_at_fuel_mono. lia.
        + set_solver. }
    destruct (load_list ts s) as [vs s1] eqn:Hvs. injection Hload as <- <-.
    destruct (Hlist _ _ _ Hvs) as (n & fp & Hs1 & Htrees & Hfp).
    pose proof (is_fresh (dom s1)) as Hfresh.
    pose proof (subseteq_dom _ _ Hs1) as Hd1.
    exists (S n), ({[fresh (dom s1)]} ∪ fp). repeat split.
    + etrans; [done|]. apply insert_subseteq. by apply not_elem_of_dom.
    + cbn [tree_at]. exists fp. split.
      { intros Hin. apply Hfresh. eapply trees_at_subseteq; [done| |done].
        intros. by eapply tree_at_dom. }
      split; [done|]. rewrite lookup_insert_eq. exists ts. split; [done|].
      eapply trees_at_impl; [done|]. intros v1 t1 fp0 _ Hv1.
      eapply tree_at_weaken; [done|]. apply insert_subseteq. by apply not_elem_of_dom.
    + set_solver.
  - set (load_items := fix load_items (kts : list (string * json)) (s : gmap loc object) :=
           match kts with
           | [] => ([], s)
           | (k, t) :: kts =>
               let '(v, s) := load t s in
               let '(kvs, s) := load_items kts s in ((k, v) :: kvs, s)
           end) in *.
    assert (∀ s kvs s1, load_items kts s = (kvs, s1) →
              ∃ n fp, s ⊆ s1 ∧ kvs.*1 = kts.*1 ∧
                      trees_at (tree_at n s1) kvs.*2 kts.*2 fp ∧ fp ## dom s) as Hitems.
    { clear Hload s v s'. induction IH as [|[k t] kts Ht Hkts IHkts]; intros s kvs s1 Hl;
        cbn in Hl.
      - injection Hl as <- <-. exists 0%nat, ∅. repeat split; [done|constructor|set_solver].
      - destruct (load t s) as [v0 s0] eqn:Hv0.
        destruct (load_items kts s0) as [kvs0 s2] eqn:Hkvs0.
        injection Hl as <- <-.
        destruct (Ht _ _ _ Hv0) as (n1 & fp1 & Hs0 & Htree1 & Hfp1).
        destruct (IHkts _ _ _ Hkvs0) as (n2 & fp2 & Hs2 & Hkeys & Htrees2 & Hfp2).
        pose proof (tree_at_dom _ _ _ _ _ Htree1) as Hdom1.
        pose proof (subseteq_dom _ _ Hs0) as Hd0.
        exists (n1 `max` n2)%nat, (fp1 ∪ fp2). repeat split.
        + by etrans.
        + cbn. by rewrite Hkeys.
        + cbn. constructor; [| |set_solver].
          * eapply tree_at_fuel_mono; [|by eapply tree_at_weaken]. lia.
          * eapply trees_at_impl; [done|]. intros v1 t1 fp0 _.
            apply tree_at_fuel_mono. lia.
        + set_solver. }
    destruct (load_items kts s) as [kvs s1] eqn:Hkvs. injection Hload as <- <-.
    destruct (Hitems _ _ _ Hkvs) as (n & fp & Hs1 & Hkeys & Htrees & Hfp).
    pose proof (is_fresh (dom s1)) as Hfresh.
    pose proof (subseteq_dom _ _ Hs1) as Hd1.
    exists (S n), ({[fresh (dom s1)]} ∪ fp). repeat split.
    + etrans; [done|]. apply insert_subseteq. by apply not_elem_of_dom.
    + cbn [tree_at]. exists fp. split.
      { intros Hin. apply Hfresh. eapply trees_at_subseteq; [done| |done].
        intros. by eapply tree_at_dom. }
      split; [done|]. rewrite lookup_insert_eq. exists kts. split; [done|].
      split; [done|].
      eapply trees_at_impl; [done|]. intros v1 t1 fp0 _ Hv1.
      eapply tree_at_weaken; [done|]. apply insert_subseteq. by apply not_elem_of_dom.
    + set_solver.
Qed.

(* ===================================================================== *)
(** ** Assignments to an item of a tree *)
(* ===================================================================== *)

Lemma dict_set_keys {V W} k (v : V) (w : W) (d : list (string * V)) (d' : list (string * W)) :
  d.*1 = d'.*1 → (dict_set k v d).*1 = (dict_set k w d').*1.
Proof.
  revert d'. induction d as [|[k0 v0] d IH]; intros [|[k1 w1] d'] Hkeys; try done.
  cbn in Hkeys. injection Hkeys as -> Hkeys. cbn [dict_set].
  destruct (String.eqb k k1); cbn; [by rewrite Hkeys|]. by rewrite (IH d').
Qed.

Lemma dict_set_same {V} k (v : V) d : dict_get k d = Some v → dict_set k v d = d.
Proof.
  induction d as [|[k0 v0] d IH]; [done|]. cbn.
  destruct (String.eqb_spec k k0) as [->|Hne].
  - by intros [= ->].
  - intros H. by rewrite IH.
Qed.

Lemma dict_set_set {V} k (v v' : V) d : dict_set k v (dict_set k v' d) = dict_set k v d.
Proof.
  induction d as [|[k0 v0] d IH]; cbn.
  - by rewrite String.eqb_refl.
  - destruct (String.eqb k k0) eqn:E; cbn; rewrite ?String.eqb_refl, ?E; [done|].
    by rewrite IH.
Qed.

Lemma tree_at_atom_value n s t : is_atom t = true → tree_at n s (atom_value t) t ∅.
Proof. by destruct n, t. Qed.

(** The item of a dict of trees under a key, and what it takes to put
    another tree in its place. *)
Lemma trees_at_dict_replace (R : value → json → gset loc → Prop) k
    (kvs : list (string * value)) (kts : list (string * json)) fp tc :
  kvs.*1 = kts.*1 →
  trees_at R kvs.*2 kts.*2 fp →
  dict_get k kts = Some tc →
  ∃ vc fpc,
    dict_get k kvs = Some vc ∧ R vc tc fpc ∧ fpc ⊆ fp ∧
    ∀ (R' : value → json → gset loc → Prop) vc' tc',
      R' vc' tc' fpc →
      (∀ v t fp0, fp0 ## fpc → fp0 ⊆ fp → R v t fp0 → R' v t fp0) →
      trees_at R' (dict_set k vc' kvs).*2 (dict_set k tc' kts).*2 fp.
Proof.
  revert kts fp. induction kvs as [|[k0 v0] kvs IH]; intros [|[k1 t1] kts] fp Hkeys H Hget;
    try done.
  cbn in Hkeys. injection Hkeys as -> Hkeys. cbn in H. inversion H; subst.
  cbn [dict_get dict_set] in *.
  destruct (String.eqb k k1) eqn:E.
  - injection Hget as ->. exists v0, fp1. repeat split; [done|set_solver|].
    intros R' vc' tc' Hnew Hrest. cbn. constructor; [done| |done].
    eapply trees_at_impl; [done|]. intros v t fp0 Hsub. apply Hrest; set_solver.
  - destruct (IH kts fp2 Hkeys) as (vc & fpc & Hvc & HR & Hsub & Hreplace); [done..|].
    exists vc, fpc. repeat split; [done|done|set_solver|].
    intros R' vc' tc' Hnew Hrest. cbn. constructor; [| |done].
    + apply Hrest; [set_solver|set_solver|done].
    + apply Hreplace; [done|]. intros v t fp0 Hd Hs. apply Hrest; set_solver.
Qed.

(** Assigning an atom to a key of a dict that holds an atom there. *)
Lemma store_setitem_atom n s x kts fp k tc a :
  tree_at n s x (JObj kts) fp →
  dict_get k kts = Some tc → is_atom tc = true → is_atom a = true →
  ∃ s', store_setitem s x k (atom_value a) = Ok s' ∧
        tree_at n s' x (JObj (dict_set k a kts)) fp ∧
        (∀ l, l ∉ fp → s' !! l = s !! l).
Proof.
  intros H Hget Htc Ha. destruct n, x; cbn [tree_at] in H; try done;
    try (by destruct H as [? _]).
  destruct H as (fp0 & Hl & -> & H). cbn [store_setitem].
  destruct (s !! l) as [[kvs|vs]|] eqn:Hsl; [| |done].
  2: { by destruct H as (ts & ? & _). }
  destruct H as (kts' & [= <-] & Hkeys & H).
  eexists. split; [done|]. split.
  - cbn [tree_at]. exists fp0. split; [done|]. split; [done|].
    rewrite lookup_insert_eq. eexists. split; [done|].
    split; [by apply dict_set_keys|].
    destruct (trees_at_dict_replace _ k kvs kts fp0 tc Hkeys H Hget)
      as (vc & fpc & Hvc & HR & Hsub & Hreplace).
    assert (fpc = ∅) as -> by exact (tree_at_atom _ _ _ _ _ Htc HR).
    apply Hreplace; [by apply tree_at_atom_value|].
    intros v t fp1 _ Hfp1 Hv. eapply tree_at_agree; [done|].
    intros l0 Hl0. apply lookup_insert_ne. set_solver.
  - intros l0 Hl0. apply lookup_insert_ne. set_solver.
Qed.

Lemma set_slice_id_plan_for fields slice x y :
  set_slice_id (plan_for fields slice x) y = Ok (plan_for fields slice y).
Proof.
  unfold set_slice_id, plan_for. cbn [py_getitem]. rewrite dict_get_set_eq.
  cbn [mbind result_bind py_setitem]. by rewrite !dict_set_set.
Qed.

(** Line 84 on a worker's plan: the assignment succeeds, the plan then
    reads with the new slice id, and no object outside the plan changes. *)
Lemma assign_slice_id_tree n s q fields slice x y fp :
  tree_at n s q (plan_for fields slice x) fp →
  ∃ s', assign_slice_id s q y = Ok s' ∧
        tree_at n s' q (plan_for fields slice y) fp ∧
        (∀ l, l ∉ fp → s' !! l = s !! l).
Proof.
  intros H. unfold plan_for in H.
  destruct n, q; cbn [tree_at] in H; try done; try (by destruct H as [? _]).
  destruct H as (fp0 & Hl & -> & H). unfold assign_slice_id. cbn [store_getitem].
  destruct (s !! l) as [[kvs|vs]|] eqn:Hsl; [| |done].
  2: { by destruct H as (ts & ? & _). }
  destruct H as (kts & [= <-] & Hkeys & H).
  destruct (trees_at_dict_replace _ "slice" kvs _ fp0 _ Hkeys H (dict_get_set_eq _ _ _))
    as (vc & fpc & Hvc & HR & Hsub & Hreplace).
  rewrite Hvc. cbn [mbind result_bind].
  destruct (store_setitem_atom n s vc _ fpc "id" (JNum x) (JNum y) HR)
    as (s' & Hset & Htree & Hagree); [by apply dict_get_set_eq|done|done|].
  cbn [atom_value] in Hset. exists s'. split; [done|].
  rewrite dict_set_set in Htree. split.
  - unfold plan_for. cbn [tree_at]. exists fp0. split; [done|]. split; [done|].
    rewrite Hagree, Hsl by set_solver. eexists. split; [done|].
    specialize (Hreplace (tree_at n s') vc (JObj (dict_set "id" (JNum y) slice)) Htree).
    rewrite (dict_set_same "slice" vc kvs Hvc), dict_set_set in Hreplace.
    split.
    + rewrite Hkeys. by apply dict_set_keys.
    + apply Hreplace. intros v t fp1 Hdisj Hfp1 Hv. eapply tree_at_agree; [done|].
      intros l0 Hl0. apply Hagree. set_solver.
  - intros l0 Hl0. apply Hagree. set_solver.
Qed.

(** Line 107 on a worker's scroll body. *)
Lemma assign_scroll_id_tree n s sb x y fp :
  tree_at n s sb (scroll_for x) fp →
  ∃ s', assign_scroll_id s sb y = Ok s' ∧
        tree_at n s' sb (scroll_for y) fp ∧
        (∀ l, l ∉ fp → s' !! l = s !! l).
Proof.
  intros H. unfold scroll_for in H.
  destruct (store_setitem_atom n s sb _ fp "scroll_id" (JStr x) (JStr y) H)
    as (s' & Hset & Htree & Hagree); [done..|].
  by exists s'.
Qed.

(* ===================================================================== *)
(** ** The worker pool *)
(* ===================================================================== *)

Section pool.
Context (fields slice : list (string * json)) (id0 : Z).
Context (s0 : gmap loc object) (query_body scroll_body : value).
Context (n0 n0' : nat) (fq0 fs0 : gset loc).
Hypothesis template_plan : tree_at n0 s0 query_body (plan_for fields slice id0) fq0.
Hypothesis template_scroll : tree_at n0' s0 scroll_body (scroll_for "") fs0.

Lemma worker_owns_agree s s' id w fp :
  worker_owns fields slice id0 s id w fp →
  (∀ l, l ∈ fp → s' !! l = s !! l) →
  worker_owns fields slice id0 s' id w fp.
Proof.
  intros (Hid & nq & ns & fq & fs & x & tok & Hdisj & -> & Hx & Hq & Hs) Hagree.
  split; [done|]. exists nq, ns, fq, fs, x, tok. repeat split; try done.
  - eapply tree_at_agree; [done|]. intros l Hl. apply Hagree. set_solver.
  - eapply tree_at_agree; [done|]. intros l Hl. apply Hagree. set_solver.
Qed.

Lemma worker_owns_dom s id w fp :
  worker_owns fields slice id0 s id w fp → fp ⊆ dom s.
Proof.
  intros (Hid & nq & ns & fq & fs & x & tok & Hdisj & -> & Hx & Hq & Hs).
  apply tree_at_dom in Hq, Hs. set_solver.
Qed.

Lemma worker_owns_weaken s s' id w fp :
  worker_owns fields slice id0 s id w fp → s ⊆ s' →
  worker_owns fields slice id0 s' id w fp.
Proof.
  intros H Hsub. eapply worker_owns_agree; [done|]. intros l Hl.
  apply (worker_owns_dom _ _ _ _ H) in Hl. apply elem_of_dom in Hl as [o Ho].
  rewrite Ho. by eapply lookup_weaken.
Qed.

(** Submitting a worker: its two copies are trees for the documents of the
    templates on locations that were free, and every object of the store
    is as it was. *)
Lemma step_submit σ :
  s0 ⊆ heap σ → (length (workers σ) < NUM_SLICES)%nat →
  ∃ w s' nq ns fq fs,
    step query_body scroll_body σ Submit = Pool s' (workers σ ++ [w]) ∧
    slice_id w = length (workers σ) ∧
    heap σ ⊆ s' ∧
    tree_at nq s' (query_copy w) (plan_for fields slice id0) fq ∧
    tree_at ns s' (scroll_copy w) (scroll_for "") fs ∧
    fq ## fs ∧ (fq ∪ fs) ## dom (heap σ).
Proof.
  intros Hs0 Hlen. cbn [step]. apply Nat.ltb_lt in Hlen as ->.
  destruct (deepcopy_tree n0 (heap σ) query_body (plan_for fields slice id0) fq0)
    as (qc & s1 & fq & nq & -> & Hs1 & Hqc & Hfq); [by eapply tree_at_weaken|].
  destruct (deepcopy_tree n0' s1 scroll_body (scroll_for "") fs0)
    as (sc & s2 & fs & ns & -> & Hs2 & Hsc & Hfs).
  { eapply tree_at_weaken; [done|]. by etrans. }
  pose proof (tree_at_dom _ _ _ _ _ Hqc) as Hdq.
  pose proof (subseteq_dom _ _ Hs1) as Hd1.
  exists (Worker (length (workers σ)) qc sc), s2, nq, ns, fq, fs.
  repeat split; [by etrans|by eapply tree_at_weaken|done|set_solver|set_solver].
Qed.

Lemma pool_inv_lookup σ id w :
  pool_inv fields slice id0 s0 σ → workers σ !! id = Some w →
  ∃ fp, worker_owns fields slice id0 (heap σ) id w fp ∧ fp ## dom s0 ∧
        ∀ j w', j ≠ id → workers σ !! j = Some w' →
          ∃ fp', worker_owns fields slice id0 (heap σ) j w' fp' ∧ fp' ## fp.
Proof.
  intros (Hs0 & Hlen & fps & Hfps & Hown & Hdisj) Hw.
  destruct (lookup_lt_is_Some_2 fps id) as [fp Hfp].
  { rewrite Hfps. by eapply lookup_lt_Some. }
  destruct (Hown _ _ _ Hw Hfp) as [Hw_own Hfresh].
  exists fp. split; [done|]. split; [done|].
  intros j w' Hne Hw'.
  destruct (lookup_lt_is_Some_2 fps j) as [fp' Hfp'].
  { rewrite Hfps. by eapply lookup_lt_Some. }
  exists fp'. split; [by apply (Hown _ _ _ Hw' Hfp')|]. by eapply Hdisj.
Qed.

(** A worker assigning its slice id: the assignment succeeds, its plan
    reads with its own slice id, and only objects it owns change. *)
Lemma step_assign_slice σ id w fp :
  worker_owns fields slice id0 (heap σ) id w fp →
  workers σ !! id = Some w →
  ∃ s', step query_body scroll_body σ (AssignSlice id) = Pool s' (workers σ) ∧
        worker_owns fields slice id0 s' id w fp ∧
        (∃ nq fq, tree_at nq s' (query_copy w) (plan_for fields slice (Z.of_nat id)) fq) ∧
        (∀ l, l ∉ fp → s' !! l = heap σ !! l).
Proof.
  intros (Hid & nq & ns & fq & fs & x & tok & Hdisj & -> & Hx & Hq & Hs) Hw.
  cbn [step]. rewrite Hw, Hid.
  destruct (assign_slice_id_tree nq (heap σ) (query_copy w) fields slice x (Z.of_nat id) fq Hq)
    as (s' & -> & Hq' & Hagree).
  exists s'. split; [done|]. split; [|split].
  - split; [done|]. exists nq, ns, fq, fs, (Z.of_nat id), tok.
    repeat split; [done|by right|done|].
    eapply tree_at_agree; [done|]. intros l Hl. apply Hagree. set_solver.
  - by exists nq, fq.
  - intros l Hl. apply Hagree. set_solver.
Qed.

Lemma step_assign_scroll σ id w fp scroll_id :
  worker_owns fields slice id0 (heap σ) id w fp →
  workers σ !! id = Some w →
  ∃ s', step query_body scroll_body σ (AssignScroll id scroll_id) = Pool s' (workers σ) ∧
        worker_owns fields slice id0 s' id w fp ∧
        (∀ l, l ∉ fp → s' !! l = heap σ !! l).
Proof.
  intros (Hid & nq & ns & fq & fs & x & tok & Hdisj & -> & Hx & Hq & Hs) Hw.
  cbn [step]. rewrite Hw.
  destruct (assign_scroll_id_tree ns (heap σ) (scroll_copy w) tok scroll_id fs Hs)
    as (s' & -> & Hs' & Hagree).
  exists s'. split; [done|]. split.
  - split; [done|]. exists nq, ns, fq, fs, x, scroll_id.
    repeat split; [done|done| |done].
    eapply tree_at_agree; [done|]. intros l Hl. apply Hagree. set_solver.
  - intros l Hl. apply Hagree. set_solver.
Qed.

(** A write inside what one worker owns keeps the invariant. *)
Lemma pool_inv_write σ s' id w :
  pool_inv fields slice id0 s0 σ →
  workers σ !! id = Some w →
  (∀ fp, worker_owns fields slice id0 (heap σ) id w fp →
         worker_owns fields slice id0 s' id w fp ∧
         ∀ l, l ∉ fp → s' !! l = heap σ !! l) →
  pool_inv fields slice id0 s0 (Pool s' (workers σ)).
Proof.
  intros (Hs0 & Hlen & fps & Hfps & Hown & Hdisj) Hw Hwrite.
  destruct (lookup_lt_is_Some_2 fps id) as [fp_id Hfp_id].
  { rewrite Hfps. by eapply lookup_lt_Some. }
  destruct (Hown _ _ _ Hw Hfp_id) as [Hown_id Hfresh_id].
  destruct (Hwrite _ Hown_id) as [Hnew Hagree].
  split; [|split; [done|]].
  - cbn. apply map_subseteq_spec. intros l o Hl.
    rewrite Hagree; [by eapply lookup_weaken|].
    assert (l ∈ dom s0) by (apply elem_of_dom; eauto). set_solver.
  - exists fps. split; [done|]. split; [|done].
    cbn. intros i w_i fp_i Hw_i Hfp_i.
    destruct (Hown _ _ _ Hw_i Hfp_i) as [Hown_i Hfresh_i]. split; [|done].
    destruct (decide (i = id)) as [->|Hne].
    + assert (w_i = w) as -> by congruence. assert (fp_i = fp_id) as -> by congruence.
      done.
    + eapply worker_owns_agree; [done|]. intros l Hl. apply Hagree.
      specialize (Hdisj _ _ _ _ Hne Hfp_i Hfp_id). set_solver.
Qed.

(** Every step keeps the invariant. *)
Lemma pool_inv_step σ ev :
  pool_inv fields slice id0 s0 σ →
  pool_inv fields slice id0 s0 (step query_body scroll_body σ ev).
Proof.
  intros Hinv. destruct ev as [|id|id scroll_id].
  - destruct (decide (length (workers σ) < NUM_SLICES)%nat) as [Hlt|Hge].
    2: { cbn [step]. apply Nat.ltb_nlt in Hge as ->. done. }
    destruct Hinv as (Hs0 & Hlen & fps & Hfps & Hown & Hdisj).
    destruct (step_submit σ Hs0 Hlt)
      as (w & s' & nq & ns & fq & fs & -> & Hid & Hs' & Hq & Hs & Hqs & Hfresh).
    pose proof (subseteq_dom _ _ Hs0) as Hd0.
    split; [by etrans|]. split; [cbn; rewrite length_app; cbn; lia|].
    exists (fps ++ [fq ∪ fs]). split; [cbn; rewrite !length_app; cbn; lia|].
    cbn [heap workers]. split.
    + intros i w_i fp_i Hw_i Hfp_i.
      destruct (decide (i < length (workers σ))%nat) as [Hi|Hi].
      * rewrite lookup_app_l in Hw_i by done. rewrite lookup_app_l in Hfp_i by lia.
        destruct (Hown _ _ _ Hw_i Hfp_i) as [Hown_i Hfresh_i].
        split; [by eapply worker_owns_weaken|done].
      * assert (i = length (workers σ)) as ->.
        { apply lookup_lt_Some in Hw_i. rewrite length_app in Hw_i. cbn in Hw_i. lia. }
        rewrite lookup_app_r in Hw_i by lia. rewrite lookup_app_r in Hfp_i by lia.
        rewrite Nat.sub_diag in Hw_i. rewrite Hfps, Nat.sub_diag in Hfp_i.
        injection Hw_i as <-. injection Hfp_i as <-.
        split; [|set_solver]. split; [done|].
        exists nq, ns, fq, fs, id0, "". repeat split; try done. by left.
    + assert (∀ i fp_i, (i < length (workers σ))%nat → fps !! i = Some fp_i →
                        fp_i ## fq ∪ fs) as Hold.
      { intros i fp_i Hi Hfp_i.
        destruct (lookup_lt_is_Some_2 (workers σ) i Hi) as [w_i Hw_i].
        destruct (Hown _ _ _ Hw_i Hfp_i) as [Hown_i _].
        apply worker_owns_dom in Hown_i. set_solver. }
      intros i j fpi fpj Hne Hfpi Hfpj.
      destruct (decide (i < length (workers σ))%nat) as [Hi|Hi];
        destruct (decide (j < length (workers σ))%nat) as [Hj|Hj].
      * rewrite lookup_app_l in Hfpi, Hfpj by lia. by eapply Hdisj.
      * rewrite lookup_app_l in Hfpi by lia.
        assert (j = length fps) as ->.
        { apply lookup_lt_Some in Hfpj. rewrite length_app in Hfpj. cbn in Hfpj. lia. }
        rewrite lookup_app_r, Nat.sub_diag in Hfpj by lia. injection Hfpj as <-.
        by eapply Hold.
      * rewrite lookup_app_l in Hfpj by lia.
        assert (i = length fps) as ->.
        { apply lookup_lt_Some in Hfpi. rewrite length_app in Hfpi. cbn in Hfpi. lia. }
        rewrite lookup_app_r, Nat.sub_diag in Hfpi by lia. injection Hfpi as <-.
        symmetry. by eapply Hold.
      * apply lookup_lt_Some in Hfpi, Hfpj. rewrite length_app in Hfpi, Hfpj.
        cbn in Hfpi, Hfpj. lia.
  - destruct (workers σ !! id) as [w|] eqn:Hw; [|cbn [step]; by rewrite Hw].
    destruct (pool_inv_lookup σ id w Hinv Hw) as (fp & Hown & _).
    destruct (step_assign_slice σ id w fp Hown Hw) as (s' & Hstep & _).
    rewrite Hstep.
    eapply pool_inv_write; [done..|]. intros fp' Hown'.
    destruct (step_assign_slice σ id w fp' Hown' Hw) as (s'' & Heq & Hnew & _ & Hagree).
    rewrite Hstep in Heq. injection Heq as <-. done.
  - destruct (workers σ !! id) as [w|] eqn:Hw; [|cbn [step]; by rewrite Hw].
    destruct (pool_inv_lookup σ id w Hinv Hw) as (fp & Hown & _).
    destruct (step_assign_scroll σ id w fp scroll_id Hown Hw) as (s' & Hstep & _).
    rewrite Hstep.
    eapply pool_inv_write; [done..|]. intros fp' Hown'.
    destruct (step_assign_scroll σ id w fp' scroll_id Hown' Hw) as (s'' & Heq & Hnew & Hagree).
    rewrite Hstep in Heq. injection Heq as <-. done.
Qed.

Lemma pool_inv_run events σ :
  pool_inv fields slice id0 s0 σ →
  pool_inv fields slice id0 s0 (run query_body scroll_body events σ).
Proof.
  revert σ. induction events as [|ev events IH]; intros σ Hinv; [done|].
  cbn [run fold_left]. apply IH. by apply pool_inv_step.
Qed.

Lemma pool_inv_init : pool_inv fields slice id0 s0 (Pool s0 []).
Proof.
  split; [done|]. split; [cbn; lia|]. exists []. split; [done|].
  split; intros *; by rewrite ?lookup_nil.
Qed.

End pool.

(* ===================================================================== *)
(** ** The workers' copies *)
(* ===================================================================== *)

(** A compiled plan is an object whose slice specification is the one of
    [JSON_SLICE]. *)
Lemma init_query_plan_shape es_version query_doc plan :
  init_query es_version query_doc = Ok plan →
  ∃ fields,
    plan = plan_for fields [("id", JNum (-1)); ("max", JNum (Z.of_nat NUM_SLICES))] (-1).
Proof.
  intros H. destruct query_doc as [| | | | |d]; try discriminate H.
  assert (∃ fields, plan = JObj fields ∧
            dict_get "slice" fields =
              Some (JObj [("id", JNum (-1)); ("max", JNum (Z.of_nat NUM_SLICES))]))
    as (fields & -> & Hslice).
  { destruct (String.eqb es_version VERSION_ES5) eqn:Hes.
    - apply String.eqb_eq in Hes as ->. rewrite init_query_es5 in H.
      injection H as <-. eexists. split; [done|]. apply merged_slice.
    - rewrite (init_query_es7 _ _ Hes) in H.
      apply init_query_es7_tail_ok in H as [query ->]. eexists. split; [done|].
      rewrite !dict_get_set_ne by done. apply merged_slice. }
  exists fields. unfold plan_for. cbn [dict_set String.eqb Ascii.eqb Bool.eqb].
  by rewrite dict_set_same.
Qed.

(** C9. Each worker gets deep copies of the compiled plan and of the
    scroll body that are objects of their own: whatever the order in which
    the main thread submits workers and the workers assign slice ids and
    scroll ids, the templates stay as they were, and a worker that sets the
    slice id in its plan changes what its own plan reads as and nothing of
    the templates or of another worker's copies. *)
Theorem worker_copies_are_independent es_version query_doc plan s_init events :
  init_query es_version query_doc = Ok plan →
  copies_independent plan s_init events.
Proof.
  intros Hplan. apply init_query_plan_shape in Hplan as [fields ->].
  set (slice := [("id", JNum (-1)); ("max", JNum (Z.of_nat NUM_SLICES))]).
  unfold copies_independent.
  destruct (load (plan_for fields slice (-1)) s_init) as [query_body s1] eqn:Hq.
  destruct (load JSON_SCROLL_BODY s1) as [scroll_body s2] eqn:Hs.
  destruct (load_tree _ _ _ _ Hq) as (n0 & fq0 & Hs1 & Htq & _).
  destruct (load_tree _ _ _ _ Hs) as (n0' & fs0 & Hs2 & Hts & _).
  apply (tree_at_weaken _ _ s2) in Htq; [|done].
  change JSON_SCROLL_BODY with (scroll_for "") in *.
  set (σ := run query_body scroll_body events (Pool s2 [])).
  assert (pool_inv fields slice (-1) s2 σ) as Hinv.
  { apply (pool_inv_run _ _ _ _ _ _ n0 n0' fq0 fs0 Htq Hts). apply pool_inv_init. }
  assert (∀ σ1, pool_inv fields slice (-1) s2 σ1 →
            s2 ⊆ heap σ1 ∧
            dump (heap σ1) query_body = Some (plan_for fields slice (-1)) ∧
            dump (heap σ1) scroll_body = Some (scroll_for "")) as Htemplates.
  { intros σ1 (Hsub & _). split; [done|].
    split; eapply tree_at_dump, tree_at_weaken; done. }
  split; [|split].
  - destruct (Htemplates σ Hinv) as (? & ? & ?). by destruct Hinv as (_ & ? & _).
  - intros Hlt. cbv zeta.
    destruct (step_submit fields slice (-1) s2 query_body scroll_body n0 n0' fq0 fs0
                Htq Hts σ (proj1 Hinv) Hlt)
      as (w & s' & nq & ns & fq & fs & -> & Hid & Hs' & Hwq & Hws & _).
    exists w. cbn [heap workers]. repeat split; [done|done| |]; by eapply tree_at_dump.
  - intros id w Hw.
    destruct (pool_inv_lookup _ _ _ _ _ _ _ Hinv Hw) as (fp & Hown & Hfresh & Hothers).
    pose proof Hown as (Hid & nq & ns & fq & fs & x & tok & Hdisj & Hfp & Hx & Hwq & Hws).
    split; [done|]. exists (plan_for fields slice (Z.of_nat id)).
    split; [apply set_slice_id_plan_for|]. split.
    { destruct Hx as [-> | ->]; [left|right]; by eapply tree_at_dump. }
    cbv zeta.
    pose proof (pool_inv_step _ _ _ _ _ _ n0 n0' fq0 fs0 Htq Hts σ (AssignSlice id) Hinv) as Hinv'.
    destruct (step_assign_slice fields slice (-1) s2 query_body scroll_body n0 n0' fq0 fs0
                Htq Hts σ id w fp Hown Hw)
      as (s' & Hstep & Hown' & (nq' & fq' & Hwq') & Hagree).
    rewrite Hstep in Hinv' |- *. cbn [heap workers].
    destruct (Htemplates _ Hinv') as (Hsub' & Hdq & Hds). cbn [heap] in Hsub', Hdq, Hds.
    split; [done|]. split; [by eapply tree_at_dump|].
    split; [done|]. split; [done|]. split; [done|].
    intros j w' Hne Hw'.
    destruct (Hothers j w' Hne Hw') as (fp' & Hown_j & Hdisj_j).
    destruct Hown_j as (_ & nq1 & ns1 & fq1 & fs1 & x1 & tok1 & _ & -> & _ & Hq1 & Hs1').
    assert (tree_at nq1 s' (query_copy w') (plan_for fields slice x1) fq1) as Hq2.
    { eapply tree_at_agree; [done|]. intros l Hl. apply Hagree. set_solver. }
    assert (tree_at ns1 s' (scroll_copy w') (scroll_for tok1) fs1) as Hs2'.
    { eapply tree_at_agree; [done|]. intros l Hl. apply Hagree. set_solver. }
    apply tree_at_dump in Hq1, Hs1', Hq2, Hs2'.
    by rewrite Hq1, Hs1', Hq2, Hs2'.
Qed.

Lemma worker_copies_are_independent_witness :
  copies_independent sample_plan ∅
    [Submit; Submit; AssignSlice 0%nat; Submit; AssignScroll 1%nat "c2Nyb2xs"; AssignSlice 2%nat].
Proof.
  apply (worker_copies_are_independent VERSION_ES7 sample_query). reflexivity.
Defined.

(** Three workers, the first and the third having assigned their slice
    ids: what each plan and the template read as. *)
Example sample_pool_slices :
  let '(query_body, s1) := load sample_plan ∅ in
  let '(scroll_body, s2) := load JSON_SCROLL_BODY s1 in
  let σ := run query_body scroll_body
             [Submit; Submit; AssignSlice 0%nat; Submit; AssignScroll 1%nat "c2Nyb2xs"; AssignSlice 2%nat]
             (Pool s2 []) in
  (dump (heap σ) query_body ≫= json_path ["slice"; "id"]) = Some (JNum (-1)) ∧
  dump (heap σ) scroll_body = Some JSON_SCROLL_BODY ∧
  map (λ w, dump (heap σ) (query_copy w) ≫= json_path ["slice"; "id"]) (workers σ) =
    [Some (JNum 0); Some (JNum (-1)); Some (JNum 2)] ∧
  map (λ w, dump (heap σ) (scroll_copy w) ≫= json_path ["scroll_id"]) (workers σ) =
    [Some (JStr ""); Some (JStr "c2Nyb2xs"); Some (JStr "")].
Proof. vm_compute. done. Qed.

(** The copies matter: a worker handed the template itself would change it. *)
Example shared_plan_is_changed :
  let '(query_body, s) := load sample_plan ∅ in
  match assign_slice_id s query_body 3 with
  | Ok s' => dump s' query_body ≫= json_path ["slice"; "id"]
  | Raise _ => None
  end = Some (JNum 3).
Proof. vm_compute. done. Qed.

(* ===================================================================== *)
(** ** The scenario of the specification *)
(* ===================================================================== *)

(** The query document [{"query":{"bool":{}}, "_source":{"includes":["subject"]}}]
    against an engine of the newer dialect with three matching documents,
    all in the first slice: the header is [_id,subject], three rows of two
    fields are written, and the export returns 3. *)
Example scenario_three_documents :
  let engine (id : nat) :=
    match id with
    | O => [sample_page 200 "s1" 3
              [sample_hit "a" "one"; sample_hit "b" "two"; sample_hit "c" "three"];
            sample_page 200 "s2" 3 []]
    | _ => [sample_page 200 "s0" 0 []]
    end in
  get_source_fields sample_plan = Ok (JArr [JStr "subject"]) ∧
  ∃ traces,
    save_message_metadata_to_csv VERSION_ES7 "idx" sample_plan JSON_SCROLL_BODY ["subject"]
      engine (seq 0 NUM_SLICES) =
    (Returned (JNum 3), ["_id"; "subject"], traces) ∧
    concat (map rows traces) =
      [[JStr "a"; JStr "one"]; [JStr "b"; JStr "two"]; [JStr "c"; JStr "three"]].
Proof. split; [reflexivity|]. eexists. split; reflexivity. Qed.

(* ===================================================================== *)
(** * Further properties *)
(* ===================================================================== *)

(* ===================================================================== *)
(** ** get_source_fields and init_query *)
(* ===================================================================== *)

Lemma get_source_fields_source d d' :
  dict_get "_source" d = dict_get "_source" d' →
  get_source_fields (JObj d) = get_source_fields (JObj d').
Proof.
  intros H. unfold get_source_fields. cbn [py_contains py_getitem]. by rewrite H.
Qed.

(** What makes the newer dialect's compilation succeed, and the plan it
    gives then. *)
Lemma init_query_es7_tail_inv d plan :
  init_query_es7_tail d = Ok plan →
  ∃ qf bf clauses,
    dict_get "query" d = Some (JObj qf) ∧
    dict_get "bool" qf = Some (JObj bf) ∧
    (dict_get "filter" bf = None ∧ clauses = [] ∨
     dict_get "filter" bf = Some (JArr clauses)) ∧
    plan = JObj (dict_set "query"
                   (JObj (dict_set "bool"
                            (JObj (dict_set "filter"
                                     (JArr (clauses ++ [JSON_DOC_TYPE_FILTER])) bf)) qf))
                   (dict_set "track_total_hits" (JBool true) (merged d))).
Proof.
  unfold init_query_es7_tail. cbv zeta. cbn [py_contains py_getitem mbind result_bind].
  rewrite merged_query.
  destruct (dict_get "query" d) as [query|]; cbn [negb mbind result_bind]; [|done].
  destruct query as [| | |s|l|qf]; cbn [py_contains py_getitem mbind result_bind]; try done.
  { destruct (str_contains "bool" s); done. }
  { destruct (existsb _ l); done. }
  destruct (dict_get "bool" qf) as [bool_clause|] eqn:Hbool;
    cbn [negb mbind result_bind]; [|done].
  destruct bool_clause as [| | |s|l|bf]; cbn [py_contains py_getitem py_setitem mbind result_bind];
    try done.
  { destruct (str_contains "filter" s); done. }
  { destruct (existsb _ l); done. }
  destruct (dict_get "filter" bf) as [filter|] eqn:Hfilter;
    cbn [negb py_setitem py_getitem mbind result_bind].
  - rewrite Hfilter. cbn [mbind result_bind].
    destruct filter as [| | | |clauses|]; cbn [py_append py_setitem mbind result_bind];
      try done.
    intros [= <-]. exists qf, bf, clauses. repeat split; by auto.
  - rewrite dict_get_set_eq. cbn [py_append py_setitem mbind result_bind app].
    intros [= <-]. exists qf, bf, []. rewrite dict_set_set. repeat split; by auto.
Qed.

Lemma json_path_cons k path d :
  json_path (k :: path) (JObj d) = dict_get k d ≫= json_path path.
Proof. cbn [json_path]. by destruct (dict_get k d). Qed.

Lemma json_path_singleton k d : json_path [k] (JObj d) = dict_get k d.
Proof. rewrite json_path_cons. by destruct (dict_get k d). Qed.

(** The newer dialect's compilation of a document with a filter list. *)
Lemma init_query_es7_tail_filter_list d qf bf clauses :
  dict_get "query" d = Some (JObj qf) →
  dict_get "bool" qf = Some (JObj bf) →
  dict_get "filter" bf = Some (JArr clauses) →
  init_query_es7_tail d =
  Ok (JObj (dict_set "query"
              (JObj (dict_set "bool"
                       (JObj (dict_set "filter"
                                (JArr (clauses ++ [JSON_DOC_TYPE_FILTER])) bf)) qf))
              (dict_set "track_total_hits" (JBool true) (merged d)))).
Proof.
  intros Hq Hb Hf. unfold init_query_es7_tail. cbv zeta.
  cbn [py_contains py_getitem mbind result_bind].
  rewrite merged_query, Hq. cbn [negb py_contains py_getitem mbind result_bind].
  rewrite Hb. cbn [negb py_contains py_getitem mbind result_bind].
  rewrite Hf. cbn [negb py_setitem py_getitem py_append mbind result_bind].
  rewrite Hf. by cbn [py_append py_setitem mbind result_bind].
Qed.

(** X1. [get_source_fields] by the shape of [_source]: without the key the
    field list is empty; an object gives its [includes] value, the empty
    list when it has none; a list of names or a single name that does not
    mention [includes] gives the empty list, so such a selection is dropped
    without an error; [null], a boolean or a number raises [TypeError]. *)
Theorem get_source_fields_by_shape (fields : list (string * json)) :
  (dict_get "_source" fields = None →
   get_source_fields (JObj fields) = Ok (JArr [])) ∧
  (∀ source, dict_get "_source" fields = Some (JObj source) →
   get_source_fields (JObj fields) =
     Ok (match dict_get "includes" source with Some v => v | None => JArr [] end)) ∧
  (∀ names, dict_get "_source" fields = Some (JArr names) →
   (∀ x, x ∈ names → x ≠ JStr "includes") →
   get_source_fields (JObj fields) = Ok (JArr [])) ∧
  (∀ name, dict_get "_source" fields = Some (JStr name) →
   str_contains "includes" name = false →
   get_source_fields (JObj fields) = Ok (JArr [])) ∧
  (∀ v, dict_get "_source" fields = Some v →
   v = JNull ∨ (∃ b, v = JBool b) ∨ (∃ n, v = JNum n) →
   get_source_fields (JObj fields) = Raise TypeError).
Proof.
  unfold get_source_fields. cbn [py_contains py_getitem].
  split; [|split; [|split; [|split]]].
  - by intros ->.
  - intros source ->. cbn [negb mbind result_bind py_contains py_getitem].
    by destruct (dict_get "includes" source).
  - intros names -> Hnames. cbn [negb mbind result_bind py_contains].
    replace (existsb _ names) with false; [done|].
    symmetry. apply not_true_is_false. intros Hex.
    apply existsb_exists in Hex as (x & Hx & Heq).
    destruct x; try done. apply String.eqb_eq in Heq as <-.
    apply (Hnames (JStr "includes")); [|done]. by apply list_elem_of_In.
  - intros name -> Hname. cbn [negb mbind result_bind py_contains]. by rewrite Hname.
  - intros v -> [-> | [[b ->] | [n ->]]]; done.
Qed.

Lemma get_source_fields_by_shape_witness :
  get_source_fields (JObj [("query", JObj [("match_all", JObj [])])]) = Ok (JArr []) ∧
  get_source_fields
    (JObj [("_source", JObj [("includes", JArr [JStr "subject"; JStr "sender"])])]) =
    Ok (JArr [JStr "subject"; JStr "sender"]) ∧
  get_source_fields (JObj [("_source", JArr [JStr "subject"])]) = Ok (JArr []) ∧
  get_source_fields (JObj [("_source", JStr "subject")]) = Ok (JArr []) ∧
  get_source_fields (JObj [("_source", JBool false)]) = Raise TypeError.
Proof.
  split; [|split; [|split; [|split]]].
  - apply (get_source_fields_by_shape [("query", JObj [("match_all", JObj [])])]).
    reflexivity.
  - apply (proj1 (proj2 (get_source_fields_by_shape
             [("_source", JObj [("includes", JArr [JStr "subject"; JStr "sender"])])]))
             [("includes", JArr [JStr "subject"; JStr "sender"])]).
    reflexivity.
  - apply (proj1 (proj2 (proj2 (get_source_fields_by_shape
             [("_source", JArr [JStr "subject"])]))) [JStr "subject"]); [reflexivity|].
    intros x Hx. apply list_elem_of_singleton in Hx as ->. discriminate.
  - apply (proj1 (proj2 (proj2 (proj2 (get_source_fields_by_shape
             [("_source", JStr "subject")])))) "subject"); reflexivity.
  - apply (proj2 (proj2 (proj2 (proj2 (get_source_fields_by_shape
             [("_source", JBool false)])))) (JBool false)); [reflexivity|].
    right. left. by exists false.
Defined.

(** X2. Compiling the query does not touch the field selection: the fields
    [get_source_fields] reads from the compiled plan are those it reads from
    the query document. *)
Theorem get_source_fields_after_init_query es_version query_body plan :
  init_query es_version query_body = Ok plan →
  get_source_fields plan = get_source_fields query_body.
Proof.
  intros H. destruct query_body as [| | | | |d]; try discriminate H.
  destruct (String.eqb es_version VERSION_ES5) eqn:Hes.
  - apply String.eqb_eq in Hes as ->. rewrite init_query_es5 in H. injection H as <-.
    apply get_source_fields_source. by apply merged_other.
  - rewrite (init_query_es7 _ _ Hes) in H. apply init_query_es7_tail_ok in H as [query ->].
    apply get_source_fields_source.
    rewrite !dict_get_set_ne by done. by apply merged_other.
Qed.

Lemma get_source_fields_after_init_query_witness :
  get_source_fields sample_plan = get_source_fields sample_query.
Proof.
  apply (get_source_fields_after_init_query VERSION_ES7 sample_query sample_plan).
  reflexivity.
Defined.

(** X3. What compilation leaves alone: every top-level key other than
    [slice], [size], [sort], [track_total_hits] and [query], every key of
    the query other than [bool], and every clause of the [bool] query other
    than [filter] read in the plan as in the query document; for the newer
    dialect [track_total_hits] is [true] whatever the document said. *)
Theorem init_query_keeps_other_keys es_version d plan :
  init_query es_version (JObj d) = Ok plan →
  (∀ k, k ∉ ["slice"; "size"; "sort"; "track_total_hits"; "query"] →
        json_path [k] plan = json_path [k] (JObj d)) ∧
  (∀ k, k ≠ "bool" → json_path ["query"; k] plan = json_path ["query"; k] (JObj d)) ∧
  (∀ k, k ≠ "filter" →
        json_path ["query"; "bool"; k] plan = json_path ["query"; "bool"; k] (JObj d)) ∧
  (es_version ≠ VERSION_ES5 → json_path ["track_total_hits"] plan = Some (JBool true)).
Proof.
  intros H. destruct (String.eqb es_version VERSION_ES5) eqn:Hes.
  - apply String.eqb_eq in Hes as ->. rewrite init_query_es5 in H. injection H as <-.
    split; [|split; [|split]].
    + intros k Hk. rewrite !json_path_singleton. apply merged_other; set_solver.
    + intros k _. rewrite !json_path_cons. by rewrite merged_other.
    + intros k _. rewrite !json_path_cons. by rewrite merged_other.
    + done.
  - rewrite (init_query_es7 _ _ Hes) in H.
    apply init_query_es7_tail_inv in H as (qf & bf & clauses & Hq & Hb & _ & ->).
    split; [|split; [|split]].
    + intros k Hk. rewrite !json_path_singleton.
      rewrite !dict_get_set_ne by set_solver. apply merged_other; set_solver.
    + intros k Hk. rewrite !json_path_cons, dict_get_set_eq, Hq. cbn [mbind option_bind].
      rewrite !json_path_singleton. by rewrite dict_get_set_ne.
    + intros k Hk. rewrite !json_path_cons, dict_get_set_eq, Hq. cbn [mbind option_bind].
      rewrite !json_path_cons, dict_get_set_eq, Hb. cbn [mbind option_bind].
      rewrite !json_path_singleton. by rewrite dict_get_set_ne.
    + intros _. rewrite json_path_singleton.
      rewrite dict_get_set_ne by done. apply dict_get_set_eq.
Qed.

Lemma init_query_keeps_other_keys_witness :
  let doc := [("query", JObj [("bool", JObj [("must", JArr [JObj [("match", JObj [("subject", JStr "hi")])]])]);
                              ("min_score", JNum 1)]);
              ("_source", JObj [("includes", JArr [JStr "subject"])]);
              ("track_total_hits", JBool false);
              ("timeout", JStr "5s")] in
  ∃ plan,
    init_query VERSION_ES7 (JObj doc) = Ok plan ∧
    json_path ["timeout"] plan = Some (JStr "5s") ∧
    json_path ["query"; "min_score"] plan = Some (JNum 1) ∧
    json_path ["query"; "bool"; "must"] plan =
      Some (JArr [JObj [("match", JObj [("subject", JStr "hi")])]]) ∧
    json_path ["track_total_hits"] plan = Some (JBool true).
Proof.
  intros doc.
  destruct (init_query VERSION_ES7 (JObj doc)) as [plan|] eqn:Hplan;
    [|vm_compute in Hplan; discriminate Hplan].
  exists plan. split; [reflexivity|].
  destruct (init_query_keeps_other_keys VERSION_ES7 doc plan Hplan) as (H1 & H2 & H3 & H4).
  split; [|split; [|split]].
  - rewrite (H1 "timeout"); [reflexivity|]. set_solver.
  - rewrite (H2 "min_score"); [reflexivity|done].
  - rewrite (H3 "must"); [reflexivity|done].
  - by apply H4.
Defined.

(** X4. For the newer dialect a [filter] clause that is not a list, such as
    a single filter object, makes [init_query] raise [AttributeError]: the
    type filter is appended with [append], which only a list has. *)
Theorem init_query_es7_filter_not_a_list es_version fields query_fields bool_fields filter :
  es_version ≠ VERSION_ES5 →
  dict_get "query" fields = Some (JObj query_fields) →
  dict_get "bool" query_fields = Some (JObj bool_fields) →
  dict_get "filter" bool_fields = Some filter →
  (∀ clauses, filter ≠ JArr clauses) →
  init_query es_version (JObj fields) = Raise AttributeError.
Proof.
  intros Hes Hq Hb Hf Hlist.
  rewrite (init_query_es7 _ _ (eqb_version_ne _ Hes)).
  unfold init_query_es7_tail. cbv zeta.
  cbn [py_contains py_getitem mbind result_bind].
  rewrite merged_query, Hq. cbn [negb py_contains py_getitem mbind result_bind].
  rewrite Hb. cbn [negb py_contains py_getitem mbind result_bind].
  rewrite Hf. cbn [negb py_setitem py_getitem py_append mbind result_bind].
  rewrite Hf. cbn [mbind result_bind].
  destruct filter as [| | | |clauses|]; try done. by destruct (Hlist clauses).
Qed.

Lemma init_query_es7_filter_not_a_list_witness :
  init_query VERSION_ES7
    (JObj [("query", JObj [("bool", JObj [("filter",
             JObj [("term", JObj [("sender", JStr "ann")])])])])]) =
  Raise AttributeError.
Proof.
  apply (init_query_es7_filter_not_a_list VERSION_ES7 _
           [("bool", JObj [("filter", JObj [("term", JObj [("sender", JStr "ann")])])])]
           [("filter", JObj [("term", JObj [("sender", JStr "ann")])])]
           (JObj [("term", JObj [("sender", JStr "ann")])]));
    [done | reflexivity | reflexivity | reflexivity | discriminate].
Defined.

(** X5. For the newer dialect [init_query] returns a plan only for a
    document that is an object whose [query] is an object whose [bool] is an
    object with no [filter] or with a [filter] list, and then the plan's
    filter list is the document's (empty if there was none) with the type
    filter as its last clause; every other document raises. *)
Theorem init_query_es7_accepts_only es_version query_body plan :
  es_version ≠ VERSION_ES5 →
  init_query es_version query_body = Ok plan →
  ∃ fields query_fields bool_fields clauses,
    query_body = JObj fields ∧
    dict_get "query" fields = Some (JObj query_fields) ∧
    dict_get "bool" query_fields = Some (JObj bool_fields) ∧
    (dict_get "filter" bool_fields = None ∧ clauses = [] ∨
     dict_get "filter" bool_fields = Some (JArr clauses)) ∧
    json_path ["query"; "bool"; "filter"] plan =
      Some (JArr (clauses ++ [JSON_DOC_TYPE_FILTER])).
Proof.
  intros Hes H. destruct query_body as [| | | | |d]; try discriminate H.
  rewrite (init_query_es7 _ _ (eqb_version_ne _ Hes)) in H.
  apply init_query_es7_tail_inv in H as (qf & bf & clauses & Hq & Hb & Hf & ->).
  exists d, qf, bf, clauses. repeat split; try done.
  rewrite !json_path_cons, !dict_get_set_eq. cbn [mbind option_bind].
  rewrite !json_path_cons, !dict_get_set_eq. cbn [mbind option_bind].
  by rewrite json_path_singleton, dict_get_set_eq.
Qed.

Lemma init_query_es7_accepts_only_witness :
  ∃ fields query_fields bool_fields clauses,
    sample_query = JObj fields ∧
    dict_get "query" fields = Some (JObj query_fields) ∧
    dict_get "bool" query_fields = Some (JObj bool_fields) ∧
    (dict_get "filter" bool_fields = None ∧ clauses = [] ∨
     dict_get "filter" bool_fields = Some (JArr clauses)) ∧
    json_path ["query"; "bool"; "filter"] sample_plan =
      Some (JArr (clauses ++ [JSON_DOC_TYPE_FILTER])).
Proof.
  apply (init_query_es7_accepts_only VERSION_ES7 sample_query sample_plan);
    [done | reflexivity].
Defined.

(** X6. A query document that is not a JSON object (a list, a string, a
    number, a boolean, null) makes [init_query] raise [AttributeError] at its
    first [update], for every dialect. *)
Theorem init_query_rejects_non_objects es_version query_body :
  (∀ fields, query_body ≠ JObj fields) →
  init_query es_version query_body = Raise AttributeError.
Proof.
  intros H. destruct query_body as [| | | | |d]; try done. by destruct (H d).
Qed.

Lemma init_query_rejects_non_objects_witness :
  init_query VERSION_ES5 (JArr [JObj [("query", JObj [("match_all", JObj [])])]]) =
  Raise AttributeError.
Proof. apply init_query_rejects_non_objects. discriminate. Defined.

Lemma merged_merged d : merged (merged d) = merged d.
Proof.
  unfold merged at 1.
  rewrite (dict_set_same "slice" _ (merged d)) by apply merged_slice.
  rewrite (dict_set_same "size" _ (merged d)) by apply merged_size.
  by rewrite (dict_set_same "sort" _ (merged d)) by apply merged_sort.
Qed.

(** X7. For the older dialect compiling is idempotent: compiling a compiled
    plan gives the same plan. *)
Theorem init_query_es5_idempotent query_body plan :
  init_query VERSION_ES5 query_body = Ok plan →
  init_query VERSION_ES5 plan = Ok plan.
Proof.
  intros H. destruct query_body as [| | | | |d]; try discriminate H.
  rewrite init_query_es5 in H. injection H as <-.
  by rewrite init_query_es5, merged_merged.
Qed.

Lemma init_query_es5_idempotent_witness :
  ∃ plan, init_query VERSION_ES5 sample_query = Ok plan ∧
          init_query VERSION_ES5 plan = Ok plan.
Proof.
  destruct (init_query VERSION_ES5 sample_query) as [plan|] eqn:Hplan;
    [|vm_compute in Hplan; discriminate Hplan].
  exists plan. split; [reflexivity|].
  by apply (init_query_es5_idempotent sample_query).
Defined.

(** X8. For the newer dialect compiling is not idempotent: it never checks
    for a type filter that is already there, so compiling a compiled plan
    succeeds and leaves the type filter twice at the end of the filter
    list. *)
Theorem init_query_es7_appends_again es_version query_body plan :
  es_version ≠ VERSION_ES5 →
  init_query es_version query_body = Ok plan →
  ∃ clauses plan',
    json_path ["query"; "bool"; "filter"] plan =
      Some (JArr (clauses ++ [JSON_DOC_TYPE_FILTER])) ∧
    init_query es_version plan = Ok plan' ∧
    json_path ["query"; "bool"; "filter"] plan' =
      Some (JArr (clauses ++ [JSON_DOC_TYPE_FILTER; JSON_DOC_TYPE_FILTER])).
Proof.
  intros Hes H. destruct query_body as [| | | | |d]; try discriminate H.
  rewrite (init_query_es7 _ _ (eqb_version_ne _ Hes)) in H.
  apply init_query_es7_tail_inv in H as (qf & bf & clauses & Hq & Hb & Hf & ->).
  exists clauses. eexists. split; [|split].
  - rewrite !json_path_cons, !dict_get_set_eq. cbn [mbind option_bind].
    rewrite !json_path_cons, !dict_get_set_eq. cbn [mbind option_bind].
    by rewrite json_path_singleton, dict_get_set_eq.
  - rewrite (init_query_es7 _ _ (eqb_version_ne _ Hes)).
    eapply init_query_es7_tail_filter_list.
    + apply dict_get_set_eq.
    + apply dict_get_set_eq.
    + apply dict_get_set_eq.
  - rewrite !json_path_cons, !dict_get_set_eq. cbn [mbind option_bind].
    rewrite !json_path_cons, !dict_get_set_eq. cbn [mbind option_bind].
    rewrite json_path_singleton, dict_get_set_eq. by rewrite <- app_assoc.
Qed.

Lemma init_query_es7_appends_again_witness :
  ∃ clauses plan',
    json_path ["query"; "bool"; "filter"] sample_plan =
      Some (JArr (clauses ++ [JSON_DOC_TYPE_FILTER])) ∧
    init_query VERSION_ES7 sample_plan = Ok plan' ∧
    json_path ["query"; "bool"; "filter"] plan' =
      Some (JArr (clauses ++ [JSON_DOC_TYPE_FILTER; JSON_DOC_TYPE_FILTER])).
Proof.
  apply (init_query_es7_appends_again VERSION_ES7 sample_query sample_plan);
    [done | reflexivity].
Defined.

(* ===================================================================== *)
(** ** Rows of a batch *)
(* ===================================================================== *)

Lemma write_rows_app source_fields hits1 hits2 rows0 :
  write_rows source_fields (hits1 ++ hits2) rows0 =
  match write_rows source_fields hits1 rows0 with
  | (Ok _, rows1) => write_rows source_fields hits2 rows1
  | (Raise e, rows1) => (Raise e, rows1)
  end.
Proof.
  revert rows0. induction hits1 as [|hit hits1 IH]; intros rows0; cbn [write_rows app]; [done|].
  destruct (hit_values source_fields hit); [apply IH|done].
Qed.

Lemma write_rows_mapM source_fields hits new_rows rows0 :
  mapM (hit_values source_fields) hits = Ok new_rows →
  write_rows source_fields hits rows0 = (Ok (), rows0 ++ new_rows).
Proof.
  revert new_rows rows0. induction hits as [|hit hits IH]; intros new_rows rows0 H;
    cbn [mapM] in H.
  - injection H as <-. by rewrite app_nil_r.
  - cbn [write_rows]. destruct (hit_values source_fields hit) as [values|];
      cbn [mbind result_bind] in H; [|done].
    destruct (mapM (hit_values source_fields) hits) as [rest|] eqn:Hrest;
      cbn [mbind result_bind mret result_ret] in H; [|done].
    injection H as <-. rewrite (IH rest) by done. by rewrite <- app_assoc.
Qed.

(** X9. A batch is written hit by hit: when a hit raises, the rows of the
    hits before it, and only these, have been written in their order, and
    the hits after it are not looked at. *)
Theorem write_rows_stops_at_first_error source_fields good bad rest good_rows e rows0 :
  mapM (hit_values source_fields) good = Ok good_rows →
  hit_values source_fields bad = Raise e →
  write_rows source_fields (good ++ bad :: rest) rows0 = (Raise e, rows0 ++ good_rows).
Proof.
  intros Hgood Hbad. rewrite write_rows_app, (write_rows_mapM _ _ _ _ Hgood).
  cbn [write_rows]. by rewrite Hbad.
Qed.

Lemma write_rows_stops_at_first_error_witness :
  write_rows ["subject"]
    ([sample_hit "a" "hello"] ++ JObj [("_id", JStr "b")] :: [sample_hit "c" "late"]) [] =
  (Raise (KeyError "_source"), [] ++ [[JStr "a"; JStr "hello"]]).
Proof.
  apply (write_rows_stops_at_first_error ["subject"] [sample_hit "a" "hello"]);
    reflexivity.
Defined.

(** X10. Reading [_source]: with source fields selected, a hit that has no
    [_source] raises [KeyError]; with none selected [_source] is not read
    and the row is the system fields alone, whatever else the hit holds. *)
Theorem hit_values_reads_source_on_demand (hit_fields : list (string * json)) :
  (∀ source_fields, source_fields ≠ [] → dict_get "_source" hit_fields = None →
     hit_values source_fields (JObj hit_fields) = Raise (KeyError "_source")) ∧
  hit_values [] (JObj hit_fields) =
    Ok (map (λ f, match dict_get f hit_fields with Some v => v | None => JStr "" end)
            SYSTEM_FIELDS).
Proof.
  split.
  - intros source_fields Hne Hsrc. unfold hit_values.
    replace (0 <? length SYSTEM_FIELDS)%nat with true by done.
    rewrite mapM_get_default. cbn [mbind result_bind].
    destruct source_fields as [|f fs]; [done|].
    cbn [length Nat.ltb Nat.leb py_getitem]. by rewrite Hsrc.
  - unfold hit_values.
    replace (0 <? length SYSTEM_FIELDS)%nat with true by done.
    rewrite mapM_get_default. cbn [mbind result_bind length Nat.ltb Nat.leb].
    by rewrite app_nil_r.
Qed.

Lemma hit_values_reads_source_on_demand_witness :
  hit_values ["subject"] (JObj [("_id", JStr "b"); ("_score", JNum 1)]) =
    Raise (KeyError "_source") ∧
  hit_values [] (JObj [("_id", JStr "b"); ("_score", JNum 1)]) = Ok [JStr "b"].
Proof.
  split.
  - apply (proj1 (hit_values_reads_source_on_demand
                    [("_id", JStr "b"); ("_score", JNum 1)])); [discriminate|reflexivity].
  - apply (proj2 (hit_values_reads_source_on_demand
                    [("_id", JStr "b"); ("_score", JNum 1)])).
Defined.

(* ===================================================================== *)
(** ** Paging through a slice *)
(* ===================================================================== *)

Lemma get_message_metadata_scroll_object scroll_id scroll_fields :
  get_message_metadata_scroll scroll_id (JObj scroll_fields) =
  Ok (scroll_request_for scroll_fields scroll_id,
      JObj (dict_set "scroll_id" scroll_id scroll_fields), read_response).
Proof. reflexivity. Qed.

Lemma scroll_request_for_set scroll_fields x y :
  scroll_request_for (dict_set "scroll_id" x scroll_fields) y =
  scroll_request_for scroll_fields y.
Proof. unfold scroll_request_for. by rewrite dict_set_set. Qed.

Lemma loop_test_batch total_hits hits :
  py_gt0 total_hits = Ok true → hits ≠ [] → loop_test total_hits (JArr hits) = Ok true.
Proof.
  intros Htotal Hhits. unfold loop_test. rewrite Htotal. cbn [mbind result_bind py_len].
  by destruct hits.
Qed.

Lemma loop_test_no_batch total_hits :
  py_gt0 total_hits = Ok true → loop_test total_hits (JArr []) = Ok false.
Proof. intros Htotal. unfold loop_test. by rewrite Htotal. Qed.

(** The loop over a run of pages with hits that ends with an empty batch. *)
Lemma paging_pages source_fields total_hits rs ps :
  py_gt0 total_hits = Ok true →
  Forall2 (λ r p, read_response r = Ok (page_results p) ∧ page_ok source_fields p) rs ps →
  ∀ p0 scroll_fields r_end results_end rest sent0 rows0,
    page_ok source_fields p0 →
    read_response r_end = Ok results_end →
    json_path ["hits"; "hits"] results_end = Some (JArr []) →
    paging source_fields total_hits (page_results p0) (JArr (page_hits p0))
           (JObj scroll_fields) (rs ++ r_end :: rest) sent0 rows0 =
    (Returned total_hits,
     Trace (sent0 ++ map (scroll_request_for scroll_fields) (page_scroll_id <$> p0 :: ps))
           (rows0 ++ concat (page_rows <$> p0 :: ps))
           rest).
Proof.
  intros Htotal Hpages.
  induction Hpages as [|r p rs ps [Hread Hp] Hrest IH];
    intros p0 scroll_fields r_end results_end rest sent0 rows0
           (Hid0 & Hhits0 & Hne0 & Hrows0) Hend Hempty.
  - apply json_path_hits in Hempty as (page_end & Hpage_end & Hhits_end).
    cbn [app].
    rewrite (paging_step source_fields total_hits (page_results p0) (JArr (page_hits p0))
               (JObj scroll_fields) r_end rest sent0 rows0 (page_hits p0)
               (rows0 ++ page_rows p0) (page_scroll_id p0)
               (scroll_request_for scroll_fields (page_scroll_id p0))
               (JObj (dict_set "scroll_id" (page_scroll_id p0) scroll_fields))
               read_response results_end page_end (JArr []));
      [|by apply loop_test_batch|done|by apply write_rows_mapM|done
       |apply get_message_metadata_scroll_object|done..].
    rewrite paging_stop by (by apply loop_test_no_batch).
    cbn [fmap list_fmap map concat]. by rewrite app_nil_r.
  - pose proof Hp as (Hid & Hhits & Hne & Hrows).
    apply json_path_hits in Hhits as (page_r & Hpage_r & Hhits_r).
    cbn [app].
    rewrite (paging_step source_fields total_hits (page_results p0) (JArr (page_hits p0))
               (JObj scroll_fields) r (rs ++ r_end :: rest) sent0 rows0 (page_hits p0)
               (rows0 ++ page_rows p0) (page_scroll_id p0)
               (scroll_request_for scroll_fields (page_scroll_id p0))
               (JObj (dict_set "scroll_id" (page_scroll_id p0) scroll_fields))
               read_response (page_results p) page_r (JArr (page_hits p)));
      [|by apply loop_test_batch|done|by apply write_rows_mapM|done
       |apply get_message_metadata_scroll_object|done..].
    rewrite (IH p _ r_end results_end rest) by done.
    rewrite (map_ext _ (scroll_request_for scroll_fields))
      by (intros x; apply scroll_request_for_set).
    f_equal. f_equal.
    + cbn [fmap list_fmap map]. by rewrite <- app_assoc.
    + cbn [fmap list_fmap concat]. by rewrite <- app_assoc.
Qed.

(** X11. A slice whose engine reports a positive total, sends pages with
    hits and then an empty batch: [process_slice] returns the total of the
    first page; it has sent the search request and then one scroll request
    per page with hits, each with the scroll id of the page before it; the
    rows written are those of all the hits, page after page in the order of
    the responses; and the responses after the empty batch are not read. *)
Theorem process_slice_writes_all_pages
    es_version slice_id index_pattern query_body scroll_fields source_fields
    req receive total_hits r0 p0 rs ps r_end results_end rest :
  get_message_metadata_search es_version slice_id index_pattern query_body =
    Ok (req, receive) →
  read_response r0 = Ok (page_results p0) →
  read_total_hits es_version (page_results p0) = Ok total_hits →
  py_gt0 total_hits = Ok true →
  page_ok source_fields p0 →
  Forall2 (λ r p, read_response r = Ok (page_results p) ∧ page_ok source_fields p) rs ps →
  read_response r_end = Ok results_end →
  json_path ["hits"; "hits"] results_end = Some (JArr []) →
  process_slice es_version slice_id index_pattern query_body (JObj scroll_fields)
                source_fields (r0 :: rs ++ r_end :: rest) =
  (Returned total_hits,
   Trace (req :: map (scroll_request_for scroll_fields) (page_scroll_id <$> p0 :: ps))
         (concat (page_rows <$> p0 :: ps))
         rest).
Proof.
  intros Hreq Hread Htotal Hpos Hp0 Hpages Hend Hempty.
  unfold process_slice. rewrite Hreq.
  rewrite (get_message_metadata_search_receive _ _ _ _ _ _ Hreq), Hread.
  cbn [mbind result_bind]. rewrite Htotal. cbn [mbind result_bind].
  pose proof Hp0 as (_ & Hhits & _).
  apply json_path_hits in Hhits as (page0 & Hpage0 & Hhits0).
  rewrite Hpage0. cbn [mbind result_bind]. rewrite Hhits0. cbn [mbind result_bind].
  by rewrite (paging_pages source_fields total_hits rs ps Hpos Hpages p0 scroll_fields
                r_end results_end rest [req] []).
Qed.

Lemma process_slice_writes_all_pages_witness :
  process_slice VERSION_ES7 4 "idx" sample_plan JSON_SCROLL_BODY ["subject"]
    (sample_page 200 "s1" 5 [sample_hit "a" "one"; sample_hit "b" "two"] ::
     [sample_page 200 "s2" 0 [sample_hit "c" "three"]] ++
     sample_page 200 "s3" 5 [] :: [sample_page 200 "s4" 5 [sample_hit "d" "late"]]) =
  (Returned (JNum 5),
   Trace [sample_search_request 4; sample_scroll_request "s1"; sample_scroll_request "s2"]
         [[JStr "a"; JStr "one"]; [JStr "b"; JStr "two"]; [JStr "c"; JStr "three"]]
         [sample_page 200 "s4" 5 [sample_hit "d" "late"]]).
Proof.
  apply (process_slice_writes_all_pages VERSION_ES7 4 "idx" sample_plan
           [("scroll", JStr "1m"); ("scroll_id", JStr "")] ["subject"]
           (sample_search_request 4) read_response (JNum 5)
           (sample_page 200 "s1" 5 [sample_hit "a" "one"; sample_hit "b" "two"])
           (Page (sample_results "s1" 5 [sample_hit "a" "one"; sample_hit "b" "two"])
                 (JStr "s1") [sample_hit "a" "one"; sample_hit "b" "two"]
                 [[JStr "a"; JStr "one"]; [JStr "b"; JStr "two"]])
           [sample_page 200 "s2" 0 [sample_hit "c" "three"]]
           [Page (sample_results "s2" 0 [sample_hit "c" "three"])
                 (JStr "s2") [sample_hit "c" "three"] [[JStr "c"; JStr "three"]]]
           (sample_page 200 "s3" 5 []) (sample_results "s3" 5 []));
    try reflexivity.
  - split; [reflexivity|]. split; [reflexivity|]. split; [discriminate|reflexivity].
  - constructor; [|constructor]. split; [reflexivity|].
    split; [reflexivity|]. split; [reflexivity|]. split; [discriminate|reflexivity].
Defined.

(** X12. A page with hits but without [_scroll_id]: the rows of its batch
    are written, then the loop raises [KeyError] for [_scroll_id]; no scroll
    request is sent and no response is consumed. *)
Theorem paging_needs_scroll_id source_fields total_hits results_fields hits scroll_body
    inbox sent0 rows0 batch_rows :
  py_gt0 total_hits = Ok true →
  hits ≠ [] →
  mapM (hit_values source_fields) hits = Ok batch_rows →
  dict_get "_scroll_id" results_fields = None →
  paging source_fields total_hits (JObj results_fields) (JArr hits) scroll_body
         inbox sent0 rows0 =
  (Raised (KeyError "_scroll_id"), Trace sent0 (rows0 ++ batch_rows) inbox).
Proof.
  intros Htotal Hne Hrows Hid.
  destruct inbox; cbn [paging]; rewrite (loop_test_batch _ _ Htotal Hne);
    cbn [py_iter py_getitem]; rewrite (write_rows_mapM _ _ _ _ Hrows), Hid; done.
Qed.

Lemma paging_needs_scroll_id_witness :
  paging ["subject"] (JNum 2)
    (JObj [("hits", JObj [("total", JNum 2); ("hits", JArr [sample_hit "a" "one"])])])
    (JArr [sample_hit "a" "one"]) JSON_SCROLL_BODY
    [sample_page 200 "s2" 2 []] [sample_search_request 0] [] =
  (Raised (KeyError "_scroll_id"),
   Trace [sample_search_request 0] ([] ++ [[JStr "a"; JStr "one"]])
         [sample_page 200 "s2" 2 []]).
Proof.
  apply (paging_needs_scroll_id ["subject"] (JNum 2)); [reflexivity|discriminate|reflexivity..].
Defined.

Lemma json_path_two k1 k2 results v :
  json_path [k1; k2] results = Some v →
  ∃ inner, py_getitem results k1 = Ok inner ∧ py_getitem inner k2 = Ok v.
Proof.
  cbn [json_path]. destruct results as [| | | | |d]; try done.
  destruct (dict_get k1 d) as [inner|] eqn:E; [|done].
  destruct inner as [| | | | |p]; try done.
  destruct (dict_get k2 p) as [v'|] eqn:E'; [|done].
  intros [= <-]. exists (JObj p). cbn [py_getitem]. by rewrite E, E'.
Qed.

(** X13. The shape of the total must be the dialect's. A first page whose
    [hits.total] is a number, read under a version other than 5, raises
    [TypeError] (a number has no [value]); one whose [hits.total] is an
    object, read under version 5, raises [TypeError] at the loop test. In
    both cases the search request has been sent and no row is written. *)
Theorem process_slice_total_shape es_version slice_id index_pattern query_body scroll_body
    source_fields req receive r results inbox :
  get_message_metadata_search es_version slice_id index_pattern query_body =
    Ok (req, receive) →
  read_response r = Ok results →
  (es_version ≠ VERSION_ES5 ∧ ∃ n, json_path ["hits"; "total"] results = Some (JNum n)) ∨
  (es_version = VERSION_ES5 ∧
   ∃ total hits, json_path ["hits"; "total"] results = Some (JObj total) ∧
                 json_path ["hits"; "hits"] results = Some hits) →
  process_slice es_version slice_id index_pattern query_body scroll_body source_fields
                (r :: inbox) =
  (Raised TypeError, Trace [req] [] inbox).
Proof.
  intros Hreq Hread Hshape. unfold process_slice. rewrite Hreq.
  rewrite (get_message_metadata_search_receive _ _ _ _ _ _ Hreq), Hread.
  cbn [mbind result_bind]. unfold read_total_hits.
  destruct Hshape as [[Hes (n & Htotal)] | [-> (total & hits & Htotal & Hhits)]].
  - rewrite (eqb_version_ne _ Hes).
    apply json_path_two in Htotal as (page & Hpage & Htotal).
    rewrite Hpage. cbn [mbind result_bind]. rewrite Htotal. done.
  - apply json_path_two in Htotal as (page & Hpage & Htotal).
    apply json_path_two in Hhits as (page' & Hpage' & Hhits).
    rewrite Hpage in Hpage'. injection Hpage' as <-.
    cbn [String.eqb Ascii.eqb Bool.eqb VERSION_ES5].
    rewrite Hpage. cbn [mbind result_bind]. rewrite Htotal. cbn [mbind result_bind].
    rewrite Hhits. cbn [mbind result_bind].
    destruct inbox; done.
Qed.

Lemma process_slice_total_shape_witness :
  process_slice "6" 0 "idx" sample_plan JSON_SCROLL_BODY ["subject"]
    [{| status_code := 200;
        body := Some (JObj [("_scroll_id", JStr "s1");
                            ("hits", JObj [("total", JNum 3);
                                           ("hits", JArr [sample_hit "a" "one"])])]) |}] =
  (Raised TypeError, Trace [sample_search_request 0] [] []) ∧
  process_slice VERSION_ES5 0 "idx" sample_plan JSON_SCROLL_BODY ["subject"]
    [sample_page 200 "s1" 3 [sample_hit "a" "one"]] =
  (Raised TypeError,
   Trace [{| url := "http://localhost:9200/idx/message/_search?scroll=1m";
             data := data (sample_search_request 0) |}] [] []).
Proof.
  split.
  - apply (process_slice_total_shape "6" 0 "idx" sample_plan JSON_SCROLL_BODY ["subject"]
             (sample_search_request 0) read_response) with
      (results := JObj [("_scroll_id", JStr "s1");
                        ("hits", JObj [("total", JNum 3);
                                       ("hits", JArr [sample_hit "a" "one"])])]);
      [reflexivity|reflexivity|].
    left. split; [discriminate|]. by exists 3.
  - apply (process_slice_total_shape VERSION_ES5 0 "idx" sample_plan JSON_SCROLL_BODY
             ["subject"] _ read_response) with
      (results := sample_results "s1" 3 [sample_hit "a" "one"]);
      [reflexivity|reflexivity|].
    right. split; [reflexivity|]. eexists _, _. split; reflexivity.
Defined.

(** The exception of an error status: [HTTPError] with the status when the
    body is JSON, [JSONDecodeError] when it is not (the body is decoded for
    the log line before the status is raised). *)
Lemma read_response_error_exact r :
  400 ≤ status_code r < 600 → status_code r ≠ codes_not_found →
  read_response r =
  Raise (match body r with Some _ => HTTPError (status_code r) | None => JSONDecodeError end).
Proof.
  intros Hrange Hnf. unfold read_response, check_search_response, codes_ok, codes_not_found in *.
  destruct (Z.eqb_spec (status_code r) 200); [lia|].
  destruct (Z.eqb_spec (status_code r) 404); [lia|].
  unfold response_json. destruct (body r); cbn [mbind result_bind]; [|done].
  unfold raise_for_status.
  destruct (Z.leb_spec 400 (status_code r)); [|lia].
  destruct (Z.ltb_spec (status_code r) 600); [|lia]. done.
Qed.

(** X14. A 4xx or 5xx status other than 404 in answer to the search request
    of a slice ends the slice at once: [process_slice] raises [HTTPError]
    with that status when the body is JSON and [JSONDecodeError] when it is
    not, having sent the one request and written no row; later responses
    are not read. *)
Theorem process_slice_first_page_http_error es_version slice_id index_pattern query_body
    scroll_body source_fields req receive r inbox :
  get_message_metadata_search es_version slice_id index_pattern query_body =
    Ok (req, receive) →
  400 ≤ status_code r < 600 → status_code r ≠ codes_not_found →
  process_slice es_version slice_id index_pattern query_body scroll_body source_fields
                (r :: inbox) =
  (Raised (match body r with Some _ => HTTPError (status_code r) | None => JSONDecodeError end),
   Trace [req] [] inbox).
Proof.
  intros Hreq Hrange Hnf. unfold process_slice. rewrite Hreq.
  rewrite (get_message_metadata_search_receive _ _ _ _ _ _ Hreq).
  by rewrite (read_response_error_exact r Hrange Hnf).
Qed.

Lemma process_slice_first_page_http_error_witness :
  process_slice VERSION_ES7 2 "idx" sample_plan JSON_SCROLL_BODY ["subject"]
    [{| status_code := 503; body := Some (JObj [("error", JStr "unavailable")]) |};
     sample_page 200 "s1" 1 [sample_hit "a" "one"]] =
  (Raised (HTTPError 503),
   Trace [sample_search_request 2] [] [sample_page 200 "s1" 1 [sample_hit "a" "one"]]) ∧
  process_slice VERSION_ES7 2 "idx" sample_plan JSON_SCROLL_BODY ["subject"]
    [{| status_code := 502; body := None |}] =
  (Raised JSONDecodeError, Trace [sample_search_request 2] [] []).
Proof.
  split.
  - apply (process_slice_first_page_http_error VERSION_ES7 2 "idx" sample_plan
             JSON_SCROLL_BODY ["subject"] (sample_search_request 2) read_response
             {| status_code := 503; body := Some (JObj [("error", JStr "unavailable")]) |});
      [reflexivity|cbn; lia|discriminate].
  - apply (process_slice_first_page_http_error VERSION_ES7 2 "idx" sample_plan
             JSON_SCROLL_BODY ["subject"] (sample_search_request 2) read_response
             {| status_code := 502; body := None |});
      [reflexivity|cbn; lia|discriminate].
Defined.

(** X15. A 4xx or 5xx status other than 404 in answer to a scroll request
    ends the loop with the exception ([HTTPError] with the status, or
    [JSONDecodeError] when the body is not JSON): the rows of the batch at
    hand stay written with those before them, the scroll request has been
    sent, and the responses after the failing one are not read. *)
Theorem paging_continuation_http_error source_fields total_hits results hits scroll_fields
    r inbox sent0 rows0 batch_rows scroll_id :
  py_gt0 total_hits = Ok true →
  hits ≠ [] →
  mapM (hit_values source_fields) hits = Ok batch_rows →
  py_getitem results "_scroll_id" = Ok scroll_id →
  400 ≤ status_code r < 600 → status_code r ≠ codes_not_found →
  paging source_fields total_hits results (JArr hits) (JObj scroll_fields)
         (r :: inbox) sent0 rows0 =
  (Raised (match body r with Some _ => HTTPError (status_code r) | None => JSONDecodeError end),
   Trace (sent0 ++ [scroll_request_for scroll_fields scroll_id]) (rows0 ++ batch_rows) inbox).
Proof.
  intros Htotal Hne Hrows Hid Hrange Hnf. cbn [paging].
  rewrite (loop_test_batch _ _ Htotal Hne). cbn [py_iter].
  rewrite (write_rows_mapM _ _ _ _ Hrows), Hid. cbn [mbind result_bind].
  rewrite get_message_metadata_scroll_object.
  by rewrite (read_response_error_exact r Hrange Hnf).
Qed.

Lemma paging_continuation_http_error_witness :
  paging ["subject"] (JNum 9) (sample_results "s1" 9 [sample_hit "a" "one"])
    (JArr [sample_hit "a" "one"]) (JObj [("scroll", JStr "1m"); ("scroll_id", JStr "")])
    [{| status_code := 500; body := Some (JObj []) |}; sample_page 200 "s2" 9 []]
    [sample_search_request 0] [] =
  (Raised (HTTPError 500),
   Trace ([sample_search_request 0] ++
          [scroll_request_for [("scroll", JStr "1m"); ("scroll_id", JStr "")] (JStr "s1")])
         ([] ++ [[JStr "a"; JStr "one"]])
         [sample_page 200 "s2" 9 []]).
Proof.
  apply (paging_continuation_http_error ["subject"] (JNum 9)
           (sample_results "s1" 9 [sample_hit "a" "one"]) [sample_hit "a" "one"]
           [("scroll", JStr "1m"); ("scroll_id", JStr "")]
           {| status_code := 500; body := Some (JObj []) |});
    [reflexivity|discriminate|reflexivity|reflexivity|cbn; lia|discriminate].
Defined.

(* ===================================================================== *)
(** ** The export *)
(* ===================================================================== *)

Lemma gather_totals total_msgs totals :
  gather total_msgs (map (λ n, Returned (JNum n)) totals) =
  Returned (JNum (total_msgs + foldr Z.add 0 totals)).
Proof.
  revert total_msgs. induction totals as [|n totals IH]; intros total_msgs; cbn [map gather foldr].
  - by rewrite Z.add_0_r.
  - cbn [py_add_int]. rewrite IH. do 2 f_equal. lia.
Qed.

Lemma foldr_add_permutation (l l' : list Z) :
  l ≡ₚ l' → foldr Z.add 0 l = foldr Z.add 0 l'.
Proof. induction 1; cbn [foldr]; lia. Qed.

Lemma no_slice_starved es_version index_pattern query_body scroll_body source_fields engine :
  (∀ id, (id < NUM_SLICES)%nat →
     is_starved (process_slice es_version (Z.of_nat id) index_pattern query_body
                               scroll_body source_fields (engine id)).1 = false) →
  existsb (λ id, is_starved (process_slice es_version (Z.of_nat id) index_pattern query_body
                                           scroll_body source_fields (engine id)).1)
          (seq 0 NUM_SLICES) = false.
Proof.
  intros Hended. apply not_true_is_false. intros Hex.
  apply existsb_exists in Hex as (i & Hi & Hstarved).
  apply in_seq in Hi. rewrite Hended in Hstarved; [done|lia].
Qed.

(** The loop over the futures adds up the totals of the slices, in whatever
    order the futures are handed out. *)
Lemma workers_total_is_sum es_version index_pattern query_body scroll_body source_fields
    engine yielded (totals : nat → Z) :
  yielded ≡ₚ seq 0 NUM_SLICES →
  (∀ id, (id < NUM_SLICES)%nat →
     (process_slice es_version (Z.of_nat id) index_pattern query_body scroll_body
                    source_fields (engine id)).1 = Returned (JNum (totals id))) →
  (save_message_metadata_to_csv es_version index_pattern query_body scroll_body
     source_fields engine yielded).1.1 =
  Returned (JNum (sum_totals totals)).
Proof.
  intros Hperm Hreturned. unfold save_message_metadata_to_csv, sum_totals. cbv zeta. cbn [fst].
  rewrite no_slice_starved by (intros id Hid; by rewrite Hreturned).
  rewrite (map_ext_in _ (λ id, Returned (JNum (totals id)))).
  - rewrite <- (map_map totals (λ n, Returned (JNum n))), gather_totals.
    rewrite Z.add_0_l. do 2 f_equal. apply foldr_add_permutation.
    by apply Permutation_map.
  - intros id Hid. apply Hreturned.
    apply list_elem_of_In in Hid. rewrite Hperm in Hid.
    apply list_elem_of_In, in_seq in Hid. lia.
Qed.

Lemma FLOAT_OVERFLOW_pos : 0 < FLOAT_OVERFLOW.
Proof. reflexivity. Qed.

(** X16. When every slice returns its total, the loop over the futures
    leaves in [total_msgs] the sum of the totals of the slices 0 to
    [NUM_SLICES - 1], in whatever order [as_completed] hands out the
    futures, and the export then computes the rate of line 230: it returns
    the sum when the sum is not positive, or when the sum has a [float]
    (it is below [2 ** 1024 - 2 ** 970]) and the two readings of the clock
    differ; it raises [OverflowError] when the sum has no [float], and
    [ZeroDivisionError] when the sum is positive, has a [float] and the two
    readings of the clock are equal. *)
Theorem export_total_is_sum es_version index_pattern query_body scroll_body source_fields
    engine yielded (totals : nat → Z) (start_exec end_exec : clock) :
  yielded ≡ₚ seq 0 NUM_SLICES →
  (∀ id, (id < NUM_SLICES)%nat →
     (process_slice es_version (Z.of_nat id) index_pattern query_body scroll_body
                    source_fields (engine id)).1 = Returned (JNum (totals id))) →
  (sum_totals totals ≤ 0 ∨ (sum_totals totals < FLOAT_OVERFLOW ∧ end_exec ≠ start_exec) →
     (save_message_metadata_to_csv_timed es_version index_pattern query_body scroll_body
        source_fields engine yielded start_exec end_exec).1.1 =
     Returned (JNum (sum_totals totals))) ∧
  (FLOAT_OVERFLOW ≤ sum_totals totals →
     (save_message_metadata_to_csv_timed es_version index_pattern query_body scroll_body
        source_fields engine yielded start_exec end_exec).1.1 =
     Raised OverflowError) ∧
  (0 < sum_totals totals < FLOAT_OVERFLOW → end_exec = start_exec →
     (save_message_metadata_to_csv_timed es_version index_pattern query_body scroll_body
        source_fields engine yielded start_exec end_exec).1.1 =
     Raised ZeroDivisionError).
Proof.
  intros Hperm Hreturned.
  pose proof (workers_total_is_sum es_version index_pattern query_body scroll_body
                source_fields engine yielded totals Hperm Hreturned) as Hsum.
  pose proof FLOAT_OVERFLOW_pos as Hpos.
  unfold save_message_metadata_to_csv_timed.
  destruct (save_message_metadata_to_csv es_version index_pattern query_body scroll_body
              source_fields engine yielded) as [[o header] traces].
  cbn [fst] in Hsum. subst o. unfold docs_per_sec.
  split; [|split].
  - intros [Hle | [Hlt Hclock]].
    + by destruct (Z.ltb_spec 0 (sum_totals totals)); [lia|].
    + destruct (Z.ltb_spec 0 (sum_totals totals)); [|done].
      destruct (Z.leb_spec FLOAT_OVERFLOW (sum_totals totals)); [lia|].
      by destruct (Z.eqb_spec end_exec start_exec).
  - intros Hge.
    destruct (Z.ltb_spec 0 (sum_totals totals)); [|lia].
    by destruct (Z.leb_spec FLOAT_OVERFLOW (sum_totals totals)); [|lia].
  - intros [Hgt Hlt] ->.
    destruct (Z.ltb_spec 0 (sum_totals totals)); [|lia].
    destruct (Z.leb_spec FLOAT_OVERFLOW (sum_totals totals)); [lia|].
    by rewrite Z.eqb_refl.
Qed.

Lemma export_total_is_sum_witness :
  (save_message_metadata_to_csv_timed VERSION_ES7 "idx" sample_plan JSON_SCROLL_BODY
     ["subject"] (λ id, [sample_page 200 "s1" (Z.of_nat id) []]) (rev (seq 0 NUM_SLICES))
     10 12).1.1 = Returned (JNum 45) ∧
  (save_message_metadata_to_csv_timed VERSION_ES7 "idx" sample_plan JSON_SCROLL_BODY
     ["subject"] (λ id, [sample_page 200 "s1" (Z.of_nat id) []]) (rev (seq 0 NUM_SLICES))
     10 10).1.1 = Raised ZeroDivisionError ∧
  (save_message_metadata_to_csv_timed VERSION_ES7 "idx" sample_plan JSON_SCROLL_BODY
     ["subject"] (λ id, [sample_page 200 "s1" (Z.of_nat id * 2 ^ 1024) []])
     (rev (seq 0 NUM_SLICES)) 10 12).1.1 = Raised OverflowError.
Proof.
  assert (Hsmall : ∀ id, (id < NUM_SLICES)%nat →
            (process_slice VERSION_ES7 (Z.of_nat id) "idx" sample_plan JSON_SCROLL_BODY
                           ["subject"] [sample_page 200 "s1" (Z.of_nat id) []]).1 =
            Returned (JNum (Z.of_nat id))).
  { intros id Hid.
    do 10 (destruct id as [|id]; [reflexivity|]). unfold NUM_SLICES in Hid. lia. }
  assert (Hlarge : ∀ id, (id < NUM_SLICES)%nat →
            (process_slice VERSION_ES7 (Z.of_nat id) "idx" sample_plan JSON_SCROLL_BODY
                           ["subject"] [sample_page 200 "s1" (Z.of_nat id * 2 ^ 1024) []]).1 =
            Returned (JNum (Z.of_nat id * 2 ^ 1024))).
  { intros id Hid.
    do 10 (destruct id as [|id]; [reflexivity|]). unfold NUM_SLICES in Hid. lia. }
  split; [|split].
  - apply (proj1 (export_total_is_sum VERSION_ES7 "idx" sample_plan JSON_SCROLL_BODY
                    ["subject"] (λ id, [sample_page 200 "s1" (Z.of_nat id) []])
                    (rev (seq 0 NUM_SLICES)) Z.of_nat 10 12
                    (symmetry (Permutation_rev _)) Hsmall)).
    right. split; [reflexivity|discriminate].
  - apply (proj2 (proj2 (export_total_is_sum VERSION_ES7 "idx" sample_plan JSON_SCROLL_BODY
                    ["subject"] (λ id, [sample_page 200 "s1" (Z.of_nat id) []])
                    (rev (seq 0 NUM_SLICES)) Z.of_nat 10 10
                    (symmetry (Permutation_rev _)) Hsmall))).
    + split; reflexivity.
    + reflexivity.
  - apply (proj1 (proj2 (export_total_is_sum VERSION_ES7 "idx" sample_plan JSON_SCROLL_BODY
                    ["subject"] (λ id, [sample_page 200 "s1" (Z.of_nat id * 2 ^ 1024) []])
                    (rev (seq 0 NUM_SLICES)) (λ id, Z.of_nat id * 2 ^ 1024) 10 12
                    (symmetry (Permutation_rev _)) Hlarge))).
    discriminate.
Defined.

(** X17. When some slice raises, the export raises the exception of the
    failed future that [as_completed] hands out first, which need not be
    the slice that failed first: the totals of the futures handed out before
    it are added and dropped, and the futures after it are not asked for
    their result (every slice having ended). The list [before ++ id ::
    after] is the order in which the futures are handed out. *)
Theorem export_raises_first_failure es_version index_pattern query_body scroll_body
    source_fields engine before id after (totals : nat → Z) e :
  (∀ i, (i < NUM_SLICES)%nat →
     is_starved (process_slice es_version (Z.of_nat i) index_pattern query_body
                               scroll_body source_fields (engine i)).1 = false) →
  (∀ i, i ∈ before →
     (process_slice es_version (Z.of_nat i) index_pattern query_body scroll_body
                    source_fields (engine i)).1 = Returned (JNum (totals i))) →
  (process_slice es_version (Z.of_nat id) index_pattern query_body scroll_body
                 source_fields (engine id)).1 = Raised e →
  (save_message_metadata_to_csv es_version index_pattern query_body scroll_body
     source_fields engine (before ++ id :: after)).1.1 = Raised e.
Proof.
  intros Hended Hbefore Hraised. unfold save_message_metadata_to_csv. cbv zeta. cbn [fst].
  rewrite no_slice_starved by done. rewrite map_app. cbn [map]. rewrite Hraised.
  generalize 0. induction before as [|i before IH]; intros total_msgs; cbn [map app gather].
  - done.
  - rewrite Hbefore by set_solver. cbn [py_add_int]. apply IH.
    intros j Hj. apply Hbefore. set_solver.
Qed.

Lemma export_raises_first_failure_witness :
  (save_message_metadata_to_csv VERSION_ES7 "idx" sample_plan JSON_SCROLL_BODY ["subject"]
     (λ id, match id with
            | 3%nat => [{| status_code := 500; body := Some (JObj []) |}]
            | 7%nat => [{| status_code := 403; body := Some (JObj []) |}]
            | _ => [sample_page 200 "s1" 4 []]
            end)
     ([0; 1; 7]%nat ++ 3%nat :: [2; 4; 5; 6; 8; 9]%nat)).1.1 =
  Raised (HTTPError 403) ∧
  (save_message_metadata_to_csv VERSION_ES7 "idx" sample_plan JSON_SCROLL_BODY ["subject"]
     (λ id, match id with
            | 3%nat => [{| status_code := 500; body := Some (JObj []) |}]
            | 7%nat => [{| status_code := 403; body := Some (JObj []) |}]
            | _ => [sample_page 200 "s1" 4 []]
            end)
     ([0; 1]%nat ++ 3%nat :: [7; 2; 4; 5; 6; 8; 9]%nat)).1.1 =
  Raised (HTTPError 500).
Proof.
  split.
  - reflexivity.
  - apply (export_raises_first_failure VERSION_ES7 "idx" sample_plan JSON_SCROLL_BODY
             ["subject"] _ [0; 1]%nat 3%nat [7; 2; 4; 5; 6; 8; 9]%nat (λ _, 4)).
    + intros i Hi. do 10 (destruct i as [|i]; [reflexivity|]). unfold NUM_SLICES in Hi. lia.
    + intros i Hi. apply list_elem_of_In in Hi. cbn in Hi.
      destruct Hi as [<- | [<- | []]]; reflexivity.
    + reflexivity.
Defined.

(** X18. One failing slice fails the export: when every slice has ended
    and a slice raised, the export raises, in whatever order the workers
    complete, and no total is returned. *)
Theorem export_fails_when_a_slice_fails es_version index_pattern query_body scroll_body
    source_fields engine completed id e :
  completed ≡ₚ seq 0 NUM_SLICES →
  (id < NUM_SLICES)%nat →
  (∀ i, (i < NUM_SLICES)%nat →
     is_starved (process_slice es_version (Z.of_nat i) index_pattern query_body
                               scroll_body source_fields (engine i)).1 = false) →
  (process_slice es_version (Z.of_nat id) index_pattern query_body scroll_body
                 source_fields (engine id)).1 = Raised e →
  ∃ e', (save_message_metadata_to_csv es_version index_pattern query_body scroll_body
           source_fields engine completed).1.1 = Raised e'.
Proof.
  intros Hperm Hid Hended Hraised.
  apply (export_fails_with_slice _ _ _ _ _ _ _ id e); [done| |  |done].
  - rewrite Hperm. apply list_elem_of_In, in_seq. lia.
  - intros i [Hi|Hi]; [by apply Hended|]. apply Hended.
    rewrite Hperm in Hi. apply list_elem_of_In, in_seq in Hi. lia.
Qed.

Lemma export_fails_when_a_slice_fails_witness :
  ∃ e', (save_message_metadata_to_csv VERSION_ES7 "idx" sample_plan JSON_SCROLL_BODY
           ["subject"]
           (λ id, match id with
                  | 3%nat => [{| status_code := 500; body := Some (JObj []) |}]
                  | _ => [sample_page 200 "s1" 4 []]
                  end)
           (rev (seq 0 NUM_SLICES))).1.1 = Raised e'.
Proof.
  apply (export_fails_when_a_slice_fails VERSION_ES7 "idx" sample_plan JSON_SCROLL_BODY
           ["subject"] _ (rev (seq 0 NUM_SLICES)) 3%nat (HTTPError 500)).
  - symmetry. apply Permutation_rev.
  - unfold NUM_SLICES. lia.
  - intros i Hi. do 10 (destruct i as [|i]; [reflexivity|]). unfold NUM_SLICES in Hi. lia.
  - reflexivity.
Defined.

(* ===================================================================== *)
(** ** The requests *)
(* ===================================================================== *)

(** X19. The search request of a compiled plan never fails: for every
    slice id the body sent is the plan with [slice] set to the id and to
    [NUM_SLICES] as the maximum, every other key as in the plan, and the
    address is the one of the dialect. *)
Theorem search_request_of_compiled_plan es_version query_doc plan es_version' slice_id
    index_pattern :
  init_query es_version query_doc = Ok plan →
  ∃ body,
    get_message_metadata_search es_version' slice_id index_pattern plan =
      Ok ({| url := search_url es_version' index_pattern; data := Some (JObj body) |},
          read_response) ∧
    dict_get "slice" body =
      Some (JObj [("id", JNum slice_id); ("max", JNum (Z.of_nat NUM_SLICES))]) ∧
    ∀ k, k ≠ "slice" → json_path [k] (JObj body) = json_path [k] plan.
Proof.
  intros Hplan. apply init_query_plan_shape in Hplan as [fields ->].
  unfold get_message_metadata_search. cbv zeta. rewrite set_slice_id_plan_for.
  cbn [mbind result_bind]. unfold plan_for. eexists. split; [reflexivity|]. split.
  - by rewrite dict_get_set_eq.
  - intros k Hk. by rewrite !json_path_singleton, !dict_get_set_ne.
Qed.

Lemma search_request_of_compiled_plan_witness :
  ∃ body,
    get_message_metadata_search VERSION_ES5 4 "idx" sample_plan =
      Ok ({| url := search_url VERSION_ES5 "idx"; data := Some (JObj body) |},
          read_response) ∧
    dict_get "slice" body =
      Some (JObj [("id", JNum 4); ("max", JNum (Z.of_nat NUM_SLICES))]) ∧
    ∀ k, k ≠ "slice" → json_path [k] (JObj body) = json_path [k] sample_plan.
Proof.
  apply (search_request_of_compiled_plan VERSION_ES7 sample_query sample_plan
           VERSION_ES5 4 "idx").
  reflexivity.
Defined.

(** X20. A slice whose query body was not compiled sends nothing: without
    the key [slice] the slice raises [KeyError] for it, with a [slice] that
    is not an object or a body that is not an object it raises
    [TypeError], and no response is read. *)
Theorem process_slice_needs_slice_key es_version slice_id index_pattern scroll_body
    source_fields inbox :
  (∀ d, dict_get "slice" d = None →
     process_slice es_version slice_id index_pattern (JObj d) scroll_body source_fields
                   inbox = (Raised (KeyError "slice"), Trace [] [] inbox)) ∧
  (∀ d slice, dict_get "slice" d = Some slice → (∀ fields, slice ≠ JObj fields) →
     process_slice es_version slice_id index_pattern (JObj d) scroll_body source_fields
                   inbox = (Raised TypeError, Trace [] [] inbox)) ∧
  (∀ query_body, (∀ d, query_body ≠ JObj d) →
     process_slice es_version slice_id index_pattern query_body scroll_body source_fields
                   inbox = (Raised TypeError, Trace [] [] inbox)).
Proof.
  unfold process_slice, get_message_metadata_search, set_slice_id. cbv zeta.
  split; [|split].
  - intros d Hd. cbn [py_getitem]. by rewrite Hd.
  - intros d slice Hd Hslice. cbn [py_getitem]. rewrite Hd. cbn [mbind result_bind].
    destruct slice; try done. by edestruct Hslice.
  - intros query_body Hq. destruct query_body; try done. by edestruct Hq.
Qed.

Lemma process_slice_needs_slice_key_witness :
  process_slice VERSION_ES7 0 "idx" sample_query JSON_SCROLL_BODY ["subject"]
                [sample_page 200 "s1" 1 [sample_hit "a" "x"]] =
    (Raised (KeyError "slice"),
     Trace [] [] [sample_page 200 "s1" 1 [sample_hit "a" "x"]]) ∧
  process_slice VERSION_ES7 0 "idx" (JObj [("slice", JNum 3)]) JSON_SCROLL_BODY
                ["subject"] [] = (Raised TypeError, Trace [] [] []) ∧
  process_slice VERSION_ES7 0 "idx" (JArr []) JSON_SCROLL_BODY ["subject"] [] =
    (Raised TypeError, Trace [] [] []).
Proof.
  split; [|split].
  - destruct sample_query as [| | | | |d] eqn:Hq; try discriminate Hq.
    apply (proj1 (process_slice_needs_slice_key VERSION_ES7 0 "idx" JSON_SCROLL_BODY
                    ["subject"] [sample_page 200 "s1" 1 [sample_hit "a" "x"]]) d).
    injection Hq as <-. reflexivity.
  - apply (proj1 (proj2 (process_slice_needs_slice_key VERSION_ES7 0 "idx"
                           JSON_SCROLL_BODY ["subject"] [])) [("slice", JNum 3)] (JNum 3)).
    + reflexivity.
    + discriminate.
  - apply (proj2 (proj2 (process_slice_needs_slice_key VERSION_ES7 0 "idx"
                           JSON_SCROLL_BODY ["subject"] [])) (JArr [])).
    discriminate.
Defined.

(** X21. The scroll request of an object body never fails and carries the
    scroll id it is given at [scroll_id], every other key of the body
    unchanged; the body it leaves gives, for the next scroll id, the request
    the first body gives: only the latest scroll id is sent. A body that is
    not an object raises [TypeError]. *)
Theorem scroll_request_carries_latest_id scroll_id next_id :
  (∀ scroll_fields, ∃ body,
     get_message_metadata_scroll scroll_id (JObj scroll_fields) =
       Ok ({| url := es_server +:+ "/" +:+ "_search/scroll"; data := Some (JObj body) |},
           JObj body, read_response) ∧
     dict_get "scroll_id" body = Some scroll_id ∧
     (∀ k, k ≠ "scroll_id" → dict_get k body = dict_get k scroll_fields) ∧
     get_message_metadata_scroll next_id (JObj body) =
       get_message_metadata_scroll next_id (JObj scroll_fields)) ∧
  (∀ scroll_body, (∀ d, scroll_body ≠ JObj d) →
     get_message_metadata_scroll scroll_id scroll_body = Raise TypeError).
Proof.
  split.
  - intros scroll_fields. exists (dict_set "scroll_id" scroll_id scroll_fields).
    split; [reflexivity|]. split; [apply dict_get_set_eq|]. split.
    + intros k Hk. by apply dict_get_set_ne.
    + unfold get_message_metadata_scroll. cbv zeta. cbn [py_setitem mbind result_bind].
      by rewrite dict_set_set.
  - intros scroll_body Hbody. destruct scroll_body; try done. by edestruct Hbody.
Qed.

Lemma scroll_request_carries_latest_id_witness :
  get_message_metadata_scroll (JStr "s1") (JArr []) = Raise TypeError ∧
  ∃ body,
    get_message_metadata_scroll (JStr "s1") (JObj [("scroll", JStr "1m"); ("scroll_id", JStr "")]) =
      Ok ({| url := es_server +:+ "/" +:+ "_search/scroll"; data := Some (JObj body) |},
          JObj body, read_response) ∧
    dict_get "scroll" body = Some (JStr "1m").
Proof.
  split.
  - apply (proj2 (scroll_request_carries_latest_id (JStr "s1") (JStr "s2")) (JArr [])).
    discriminate.
  - destruct (proj1 (scroll_request_carries_latest_id (JStr "s1") (JStr "s2"))
                [("scroll", JStr "1m"); ("scroll_id", JStr "")])
      as (body & Hrequest & _ & Hother & _).
    exists body. split; [exact Hrequest|].
    rewrite (Hother "scroll"); [reflexivity|discriminate].
Defined.

(* ===================================================================== *)
(** ** The version probe *)
(* ===================================================================== *)

Lemma before_dot_app major rest :
  no_dot major = true → before_dot (major +:+ "." +:+ rest) = major.
Proof.
  induction major as [|c major IH]; cbn [no_dot]; intros Hmajor.
  - reflexivity.
  - apply andb_true_iff in Hmajor as [Hc Hmajor].
    change (String c major +:+ "." +:+ rest) with (String c (major +:+ "." +:+ rest)).
    cbn [before_dot]. apply negb_true_iff in Hc. rewrite Hc. by rewrite IH.
Qed.

Lemma before_dot_no_dot s : no_dot s = true → before_dot s = s.
Proof.
  induction s as [|c s IH]; cbn [no_dot before_dot]; intros Hs; [done|].
  apply andb_true_iff in Hs as [Hc Hs]. apply negb_true_iff in Hc. rewrite Hc.
  by rewrite IH.
Qed.

Lemma check_es_version_number r doc number :
  status_code r = codes_ok → body r = Some doc →
  json_path ["version"; "number"] doc = Some number →
  check_es_version r = (es_version ← py_major number ; Ok es_version).
Proof.
  intros Hstatus Hbody Hnumber. unfold check_es_version.
  rewrite (check_search_response_ok _ Hstatus). cbn [mbind result_bind].
  unfold response_json. rewrite Hbody. cbn [mbind result_bind].
  apply json_path_two in Hnumber as (version & Hversion & Hnumber).
  rewrite Hversion. cbn [mbind result_bind]. rewrite Hnumber. cbn [mbind result_bind].
  destruct number; done.
Qed.

(** X22. A probe answered with status 200 and a version number
    [major.rest] sets the engine version to [major], the text before the
    first dot; a version number without a dot is taken whole. *)
Theorem check_es_version_takes_major r doc major :
  status_code r = codes_ok → body r = Some doc → no_dot major = true →
  (∀ rest, json_path ["version"; "number"] doc = Some (JStr (major +:+ "." +:+ rest)) →
     check_es_version r = Ok (JStr major)) ∧
  (json_path ["version"; "number"] doc = Some (JStr major) →
     check_es_version r = Ok (JStr major)).
Proof.
  intros Hstatus Hbody Hmajor. split.
  - intros rest Hnumber. rewrite (check_es_version_number _ _ _ Hstatus Hbody Hnumber).
    cbn [py_major mbind result_bind]. by rewrite before_dot_app.
  - intros Hnumber. rewrite (check_es_version_number _ _ _ Hstatus Hbody Hnumber).
    cbn [py_major mbind result_bind]. by rewrite before_dot_no_dot.
Qed.

Lemma check_es_version_takes_major_witness :
  check_es_version (sample_probe "7.17.3") = Ok (JStr "7").
Proof.
  apply (proj1 (check_es_version_takes_major (sample_probe "7.17.3")
                  (JObj [("name", JStr "node-1");
                         ("version", JObj [("number", JStr "7.17.3")])]) "7"
                  eq_refl eq_refl eq_refl) "17.3").
  reflexivity.
Defined.

(** X23. What makes the probe fail: a 4xx or 5xx status other than 404
    raises the HTTP error (the JSON error when the body is not JSON); with
    status 200, a body that is not JSON raises the JSON error, a document
    without [version] or a version without [number] raises [KeyError] for
    the key, and a version number that is not a string raises
    [AttributeError]. *)
Theorem check_es_version_probe_failures r :
  (400 ≤ status_code r < 600 → status_code r ≠ codes_not_found →
     check_es_version r =
     Raise (match body r with
            | Some _ => HTTPError (status_code r)
            | None => JSONDecodeError
            end)) ∧
  (status_code r = codes_ok → body r = None →
     check_es_version r = Raise JSONDecodeError) ∧
  (∀ d, status_code r = codes_ok → body r = Some (JObj d) → dict_get "version" d = None →
     check_es_version r = Raise (KeyError "version")) ∧
  (∀ d v, status_code r = codes_ok → body r = Some (JObj d) →
     dict_get "version" d = Some (JObj v) → dict_get "number" v = None →
     check_es_version r = Raise (KeyError "number")) ∧
  (∀ doc number, status_code r = codes_ok → body r = Some doc →
     json_path ["version"; "number"] doc = Some number → (∀ s, number ≠ JStr s) →
     check_es_version r = Raise AttributeError).
Proof.
  split; [|split; [|split; [|split]]].
  - intros Hrange Hnf. unfold check_es_version, check_search_response, codes_ok,
      codes_not_found in *.
    destruct (Z.eqb_spec (status_code r) 200); [lia|].
    destruct (Z.eqb_spec (status_code r) 404); [lia|].
    unfold response_json. destruct (body r); cbn [mbind result_bind]; [|done].
    unfold raise_for_status.
    destruct (Z.leb_spec 400 (status_code r)); [|lia].
    destruct (Z.ltb_spec (status_code r) 600); [|lia]. done.
  - intros Hstatus Hbody. unfold check_es_version.
    rewrite (check_search_response_ok _ Hstatus). cbn [mbind result_bind].
    unfold response_json. by rewrite Hbody.
  - intros d Hstatus Hbody Hversion. unfold check_es_version.
    rewrite (check_search_response_ok _ Hstatus). cbn [mbind result_bind].
    unfold response_json. rewrite Hbody. cbn [mbind result_bind py_getitem].
    by rewrite Hversion.
  - intros d v Hstatus Hbody Hversion Hnumber. unfold check_es_version.
    rewrite (check_search_response_ok _ Hstatus). cbn [mbind result_bind].
    unfold response_json. rewrite Hbody. cbn [mbind result_bind py_getitem].
    rewrite Hversion. cbn [mbind result_bind py_getitem]. by rewrite Hnumber.
  - intros doc number Hstatus Hbody Hnumber Hstr.
    rewrite (check_es_version_number _ _ _ Hstatus Hbody Hnumber).
    destruct number; try done. by edestruct Hstr.
Qed.

Lemma check_es_version_probe_failures_witness :
  check_es_version {| status_code := 401; body := Some (JObj []) |} =
    Raise (HTTPError 401) ∧
  check_es_version {| status_code := 200; body := None |} = Raise JSONDecodeError ∧
  check_es_version {| status_code := 200; body := Some (JObj [("name", JStr "n")]) |} =
    Raise (KeyError "version") ∧
  check_es_version {| status_code := 200; body := Some (JObj [("version", JObj [])]) |} =
    Raise (KeyError "number") ∧
  check_es_version
    {| status_code := 200; body := Some (JObj [("version", JObj [("number", JNum 7)])]) |} =
    Raise AttributeError.
Proof.
  split; [|split; [|split; [|split]]].
  - apply (proj1 (check_es_version_probe_failures
                    {| status_code := 401; body := Some (JObj []) |})).
    + cbn. lia.
    + discriminate.
  - apply (proj1 (proj2 (check_es_version_probe_failures
                           {| status_code := 200; body := None |}))); reflexivity.
  - apply (proj1 (proj2 (proj2 (check_es_version_probe_failures
             {| status_code := 200; body := Some (JObj [("name", JStr "n")]) |})))
             [("name", JStr "n")]); reflexivity.
  - apply (proj1 (proj2 (proj2 (proj2 (check_es_version_probe_failures
             {| status_code := 200; body := Some (JObj [("version", JObj [])]) |}))))
             [("version", JObj [])] []); reflexivity.
  - apply (proj2 (proj2 (proj2 (proj2 (check_es_version_probe_failures
             {| status_code := 200;
                body := Some (JObj [("version", JObj [("number", JNum 7)])]) |}))))
             (JObj [("version", JObj [("number", JNum 7)])]) (JNum 7));
      [reflexivity|reflexivity|reflexivity|discriminate].
Defined.

(* ===================================================================== *)
(** ** Requests and responses of a slice *)
(* ===================================================================== *)

Lemma scroll_request_url results scroll_body req scroll_body' receive :
  (scroll_id ← py_getitem results "_scroll_id" ;
   get_message_metadata_scroll scroll_id scroll_body) = Ok (req, scroll_body', receive) →
  url req = es_server +:+ "/" +:+ "_search/scroll".
Proof.
  destruct (py_getitem results "_scroll_id") as [scroll_id|]; cbn [mbind result_bind];
    [|done].
  unfold get_message_metadata_scroll. cbv zeta.
  destruct (py_setitem scroll_body "scroll_id" scroll_id); cbn [mbind result_bind]; [|done].
  by intros [= <- _ _].
Qed.

(** The loop sends scroll requests only, after those already sent, and
    reads one response for each of them. *)
Lemma paging_protocol source_fields total_hits results hits scroll_body inbox sent0 rows0 :
  ∃ new,
    sent (paging source_fields total_hits results hits scroll_body inbox sent0 rows0).2 =
      sent0 ++ new ∧
    Forall (λ req, url req = es_server +:+ "/" +:+ "_search/scroll") new ∧
    pending (paging source_fields total_hits results hits scroll_body inbox sent0 rows0).2
      `suffix_of` inbox ∧
    if is_starved
         (paging source_fields total_hits results hits scroll_body inbox sent0 rows0).1
    then pending (paging source_fields total_hits results hits scroll_body inbox sent0
                         rows0).2 = [] ∧
         length new = S (length inbox)
    else (length new +
          length (pending (paging source_fields total_hits results hits scroll_body inbox
                                  sent0 rows0).2))%nat = length inbox.
Proof.
  assert (∀ o rows1 (inbox1 : list response), is_starved o = false →
            ∃ new, sent (o, Trace sent0 rows1 inbox1).2 = sent0 ++ new ∧
                   Forall (λ req, url req = es_server +:+ "/" +:+ "_search/scroll") new ∧
                   pending (o, Trace sent0 rows1 inbox1).2 `suffix_of` inbox1 ∧
                   if is_starved (o, Trace sent0 rows1 inbox1).1
                   then pending (o, Trace sent0 rows1 inbox1).2 = [] ∧
                        length new = S (length inbox1)
                   else (length new + length (pending (o, Trace sent0 rows1 inbox1).2))%nat
                        = length inbox1) as Hend.
  { intros o rows1 inbox1 Ho. exists []. cbn [fst snd sent pending]. rewrite Ho, app_nil_r.
    repeat split; [by constructor|done]. }
  revert results hits scroll_body sent0 rows0 Hend.
  induction inbox as [|r inbox IH]; intros results hits scroll_body sent0 rows0 Hend;
    cbn [paging].
  - destruct (loop_test total_hits hits) as [[|]|]; [|by apply Hend..].
    destruct (py_iter hits) as [batch|]; [|by apply Hend].
    destruct (write_rows source_fields batch rows0) as [[[]|] rows1]; [|by apply Hend].
    destruct (_ ≫= _) as [[[req scroll_body'] receive]|] eqn:Hreq; [|by apply Hend].
    exists [req]. cbn [fst snd sent pending is_starved length].
    repeat split; [|done]. constructor; [|done]. by eapply scroll_request_url.
  - destruct (loop_test total_hits hits) as [[|]|]; [|by apply Hend..].
    destruct (py_iter hits) as [batch|]; [|by apply Hend].
    destruct (write_rows source_fields batch rows0) as [[[]|] rows1]; [|by apply Hend].
    destruct (py_getitem results "_scroll_id" ≫= _)
      as [[[req scroll_body'] receive]|] eqn:Hreq; [|by apply Hend].
    apply scroll_request_url in Hreq.
    destruct (_ ≫= _) as [[results' hits']|].
    + destruct (IH results' hits' scroll_body' (sent0 ++ [req]) rows1)
        as (new & Hsent & Hurls & Hsuffix & Hcount).
      { intros o rows2 inbox2 Ho. exists []. cbn [fst snd sent pending].
        rewrite Ho, app_nil_r. repeat split; [by constructor|done]. }
      exists (req :: new). rewrite Hsent, <- app_assoc. split; [done|].
      split; [by constructor|]. split; [by apply suffix_cons_r|].
      destruct (is_starved _); cbn [length]; [|lia].
      destruct Hcount as [-> ->]. done.
    + exists [req]. cbn [fst snd sent pending is_starved length].
      split; [done|]. split; [by constructor|]. split; [by apply suffix_cons_r|done].
Qed.

Lemma process_slice_protocol es_version slice_id index_pattern query_body scroll_body
    source_fields inbox req receive :
  get_message_metadata_search es_version slice_id index_pattern query_body =
    Ok (req, receive) →
  ∃ new,
    sent (process_slice es_version slice_id index_pattern query_body scroll_body
                        source_fields inbox).2 = req :: new ∧
    Forall (λ req, url req = es_server +:+ "/" +:+ "_search/scroll") new ∧
    pending (process_slice es_version slice_id index_pattern query_body scroll_body
                           source_fields inbox).2 `suffix_of` inbox ∧
    if is_starved (process_slice es_version slice_id index_pattern query_body scroll_body
                                 source_fields inbox).1
    then pending (process_slice es_version slice_id index_pattern query_body scroll_body
                                source_fields inbox).2 = [] ∧
         length new = length inbox
    else (S (length new) +
          length (pending (process_slice es_version slice_id index_pattern query_body
                                         scroll_body source_fields inbox).2))%nat
         = length inbox.
Proof.
  intros Hreq. unfold process_slice. rewrite Hreq.
  destruct inbox as [|r inbox].
  - exists []. cbn [fst snd sent pending is_starved length].
    split; [done|]. split; [by constructor|]. split; [reflexivity|done].
  - destruct (_ ≫= _) as [[[results total_hits] hits]|].
    + destruct (paging_protocol source_fields total_hits results hits scroll_body inbox
                                [req] []) as (new & Hsent & Hurls & Hsuffix & Hcount).
      exists new. split; [done|]. split; [done|]. split; [by apply suffix_cons_r|].
      destruct (is_starved _); cbn [length]; [|lia].
      destruct Hcount as [-> ->]. done.
    + exists []. cbn [fst snd sent pending is_starved length].
      split; [done|]. split; [by constructor|]. split; [by apply suffix_cons_r|done].
Qed.

(** X24. A first page that announces no hit ends the slice at once: the
    slice returns the total it read, writes no row even when the page
    carries hits, sends no scroll request and reads no other response. *)
Theorem process_slice_zero_total es_version slice_id index_pattern query_body scroll_body
    source_fields req receive r results total hits inbox :
  get_message_metadata_search es_version slice_id index_pattern query_body =
    Ok (req, receive) →
  read_response r = Ok results →
  read_total_hits es_version results = Ok (JNum total) →
  total ≤ 0 →
  json_path ["hits"; "hits"] results = Some hits →
  process_slice es_version slice_id index_pattern query_body scroll_body source_fields
                (r :: inbox) =
  (Returned (JNum total), Trace [req] [] inbox).
Proof.
  intros Hreq Hread Htotal Hle Hhits. unfold process_slice. rewrite Hreq.
  rewrite (get_message_metadata_search_receive _ _ _ _ _ _ Hreq), Hread.
  cbn [mbind result_bind]. rewrite Htotal. cbn [mbind result_bind].
  apply json_path_two in Hhits as (page & Hpage & Hhits).
  rewrite Hpage. cbn [mbind result_bind]. rewrite Hhits. cbn [mbind result_bind].
  apply paging_stop. unfold loop_test. cbn [py_gt0 mbind result_bind].
  by destruct (Z.ltb_spec 0 total); [lia|].
Qed.

Lemma process_slice_zero_total_witness :
  process_slice VERSION_ES7 0 "idx" sample_plan JSON_SCROLL_BODY ["subject"]
    [sample_page 200 "s1" 0 [sample_hit "a" "one"]; sample_page 200 "s2" 0 []] =
  (Returned (JNum 0),
   Trace [sample_search_request 0] [] [sample_page 200 "s2" 0 []]).
Proof.
  apply (process_slice_zero_total VERSION_ES7 0 "idx" sample_plan JSON_SCROLL_BODY
           ["subject"] (sample_search_request 0) read_response
           (sample_page 200 "s1" 0 [sample_hit "a" "one"])
           (sample_results "s1" 0 [sample_hit "a" "one"]) 0
           (JArr [sample_hit "a" "one"]));
    [reflexivity|reflexivity|reflexivity|lia|reflexivity].
Defined.

(** X25. A slice reads exactly one response for each request it sends and
    reads them in order: what is left unread is an end of the responses, and
    when the slice returns or raises the requests sent and the responses
    left unread add up to the responses there were. A slice that waits for
    an answer that never comes has sent one request more than there were
    responses. *)
Theorem process_slice_one_response_per_request es_version slice_id index_pattern query_body
    scroll_body source_fields inbox :
  pending (process_slice es_version slice_id index_pattern query_body scroll_body
                         source_fields inbox).2 `suffix_of` inbox ∧
  if is_starved (process_slice es_version slice_id index_pattern query_body scroll_body
                               source_fields inbox).1
  then pending (process_slice es_version slice_id index_pattern query_body scroll_body
                              source_fields inbox).2 = [] ∧
       length (sent (process_slice es_version slice_id index_pattern query_body scroll_body
                                   source_fields inbox).2) = S (length inbox)
  else (length (sent (process_slice es_version slice_id index_pattern query_body
                                    scroll_body source_fields inbox).2) +
        length (pending (process_slice es_version slice_id index_pattern query_body
                                       scroll_body source_fields inbox).2))%nat
       = length inbox.
Proof.
  destruct (get_message_metadata_search es_version slice_id index_pattern query_body)
    as [[req receive]|e] eqn:Hreq.
  - destruct (process_slice_protocol es_version slice_id index_pattern query_body scroll_body
                                     source_fields inbox req receive Hreq)
      as (new & Hsent & _ & Hsuffix & Hcount).
    split; [done|]. rewrite Hsent. cbn [length].
    destruct (is_starved _); [|done]. destruct Hcount as [-> ->]. done.
  - unfold process_slice. rewrite Hreq. cbn [fst snd sent pending is_starved length].
    split; [done|]. done.
Qed.

(** X26. The export searches every slice once: for each slice id below
    [NUM_SLICES] the worker of a compiled plan sends first the search
    request of the dialect, whose body has that id and [NUM_SLICES] as the
    maximum at [slice], and after it scroll requests only. *)
Theorem export_searches_every_slice es_version query_doc plan index_pattern scroll_body
    source_fields engine completed id :
  init_query es_version query_doc = Ok plan →
  (id < NUM_SLICES)%nat →
  ∃ t body scrolls,
    (save_message_metadata_to_csv es_version index_pattern plan scroll_body source_fields
       engine completed).2 !! id = Some t ∧
    sent t = {| url := search_url es_version index_pattern; data := Some (JObj body) |}
             :: scrolls ∧
    dict_get "slice" body =
      Some (JObj [("id", JNum (Z.of_nat id)); ("max", JNum (Z.of_nat NUM_SLICES))]) ∧
    Forall (λ req, url req = es_server +:+ "/" +:+ "_search/scroll") scrolls.
Proof.
  intros Hplan Hid. apply init_query_plan_shape in Hplan as [fields ->].
  unfold save_message_metadata_to_csv. cbv zeta. cbn [snd].
  rewrite list_lookup_fmap, lookup_seq_lt by done. cbn [fmap option_fmap option_map plus].
  edestruct (process_slice_protocol es_version (Z.of_nat id) index_pattern
               (plan_for fields [("id", JNum (-1)); ("max", JNum (Z.of_nat NUM_SLICES))]
                         (-1))
               scroll_body source_fields (engine id)) as (scrolls & Hsent & Hurls & _).
  { unfold get_message_metadata_search. cbv zeta. rewrite set_slice_id_plan_for.
    cbn [mbind result_bind]. unfold plan_for. reflexivity. }
  eexists _, _, scrolls. split; [reflexivity|]. split; [exact Hsent|].
  split; [|done]. by rewrite dict_get_set_eq.
Qed.

Lemma export_searches_every_slice_witness :
  ∃ t body scrolls,
    (save_message_metadata_to_csv VERSION_ES7 "idx" sample_plan JSON_SCROLL_BODY
       ["subject"] (λ _, [sample_page 200 "s1" 0 []]) (seq 0 NUM_SLICES)).2 !! 6%nat =
      Some t ∧
    sent t = {| url := search_url VERSION_ES7 "idx"; data := Some (JObj body) |}
             :: scrolls ∧
    dict_get "slice" body =
      Some (JObj [("id", JNum (Z.of_nat 6)); ("max", JNum (Z.of_nat NUM_SLICES))]) ∧
    Forall (λ req, url req = es_server +:+ "/" +:+ "_search/scroll") scrolls.
Proof.
  apply (export_searches_every_slice VERSION_ES7 sample_query sample_plan "idx"
           JSON_SCROLL_BODY ["subject"] (λ _, [sample_page 200 "s1" 0 []])
           (seq 0 NUM_SLICES) 6%nat).
  - reflexivity.
  - unfold NUM_SLICES. lia.
Defined.

(* ===================================================================== *)
(** ** The rows of a slice and the batches it reads *)
(* ===================================================================== *)

(** What the row loop has written when it ends or raises. *)
Lemma write_rows_inv source_fields batch rows0 :
  ∃ written new_rows,
    written `prefix_of` batch ∧
    Forall2 (row_of source_fields) written new_rows ∧
    (write_rows source_fields batch rows0).2 = rows0 ++ new_rows ∧
    (∀ u, (write_rows source_fields batch rows0).1 = Ok u → written = batch).
Proof.
  revert rows0. induction batch as [|hit batch IH]; intros rows0; cbn [write_rows].
  - exists [], []. rewrite app_nil_r. repeat split; [done|constructor].
  - destruct (hit_values source_fields hit) as [values|e] eqn:Hvalues.
    + destruct (IH (rows0 ++ [values])) as (written & new_rows & Hprefix & Hrows & Heq & Hall).
      exists (hit :: written), (values :: new_rows). split; [by apply prefix_cons|].
      split; [by constructor|]. split; [by rewrite Heq, <- app_assoc|].
      intros u Hu. f_equal. by eapply Hall.
    + exists [], []. cbn [fst snd]. rewrite app_nil_r.
      split; [apply prefix_nil|]. split; [constructor|]. split; done.
Qed.

Lemma loop_test_true total_hits hits :
  loop_test total_hits hits = Ok true →
  py_gt0 total_hits = Ok true ∧ py_iter hits = Ok (batch_hits hits) ∧ batch_hits hits ≠ [].
Proof.
  unfold loop_test, batch_hits.
  destruct (py_gt0 total_hits) as [[|]|]; cbn [mbind result_bind]; [|done..].
  destruct hits as [| | |s|l|d]; cbn [py_len py_iter mbind result_bind]; try done.
  - by destruct s.
  - by destruct l.
  - by destruct d.
Qed.

Lemma loop_test_false total_hits hits :
  loop_test total_hits hits = Ok false → py_gt0 total_hits = Ok true → batch_hits hits = [].
Proof.
  unfold loop_test, batch_hits. intros Htest Htotal. rewrite Htotal in Htest.
  cbn [mbind result_bind] in Htest.
  destruct hits as [| | |s|l|d]; cbn [py_len py_iter mbind result_bind] in *; try done.
  - by destruct s.
  - by destruct l.
  - by destruct d.
Qed.

Lemma read_response_json r results :
  read_response r = Ok results → response_json r = Ok results.
Proof.
  unfold read_response. by destruct (check_search_response r); cbn [mbind result_bind].
Qed.

Lemma response_hits_read r results page hits :
  read_response r = Ok results →
  py_getitem results "hits" = Ok page →
  py_getitem page "hits" = Ok hits →
  response_hits r = batch_hits hits.
Proof.
  intros Hread Hpage Hhits. unfold response_hits.
  rewrite (read_response_json _ _ Hread). cbn [mbind result_bind].
  rewrite Hpage. cbn [mbind result_bind]. by rewrite Hhits.
Qed.

(** The loop from a batch at hand: the rows it adds are the rows of the
    hits of that batch and of the batches of the responses it reads, in
    order and without gaps; when it returns for a positive total it has
    written all of them and every batch but the last one read had hits. *)
Lemma paging_rows source_fields total_hits :
  ∀ inbox results hits scroll_body sent0 rows0 o t,
    paging source_fields total_hits results hits scroll_body inbox sent0 rows0 = (o, t) →
    ∃ consumed written new_rows,
      inbox = consumed ++ pending t ∧
      written `prefix_of` (batch_hits hits ++ concat (response_hits <$> consumed)) ∧
      Forall2 (row_of source_fields) written new_rows ∧
      rows t = rows0 ++ new_rows ∧
      (∀ v, o = Returned v → py_gt0 total_hits = Ok true →
         written = batch_hits hits ++ concat (response_hits <$> consumed) ∧
         ∃ full, batch_hits hits :: (response_hits <$> consumed) = full ++ [[]] ∧
                 Forall (λ batch : list json, batch ≠ []) full).
Proof.
  assert (Hstop : ∀ (inbox : list response) hits sent1 rows0 e,
            ∃ consumed written new_rows,
              inbox = consumed ++ pending (Trace sent1 rows0 inbox) ∧
              written `prefix_of` (batch_hits hits ++ concat (response_hits <$> consumed)) ∧
              Forall2 (row_of source_fields) written new_rows ∧
              rows (Trace sent1 rows0 inbox) = rows0 ++ new_rows ∧
              (∀ v, Raised e = Returned v → py_gt0 total_hits = Ok true →
                 written = batch_hits hits ++ concat (response_hits <$> consumed) ∧
                 ∃ full, batch_hits hits :: (response_hits <$> consumed) = full ++ [[]] ∧
                         Forall (λ batch : list json, batch ≠ []) full)).
  { intros inbox hits sent1 rows0 e. exists [], [], []. cbn [pending rows app].
    split; [done|]. split; [apply prefix_nil|].
    split; [constructor|]. split; [by rewrite app_nil_r|]. intros v Hv. discriminate Hv. }
  assert (Hbatch : ∀ (consumed : list response) (inbox1 : list response) hits batch sent1
                     rows0 rows1 (o : outcome),
            py_iter hits = Ok batch →
            (∀ v, o ≠ Returned v) →
            (∃ written new_rows,
               written `prefix_of` batch ∧ Forall2 (row_of source_fields) written new_rows ∧
               rows1 = rows0 ++ new_rows) →
            ∃ consumed' written new_rows,
              consumed ++ inbox1 = consumed' ++ pending (Trace sent1 rows1 inbox1) ∧
              written `prefix_of` (batch_hits hits ++ concat (response_hits <$> consumed')) ∧
              Forall2 (row_of source_fields) written new_rows ∧
              rows (Trace sent1 rows1 inbox1) = rows0 ++ new_rows ∧
              (∀ v, o = Returned v → py_gt0 total_hits = Ok true →
                 written = batch_hits hits ++ concat (response_hits <$> consumed') ∧
                 ∃ full, batch_hits hits :: (response_hits <$> consumed') = full ++ [[]] ∧
                         Forall (λ batch : list json, batch ≠ []) full)).
  { intros consumed inbox1 hits batch sent1 rows0 rows1 o Hiter Ho
      (written & new_rows & Hprefix & Hrows & ->).
    exists consumed, written, new_rows. cbn [pending rows]. split; [done|].
    split; [|split; [done|split; [done|]]].
    - unfold batch_hits. rewrite Hiter. by apply prefix_app_r.
    - intros v Hv. by destruct (Ho v). }
  induction inbox as [|r inbox IH];
    intros results hits scroll_body sent0 rows0 o t Hrun; cbn [paging] in Hrun.
  - destruct (loop_test total_hits hits) as [[|]|e] eqn:Htest.
    + apply loop_test_true in Htest as (Htotal & Hiter & Hne). rewrite Hiter in Hrun.
      destruct (write_rows_inv source_fields (batch_hits hits) rows0)
        as (written & new_rows & Hprefix & Hrows & Heq & Hall).
      destruct (write_rows source_fields (batch_hits hits) rows0) as [[[]|e] rows1];
        cbn [fst snd] in Heq, Hall.
      * destruct (_ ≫= _) as [[[req scroll_body'] receive]|e]; injection Hrun as <- <-.
        -- apply (Hbatch [] [] hits (batch_hits hits)); [done|done|]. by eexists _, _.
        -- apply (Hbatch [] [] hits (batch_hits hits)); [done|done|]. by eexists _, _.
      * injection Hrun as <- <-.
        apply (Hbatch [] [] hits (batch_hits hits)); [done|done|]. by eexists _, _.
    + injection Hrun as <- <-. exists [], [], []. cbn [pending rows app fmap list_fmap concat].
      rewrite !app_nil_r. split; [done|]. split; [apply prefix_nil|].
      split; [constructor|]. split; [done|].
      intros v _ Htotal. rewrite (loop_test_false _ _ Htest Htotal).
      split; [done|]. exists []. split; [done|constructor].
    + injection Hrun as <- <-. apply Hstop.
  - destruct (loop_test total_hits hits) as [[|]|e] eqn:Htest.
    + apply loop_test_true in Htest as (Htotal & Hiter & Hne). rewrite Hiter in Hrun.
      destruct (write_rows_inv source_fields (batch_hits hits) rows0)
        as (written & new_rows & Hprefix & Hrows & Heq & Hall).
      destruct (write_rows source_fields (batch_hits hits) rows0) as [[[]|e] rows1];
        cbn [fst snd] in Heq, Hall.
      * specialize (Hall () eq_refl) as ->.
        destruct (py_getitem results "_scroll_id" ≫= _)
          as [[[req scroll_body'] receive]|e] eqn:Hreq.
        -- assert (receive = read_response) as ->.
           { destruct (py_getitem results "_scroll_id"); cbn [mbind result_bind] in Hreq;
               [|done]. by eapply get_message_metadata_scroll_receive. }
           destruct (read_response r) as [results'|e] eqn:Hread;
             cbn [mbind result_bind] in Hrun.
           ++ destruct (py_getitem results' "hits") as [page|e] eqn:Hpage;
                cbn [mbind result_bind] in Hrun.
              ** destruct (py_getitem page "hits") as [hits'|e] eqn:Hhits;
                   cbn [mbind result_bind] in Hrun.
                 --- apply IH in Hrun
                       as (consumed & written' & new_rows' & -> & Hprefix' & Hrows' & Heq'
                           & Hall').
                     rewrite <- (response_hits_read _ _ _ _ Hread Hpage Hhits) in Hprefix', Hall'.
                     exists (r :: consumed), (batch_hits hits ++ written'),
                       (new_rows ++ new_rows').
                     cbn [fmap list_fmap concat]. split; [done|].
                     split; [by apply prefix_app|]. split; [by apply Forall2_app|].
                     split; [by rewrite Heq', Heq, <- app_assoc|].
                     intros v Hv Htotal'. destruct (Hall' v Hv Htotal') as (-> & full & Hfull & Hne').
                     split; [done|]. exists (batch_hits hits :: full).
                     split; [by rewrite Hfull|by constructor].
                 --- injection Hrun as <- <-.
                     apply (Hbatch [r] inbox hits (batch_hits hits)); [done|done|].
                     by eexists _, _.
              ** injection Hrun as <- <-.
                 apply (Hbatch [r] inbox hits (batch_hits hits)); [done|done|].
                 by eexists _, _.
           ++ injection Hrun as <- <-.
              apply (Hbatch [r] inbox hits (batch_hits hits)); [done|done|].
              by eexists _, _.
        -- injection Hrun as <- <-.
           apply (Hbatch [] (r :: inbox) hits (batch_hits hits)); [done|done|].
           by eexists _, _.
      * injection Hrun as <- <-.
        apply (Hbatch [] (r :: inbox) hits (batch_hits hits)); [done|done|].
        by eexists _, _.
    + injection Hrun as <- <-. exists [], [], []. cbn [pending rows app fmap list_fmap concat].
      rewrite !app_nil_r. split; [done|]. split; [apply prefix_nil|].
      split; [constructor|]. split; [done|].
      intros v _ Htotal. rewrite (loop_test_false _ _ Htest Htotal).
      split; [done|]. exists []. split; [done|constructor].
    + injection Hrun as <- <-. apply Hstop.
Qed.

Lemma paging_returns_total source_fields total_hits :
  ∀ inbox results hits scroll_body sent0 rows0 v t,
    paging source_fields total_hits results hits scroll_body inbox sent0 rows0
      = (Returned v, t) →
    v = total_hits.
Proof.
  induction inbox as [|r inbox IH];
    intros results hits scroll_body sent0 rows0 v t Hrun; cbn [paging] in Hrun;
    repeat case_match; simplify_eq; eauto.
Qed.

(** The rows of a slice are the rows of the hits of the batches it read. *)
Lemma process_slice_rows es_version slice_id index_pattern query_body scroll_body
    source_fields inbox o t :
  process_slice es_version slice_id index_pattern query_body scroll_body source_fields
                inbox = (o, t) →
  ∃ consumed written,
    inbox = consumed ++ pending t ∧
    written `prefix_of` concat (response_hits <$> consumed) ∧
    Forall2 (row_of source_fields) written (rows t) ∧
    (∀ total, o = Returned total → py_gt0 total = Ok true →
       written = concat (response_hits <$> consumed) ∧
       ∃ full, response_hits <$> consumed = full ++ [[]] ∧
               Forall (λ batch : list json, batch ≠ []) full).
Proof.
  assert (Hstop : ∀ (consumed inbox1 : list response) sent1 e,
            ∃ consumed' written,
              consumed ++ inbox1 = consumed' ++ pending (Trace sent1 [] inbox1) ∧
              written `prefix_of` concat (response_hits <$> consumed') ∧
              Forall2 (row_of source_fields) written (rows (Trace sent1 [] inbox1)) ∧
              (∀ total, Raised e = Returned total → py_gt0 total = Ok true →
                 written = concat (response_hits <$> consumed') ∧
                 ∃ full, response_hits <$> consumed' = full ++ [[]] ∧
                         Forall (λ batch : list json, batch ≠ []) full)).
  { intros consumed inbox1 sent1 e. exists consumed, []. cbn [pending rows].
    split; [done|]. split; [apply prefix_nil|]. split; [constructor|].
    intros total Htotal. discriminate Htotal. }
  unfold process_slice.
  destruct (get_message_metadata_search es_version slice_id index_pattern query_body)
    as [[req receive]|e] eqn:Hreq.
  - apply get_message_metadata_search_receive in Hreq as ->.
    destruct inbox as [|r inbox].
    + intros [= <- <-]. exists [], []. cbn [pending rows app].
      split; [done|]. split; [apply prefix_nil|]. split; [constructor|].
      intros total Htotal. discriminate Htotal.
    + destruct (read_response r) as [results|e] eqn:Hread; cbn [mbind result_bind];
        [|intros [= <- <-]; apply (Hstop [r])].
      destruct (read_total_hits es_version results) as [total_hits|e];
        cbn [mbind result_bind]; [|intros [= <- <-]; apply (Hstop [r])].
      destruct (py_getitem results "hits") as [page|e] eqn:Hpage;
        cbn [mbind result_bind]; [|intros [= <- <-]; apply (Hstop [r])].
      destruct (py_getitem page "hits") as [hits|e] eqn:Hhits;
        cbn [mbind result_bind]; [|intros [= <- <-]; apply (Hstop [r])].
      intros Hrun.
      assert (Hv : ∀ total, o = Returned total → total = total_hits).
      { intros total ->. by eapply paging_returns_total. }
      apply paging_rows in Hrun
        as (consumed & written & new_rows & -> & Hprefix & Hrows & Heq & Hall).
      rewrite <- (response_hits_read _ _ _ _ Hread Hpage Hhits) in Hprefix, Hall.
      exists (r :: consumed), written. cbn [fmap list_fmap concat].
      split; [done|]. split; [done|]. split; [by rewrite Heq|].
      intros total Ho Htotal. apply Hall with total; [done|]. by rewrite <- (Hv total Ho).
  - intros [= <- <-]. apply (Hstop []).
Qed.

(** C3 (as amended). A hit that carries its document, an object with a
    [_source] object, always yields its row: the row has
    [len(SYSTEM_FIELDS) + len(source_fields)] values, the width of the
    header, each selected field at its position and the empty string where
    the document does not have the field. The rows [process_slice] emits
    are rows of this kind and no others: they are, one for one and in
    order, the rows of the hits of the batches it read, without gaps, of
    all the hits when the slice returns for a positive total; and every
    emitted row has the width of the header. *)
Theorem emitted_rows_are_rows_of_hits
    es_version slice_id index_pattern query_body scroll_body source_fields inbox :
  (∃ consumed written,
     inbox = consumed ++
             pending (process_slice es_version slice_id index_pattern query_body
                                    scroll_body source_fields inbox).2 ∧
     written `prefix_of` concat (response_hits <$> consumed) ∧
     Forall2 (row_of source_fields) written
             (rows (process_slice es_version slice_id index_pattern query_body scroll_body
                                  source_fields inbox).2) ∧
     (∀ total,
        (process_slice es_version slice_id index_pattern query_body scroll_body
                       source_fields inbox).1 = Returned total →
        py_gt0 total = Ok true →
        written = concat (response_hits <$> consumed))) ∧
  Forall (λ row, length row = (length SYSTEM_FIELDS + length source_fields)%nat)
         (rows (process_slice es_version slice_id index_pattern query_body scroll_body
                              source_fields inbox).2) ∧
  length (header_fields source_fields) = (length SYSTEM_FIELDS + length source_fields)%nat ∧
  ∀ hit_fields source,
    dict_get "_source" hit_fields = Some (JObj source) →
    ∃ values,
      row_of source_fields (JObj hit_fields) values ∧
      length values = (length SYSTEM_FIELDS + length source_fields)%nat ∧
      (∀ i f, SYSTEM_FIELDS !! i = Some f →
              values !! i =
                Some (match dict_get f hit_fields with Some v => v | None => JStr "" end)) ∧
      (∀ i f, source_fields !! i = Some f →
              values !! (length SYSTEM_FIELDS + i)%nat =
                Some (match dict_get f source with Some v => v | None => JStr "" end)) ∧
      (∀ i f, source_fields !! i = Some f → dict_get f source = None →
              values !! (length SYSTEM_FIELDS + i)%nat = Some (JStr "")).
Proof.
  split; [|split; [|split]].
  - destruct (process_slice es_version slice_id index_pattern query_body scroll_body
                            source_fields inbox) as [o t] eqn:Hrun.
    apply process_slice_rows in Hrun as (consumed & written & Hsplit & Hprefix & Hrows & Hall).
    exists consumed, written. cbn [fst snd]. split; [done|]. split; [done|].
    split; [done|]. intros total Ho Htotal. by destruct (Hall total Ho Htotal).
  - rewrite <- header_fields_length. apply process_slice_width.
  - apply header_fields_length.
  - intros hit_fields source Hsrc. by apply hit_values_positions.
Qed.

Lemma emitted_rows_are_rows_of_hits_witness :
  rows (process_slice VERSION_ES7 0 "idx" sample_plan JSON_SCROLL_BODY ["subject"; "sender"]
          [sample_page 200 "s1" 2
             [JObj [("_id", JStr "m1"); ("_source", JObj [("sender", JStr "ann")])];
              JObj [("_id", JStr "m2"); ("_source", JObj [("subject", JStr "hi")])]];
           sample_page 200 "s2" 2 []]).2 =
    [[JStr "m1"; JStr ""; JStr "ann"]; [JStr "m2"; JStr "hi"; JStr ""]] ∧
  ∃ values,
    row_of ["subject"; "sender"]
           (JObj [("_id", JStr "m1"); ("_source", JObj [("sender", JStr "ann")])]) values ∧
    values !! 1%nat = Some (JStr "").
Proof.
  destruct (emitted_rows_are_rows_of_hits VERSION_ES7 0 "idx" sample_plan JSON_SCROLL_BODY
              ["subject"; "sender"]
              [sample_page 200 "s1" 2
                 [JObj [("_id", JStr "m1"); ("_source", JObj [("sender", JStr "ann")])];
                  JObj [("_id", JStr "m2"); ("_source", JObj [("subject", JStr "hi")])]];
               sample_page 200 "s2" 2 []])
    as ((consumed & written & Hsplit & _ & Hrows & Hall) & _ & _ & Hhit).
  split.
  - specialize (Hall (JNum 2) eq_refl eq_refl).
    change (pending _) with (@nil response) in Hsplit.
    rewrite app_nil_r in Hsplit. subst consumed.
    vm_compute in Hall. subst written.
    apply Forall2_cons_inv_l in Hrows as (row1 & rest1 & Hrow1 & Hrows & ->).
    apply Forall2_cons_inv_l in Hrows as (row2 & rest2 & Hrow2 & Hrows & ->).
    apply Forall2_nil_inv_l in Hrows as ->.
    vm_compute in Hrow1, Hrow2. injection Hrow1 as <-. injection Hrow2 as <-.
    reflexivity.
  - destruct (Hhit [("_id", JStr "m1"); ("_source", JObj [("sender", JStr "ann")])]
                   [("sender", JStr "ann")] eq_refl) as (values & Hvalues & _ & _ & _ & Hempty).
    exists values. split; [exact Hvalues|].
    apply (Hempty 0%nat "subject"); reflexivity.
Defined.

(** The hit of an index that keeps no [_source]: with a source field
    selected the slice raises at the hit and writes no row for it. *)
Lemma process_slice_hit_without_source :
  process_slice VERSION_ES7 0 "idx" sample_plan JSON_SCROLL_BODY ["subject"]
    [sample_page 200 "s1" 1 [sample_bare_hit "m1"]] =
  (Raised (KeyError "_source"), Trace [sample_search_request 0] [] []).
Proof. reflexivity. Qed.

(** C8. The loop of [process_slice] runs no iteration when the reported
    total is zero or the first batch is empty: the slice returns the total
    having sent the search request only and written nothing. Otherwise the
    slice enters the loop with the first page, and only the batches decide
    how long it runs: an iteration whose scroll request is answered by a
    batch with hits is followed by the iteration of that batch, whatever the
    total and the rows written so far, and an iteration whose scroll request
    is answered by an empty batch is the last one, the slice returning the
    reported total at once and leaving later responses unread. So, for every
    sequence of responses, a slice that returns a positive total has read
    batches with hits up to the first empty batch and no further, and has
    written one row for every hit of these batches, however the number of
    rows compares with the total. *)
Theorem paging_ends_on_empty_batch source_fields :
  (∀ es_version slice_id index_pattern query_body scroll_body
     req receive r results n hits inbox,
     get_message_metadata_search es_version slice_id index_pattern query_body =
       Ok (req, receive) →
     receive r = Ok results →
     read_total_hits es_version results = Ok (JNum n) →
     json_path ["hits"; "hits"] results = Some hits →
     n = 0 ∨ hits = JArr [] →
     process_slice es_version slice_id index_pattern query_body scroll_body
                   source_fields (r :: inbox) =
     (Returned (JNum n), Trace [req] [] inbox)) ∧
  (∀ es_version slice_id index_pattern query_body scroll_body
     req receive r results total_hits hits inbox,
     get_message_metadata_search es_version slice_id index_pattern query_body =
       Ok (req, receive) →
     receive r = Ok results →
     read_total_hits es_version results = Ok total_hits →
     json_path ["hits"; "hits"] results = Some hits →
     process_slice es_version slice_id index_pattern query_body scroll_body
                   source_fields (r :: inbox) =
     paging source_fields total_hits results hits scroll_body inbox [req] []) ∧
  (∀ total_hits results hits scroll_body r inbox sent0 rows0
     batch rows1 scroll_id req scroll_body' receive results' hit hits',
     loop_test total_hits hits = Ok true →
     py_iter hits = Ok batch →
     write_rows source_fields batch rows0 = (Ok (), rows1) →
     py_getitem results "_scroll_id" = Ok scroll_id →
     get_message_metadata_scroll scroll_id scroll_body = Ok (req, scroll_body', receive) →
     receive r = Ok results' →
     json_path ["hits"; "hits"] results' = Some (JArr (hit :: hits')) →
     loop_test total_hits (JArr (hit :: hits')) = Ok true ∧
     paging source_fields total_hits results hits scroll_body (r :: inbox) sent0 rows0 =
     paging source_fields total_hits results' (JArr (hit :: hits')) scroll_body' inbox
            (sent0 ++ [req]) rows1) ∧
  (∀ total_hits results hits scroll_body r inbox sent0 rows0
     batch rows1 scroll_id req scroll_body' receive results',
     loop_test total_hits hits = Ok true →
     py_iter hits = Ok batch →
     write_rows source_fields batch rows0 = (Ok (), rows1) →
     py_getitem results "_scroll_id" = Ok scroll_id →
     get_message_metadata_scroll scroll_id scroll_body = Ok (req, scroll_body', receive) →
     receive r = Ok results' →
     json_path ["hits"; "hits"] results' = Some (JArr []) →
     paging source_fields total_hits results hits scroll_body (r :: inbox) sent0 rows0 =
     (Returned total_hits, Trace (sent0 ++ [req]) rows1 inbox)) ∧
  (∀ es_version slice_id index_pattern query_body scroll_body inbox total_hits t,
     process_slice es_version slice_id index_pattern query_body scroll_body
                   source_fields inbox = (Returned total_hits, t) →
     py_gt0 total_hits = Ok true →
     ∃ consumed full,
       inbox = consumed ++ pending t ∧
       response_hits <$> consumed = full ++ [[]] ∧
       Forall (λ batch : list json, batch ≠ []) full ∧
       Forall2 (row_of source_fields) (concat full) (rows t)).
Proof.
  split; [|split; [|split; [|split]]].
  - intros es_version slice_id index_pattern query_body scroll_body
      req receive r results n hits inbox Hreq Hread Htotal Hpath Hzero.
    apply json_path_hits in Hpath as (page & Hpage & Hhits).
    unfold process_slice. rewrite Hreq, Hread. cbn [mbind result_bind].
    rewrite Htotal. cbn [mbind result_bind]. rewrite Hpage. cbn [mbind result_bind].
    rewrite Hhits. cbn [mbind result_bind]. apply paging_stop.
    unfold loop_test. cbn [py_gt0 mbind result_bind].
    destruct Hzero as [->| ->]; [done|].
    by destruct (0 <? n).
  - intros es_version slice_id index_pattern query_body scroll_body
      req receive r results total_hits hits inbox Hreq Hread Htotal Hpath.
    apply json_path_hits in Hpath as (page & Hpage & Hhits).
    unfold process_slice. rewrite Hreq, Hread. cbn [mbind result_bind].
    rewrite Htotal. cbn [mbind result_bind]. rewrite Hpage. cbn [mbind result_bind].
    by rewrite Hhits.
  - intros total_hits results hits scroll_body r inbox sent0 rows0
      batch rows1 scroll_id req scroll_body' receive results' hit hits'
      Htest Hiter Hrows Hid Hreq Hread Hpath.
    apply json_path_hits in Hpath as (page & Hpage & Hhits).
    split.
    + apply loop_test_true in Htest as (Htotal & _ & _).
      unfold loop_test. by rewrite Htotal.
    + by apply (paging_step _ _ _ _ _ _ _ _ _ batch _ scroll_id req _ receive results' page).
  - intros total_hits results hits scroll_body r inbox sent0 rows0
      batch rows1 scroll_id req scroll_body' receive results'
      Htest Hiter Hrows Hid Hreq Hread Hpath.
    apply json_path_hits in Hpath as (page & Hpage & Hhits).
    rewrite (paging_step _ _ _ _ _ _ _ _ _ _ _ _ _ _ _ _ _ _
               Htest Hiter Hrows Hid Hreq Hread Hpage Hhits).
    apply paging_stop. by eapply loop_test_empty_batch.
  - intros es_version slice_id index_pattern query_body scroll_body inbox total_hits t
      Hrun Htotal.
    apply process_slice_rows in Hrun as (consumed & written & Hsplit & _ & Hrows & Hall).
    destruct (Hall total_hits eq_refl Htotal) as (-> & full & Hfull & Hne).
    exists consumed, full. split; [done|]. split; [done|]. split; [done|].
    rewrite Hfull, concat_app in Hrows. cbn [concat] in Hrows.
    by rewrite !app_nil_r in Hrows.
Qed.

Lemma paging_ends_on_empty_batch_witness :
  process_slice VERSION_ES7 4 "idx" sample_plan JSON_SCROLL_BODY ["subject"]
    [sample_page 200 "s1" 0 []; sample_page 200 "s2" 0 [sample_hit "c" "late"]] =
  (Returned (JNum 0),
   Trace [sample_search_request 4] [] [sample_page 200 "s2" 0 [sample_hit "c" "late"]]) ∧
  process_slice VERSION_ES7 4 "idx" sample_plan JSON_SCROLL_BODY ["subject"]
    [sample_page 200 "s1" 1 [sample_hit "a" "hello"];
     sample_page 200 "s2" 1 [sample_hit "b" "bye"; sample_hit "c" "more"];
     sample_page 200 "s3" 1 [];
     sample_page 200 "s4" 1 [sample_hit "d" "late"]] =
  (Returned (JNum 1),
   Trace (([sample_search_request 4] ++ [sample_scroll_request "s1"])
          ++ [sample_scroll_request "s2"])
         [[JStr "a"; JStr "hello"]; [JStr "b"; JStr "bye"]; [JStr "c"; JStr "more"]]
         [sample_page 200 "s4" 1 [sample_hit "d" "late"]]).
Proof.
  destruct (paging_ends_on_empty_batch ["subject"])
    as (Hzero & Henter & Hnext & Hlast & _).
  split.
  - apply Hzero with
      (receive := read_response) (results := sample_results "s1" 0 []) (hits := JArr []);
      [reflexivity | reflexivity | reflexivity | reflexivity | by right].
  - rewrite (Henter VERSION_ES7 4 "idx" sample_plan JSON_SCROLL_BODY
               (sample_search_request 4) read_response
               (sample_page 200 "s1" 1 [sample_hit "a" "hello"])
               (sample_results "s1" 1 [sample_hit "a" "hello"]) (JNum 1)
               (JArr [sample_hit "a" "hello"]) _ eq_refl eq_refl eq_refl eq_refl).
    rewrite (proj2 (Hnext (JNum 1) (sample_results "s1" 1 [sample_hit "a" "hello"])
               (JArr [sample_hit "a" "hello"]) JSON_SCROLL_BODY
               (sample_page 200 "s2" 1 [sample_hit "b" "bye"; sample_hit "c" "more"])
               _ [sample_search_request 4] []
               [sample_hit "a" "hello"] [[JStr "a"; JStr "hello"]] (JStr "s1")
               (sample_scroll_request "s1")
               (JObj [("scroll", JStr "1m"); ("scroll_id", JStr "s1")]) read_response
               (sample_results "s2" 1 [sample_hit "b" "bye"; sample_hit "c" "more"])
               (sample_hit "b" "bye") [sample_hit "c" "more"]
               eq_refl eq_refl eq_refl eq_refl eq_refl eq_refl eq_refl)).
    apply Hlast with
      (batch := [sample_hit "b" "bye"; sample_hit "c" "more"])
      (scroll_id := JStr "s2")
      (scroll_body' := JObj [("scroll", JStr "1m"); ("scroll_id", JStr "s2")])
      (receive := read_response) (results' := sample_results "s3" 1 []);
      reflexivity.
Defined.
